(** * Short-term-rental dashboard: KPI aggregator, filters and chart series

    A shallow embedding of [Globlal_Dashboard.py] and [test_version.py].

    Conventions of the model.
    - A pandas [DataFrame] is a Python object: functions receive a reference
      into a store of tables, and an assignment [df[c] = v] updates the
      table the reference points to.  Boolean indexing [df[mask]] allocates
      a new table.
    - Numbers that pandas and numpy hold as float64 are values of [float64]:
      [Fin q] names the float64 nearest to the rational [q], and [PInf],
      [NInf], [NaN] are the IEEE specials.  The cells of a numeric column,
      counts and column sums are named by their exact value (the order in
      which pandas adds up a column is not fixed by the source), and so is
      the quotient of two of them.  An operation that reads the result of
      an earlier float64 operation reads the float64 that result names
      ([b64]: a significand of 53 bits, ties to even): this is where
      binary rounding enters, in [x * 100] and in [round(x, 2)].  The
      exponent range is not modelled (no overflow to infinity, no
      underflow), and zero is unsigned and counts as +0 in a division.
      int64 sums wrap around at 64 bits.
    - A date is the number of days since 1970-01-01; [None] is [NaT].
      Text cells of a date column carry the day their text denotes, so
      [pd.to_datetime] is total on them. *)

From Stdlib Require Import ZArith QArith Qround Qabs Qpower.
From Stdlib Require Import List String Bool Lia Lqa.
From Stdlib Require Import Sorted.
Import ListNotations.

Open Scope string_scope.
Open Scope list_scope.
Open Scope Z_scope.

(** ** numpy scalars *)

Inductive float64 : Type :=
| Fin (q : Q)
| PInf
| NInf
| NaN.

Definition of_int (z : Z) : float64 := Fin (inject_Z z).

Definition Qsign (q : Q) : comparison := (q ?= 0)%Q.

(** Nearest integer, ties to the even one. *)
Definition round_half_even (q : Q) : Z :=
  let f := Qfloor q in
  match (q - inject_Z f ?= 1 # 2)%Q with
  | Lt => f
  | Gt => f + 1
  | Eq => if Z.even f then f else f + 1
  end.

(** Floor of the binary logarithm of a positive rational. *)
Definition Qlog2 (q : Q) : Z :=
  let l := Z.log2 (Qnum q) - Z.log2 (Zpos (Qden q)) in
  if Qle_bool (2 ^ l) q then l else l - 1.

(** The float64 nearest to a rational: the number is scaled to a
    significand between 2^52 and 2^53, the significand is rounded to the
    nearest integer, the even one half way, and scaled back. *)
Definition b64_pos (q : Q) : Q :=
  let e := Qlog2 q - 52 in
  (inject_Z (round_half_even (q / 2 ^ e)) * 2 ^ e)%Q.

Definition b64 (q : Q) : Q :=
  match (q ?= 0)%Q with
  | Eq => 0%Q
  | Gt => Qred (b64_pos q)
  | Lt => Qred (- b64_pos (- q))
  end.

(** The float64 a computed number is held as. *)
Definition as_float64 (a : float64) : float64 :=
  match a with
  | Fin q => Fin (b64 q)
  | _ => a
  end.

(** [a + b] and [a * b] taken exactly: on day counts and on numbers of
    properties, which are Python ints (or the [nan] that [NaT] gives for
    a day count), and on the share that a pie chart displays as a
    percentage. *)
Definition np_add (a b : float64) : float64 :=
  match a, b with
  | NaN, _ | _, NaN => NaN
  | Fin x, Fin y => Fin (Qred (x + y))
  | PInf, NInf | NInf, PInf => NaN
  | PInf, _ | _, PInf => PInf
  | NInf, _ | _, NInf => NInf
  end.

Definition np_mul (a b : float64) : float64 :=
  match a, b with
  | NaN, _ | _, NaN => NaN
  | Fin x, Fin y => Fin (Qred (x * y))
  | Fin x, PInf | PInf, Fin x =>
      match Qsign x with Eq => NaN | Gt => PInf | Lt => NInf end
  | Fin x, NInf | NInf, Fin x =>
      match Qsign x with Eq => NaN | Gt => NInf | Lt => PInf end
  | PInf, PInf | NInf, NInf => PInf
  | PInf, NInf | NInf, PInf => NInf
  end.

(** [a / b] on numpy scalars and on Series: a zero divisor gives an
    infinity or [NaN] (with a RuntimeWarning at most), never an exception.
    The operands here are cells, counts and column sums; the float64
    quotient is named by their exact quotient. *)
Definition np_truediv (a b : float64) : float64 :=
  match a, b with
  | NaN, _ | _, NaN => NaN
  | Fin x, Fin y =>
      match Qsign y with
      | Eq => match Qsign x with Eq => NaN | Gt => PInf | Lt => NInf end
      | _ => Fin (Qred (x / y))
      end
  | Fin _, _ => Fin 0
  | PInf, Fin y => match Qsign y with Lt => NInf | _ => PInf end
  | NInf, Fin y => match Qsign y with Lt => PInf | _ => NInf end
  | _, _ => NaN
  end.

(** [a * b] where [a] is a float64 that an earlier operation computed:
    the product of the two float64 values. *)
Definition float_mul (a b : float64) : float64 :=
  np_mul (as_float64 a) (as_float64 b).

(** [np.rint]: the nearest integer, the even one half way. *)
Definition np_rint (a : float64) : float64 :=
  match as_float64 a with
  | Fin q => of_int (round_half_even q)
  | s => s
  end.

(** [round(x, 2)] on a numpy float64.  numpy scalars have their own
    [__round__], which is [numpy.round]: [x * 100], then [rint], then
    [/ 100], each in float64.  The quotient is named by the hundredths it
    is the float64 of.  The specials pass through unchanged. *)
Definition round2 (a : float64) : float64 :=
  np_truediv (np_rint (float_mul a (of_int 100))) (of_int 100).

(** A rational rounded to two decimals, ties to the even hundredth. *)
Definition Qround2 (q : Q) : Q := Qred (round_half_even (q * 100) # 100).

(** [round(x, 2)] on a Python float, here the cancellation rate, which is
    computed from two Python ints: the float64 is rounded correctly to
    two decimals, the even hundredth half way.  The specials pass through
    unchanged. *)
Definition py_round2 (a : float64) : float64 :=
  match as_float64 a with
  | Fin q => Fin (Qround2 q)
  | s => s
  end.

(** Truth value of a number in [x if n else y]: only zero is false. *)
Definition truthy (a : float64) : bool :=
  match a with
  | Fin q => negb (Qeq_bool q 0)
  | _ => true
  end.

(** ** Python exceptions *)

Inductive exn : Type :=
| KeyError (label : string)
| IndexError
| ValueError
| ZeroDivisionError
| InvalidReference.

(** ** pandas Series reductions *)

(** Two's-complement wrap-around of an int64 accumulator. *)
Definition wrap64 (z : Z) : Z := (z + 2 ^ 63) mod 2 ^ 64 - 2 ^ 63.

Definition Zsum (l : list Z) : Z := fold_right Z.add 0 l.

Definition Qsum (l : list Q) : Q := fold_right Qplus 0%Q l.

(** [Series.sum()] of an int64 column. *)
Definition sum_int64 (l : list Z) : Z := wrap64 (Zsum l).

(** [Series.sum()] of a float64 column without nulls, named by the exact
    sum of its cells: what pandas returns is this sum up to the rounding
    of its additions, whose order the source does not fix. *)
Definition sum_float (l : list Q) : float64 := Fin (Qred (Qsum l)).

Definition len {A : Type} (l : list A) : Z := Z.of_nat (List.length l).

(** [Series.mean()] of an int64 column: accumulated in float64, [NaN] when
    the column is empty; the float64 quotient of sum and count is named by
    the exact quotient. *)
Definition mean_int (l : list Z) : float64 :=
  match l with
  | [] => NaN
  | _ => Fin (Qred (inject_Z (Zsum l) / inject_Z (len l)))
  end.

(** Null cells of a float64 column are [None]. *)
Fixpoint dropna (l : list (option Q)) : list Q :=
  match l with
  | [] => []
  | Some q :: t => q :: dropna t
  | None :: t => dropna t
  end.

(** [Series.mean()] of a float64 column: nulls are skipped, and the mean
    of no value at all is [NaN]. *)
Definition mean_float (l : list (option Q)) : float64 :=
  match dropna l with
  | [] => NaN
  | v => Fin (Qred (Qsum v / inject_Z (len v)))
  end.

(** [Series.unique()]: distinct values in order of first appearance. *)
Fixpoint unique (l : list string) : list string :=
  match l with
  | [] => []
  | x :: t => x :: filter (fun y => negb (y =? x)%string) (unique t)
  end.

(** [Series.max()] and [Series.min()] of a datetime column; [None] is
    [NaT], the result on an empty column. *)
Definition date_max (l : list Z) : option Z :=
  match l with
  | [] => None
  | x :: t => Some (fold_left Z.max t x)
  end.

Definition date_min (l : list Z) : option Z :=
  match l with
  | [] => None
  | x :: t => Some (fold_left Z.min t x)
  end.

(** [Timestamp - Timestamp]: a Timedelta in days, [NaT] if either is. *)
Definition timedelta (a b : option Z) : option Z :=
  match a, b with
  | Some x, Some y => Some (x - y)
  | _, _ => None
  end.

(** [Timedelta.days]; [NaT.days] is [nan]. *)
Definition days (d : option Z) : float64 :=
  match d with
  | Some n => of_int n
  | None => NaN
  end.

(** First day of the calendar month of a day number
    ([.dt.to_period('M').dt.start_time]), by the civil-calendar
    decomposition of the proleptic Gregorian calendar. *)
Definition day_of_month (z : Z) : Z :=
  let z := z + 719468 in
  let era := z / 146097 in
  let doe := z - era * 146097 in
  let yoe := (doe - doe / 1460 + doe / 36524 - doe / 146096) / 365 in
  let doy := doe - (365 * yoe + yoe / 4 - yoe / 100) in
  let mp := (5 * doy + 2) / 153 in
  doy - (153 * mp + 2) / 5 + 1.

Definition month_start (z : Z) : Z := z - (day_of_month z - 1).

(** ** Grouping *)

Section GroupBy.
Context {K V : Type}.
Variable keq : K -> K -> bool.
Variable klt : K -> K -> bool.

(** Add one row to its group, keeping the groups ordered by key and the
    rows of a group in table order. *)
Fixpoint group_insert (k : K) (v : V) (g : list (K * list V))
  : list (K * list V) :=
  match g with
  | [] => [(k, [v])]
  | (k', vs) :: g' =>
      if keq k k' then (k', vs ++ [v]) :: g'
      else if klt k k' then (k, [v]) :: g
      else (k', vs) :: group_insert k v g'
  end.

(** [df.groupby(key)]: one group per distinct key, sorted by key. *)
Definition groupby (kv : list (K * V)) : list (K * list V) :=
  fold_left (fun g p => group_insert (fst p) (snd p) g) kv [].

(** [.agg(f)] / [.apply(f)] followed by [reset_index()]. *)
Definition aggregate {R : Type} (f : list V -> R) (g : list (K * list V))
  : list (K * R) :=
  map (fun p => (fst p, f (snd p))) g.
End GroupBy.

Definition pair_eqb (a b : Z * string) : bool :=
  (fst a =? fst b) && (snd a =? snd b)%string.

Definition pair_ltb (a b : Z * string) : bool :=
  (fst a <? fst b) || ((fst a =? fst b) && (snd a <? snd b)%string).

Definition spair_eqb (a b : string * string) : bool :=
  (fst a =? fst b)%string && (snd a =? snd b)%string.

Definition spair_ltb (a b : string * string) : bool :=
  (fst a <? fst b)%string
  || ((fst a =? fst b)%string && (snd a <? snd b)%string).

(** ** Tables *)

(** A cell of a date column: text as read from the CSV file, or a parsed
    Timestamp.  Both carry the day they denote. *)
Inductive datecell : Type :=
| DateText (day : Z)
| Timestamp (day : Z).

Definition day_of (c : datecell) : Z :=
  match c with
  | DateText d => d
  | Timestamp d => d
  end.

(** [pd.to_datetime] on one cell. *)
Definition to_datetime (c : datecell) : datecell := Timestamp (day_of c).

(** A cell of the [lead_time] column: a Timedelta or an int64 day count. *)
Inductive leadcell : Type :=
| Timedelta (d : Z)
| Days (n : Z).

(** One row of the bookings CSV file. *)
Record CsvBooking : Type := {
  csv_code : string;
  csv_property_name : string;
  csv_platform : string;
  csv_status : string;
  csv_checkin_date : Z;
  csv_checkout_date : Z;
  csv_booking_date : Z;
  csv_nights : Z;
  csv_revenue : Q
}.

(** One row of the reviews CSV file, restricted to the columns that
    [load_data] keeps; an empty rating cell is [None]. *)
Record Review : Type := {
  rv_code : string;
  rv_rating : option Q;
  rv_value_rating : option Q;
  rv_communication_rating : option Q;
  rv_location_rating : option Q;
  rv_cleanliness_rating : option Q;
  rv_accuracy_rating : option Q;
  rv_checkin_rating : option Q
}.

(** One row of the joined table.  A field whose column is not among the
    table's [columns] holds a placeholder that no function reads. *)
Record Booking : Type := {
  code : string;
  property_name : string;
  platform : string;
  status : string;
  checkin_date : datecell;
  checkout_date : datecell;
  booking_date : datecell;
  nights : Z;
  revenue : Q;
  rating : option Q;
  value_rating : option Q;
  communication_rating : option Q;
  location_rating : option Q;
  cleanliness_rating : option Q;
  accuracy_rating : option Q;
  checkin_rating : option Q;
  month : Z;
  nightly_rate : float64;
  lead_time : leadcell
}.

Record DataFrame : Type := {
  columns : list string;
  rows : list Booking
}.

Definition has_column (c : string) (t : DataFrame) : bool :=
  existsb (String.eqb c) (columns t).

(** Field updates behind [df[c] = values]. *)
Definition set_checkin_date (r : Booking) (v : datecell) : Booking :=
  {| code := code r; property_name := property_name r;
     platform := platform r; status := status r;
     checkin_date := v; checkout_date := checkout_date r;
     booking_date := booking_date r; nights := nights r;
     revenue := revenue r; rating := rating r;
     value_rating := value_rating r;
     communication_rating := communication_rating r;
     location_rating := location_rating r;
     cleanliness_rating := cleanliness_rating r;
     accuracy_rating := accuracy_rating r;
     checkin_rating := checkin_rating r; month := month r;
     nightly_rate := nightly_rate r; lead_time := lead_time r |}.

Definition set_checkout_date (r : Booking) (v : datecell) : Booking :=
  {| code := code r; property_name := property_name r;
     platform := platform r; status := status r;
     checkin_date := checkin_date r; checkout_date := v;
     booking_date := booking_date r; nights := nights r;
     revenue := revenue r; rating := rating r;
     value_rating := value_rating r;
     communication_rating := communication_rating r;
     location_rating := location_rating r;
     cleanliness_rating := cleanliness_rating r;
     accuracy_rating := accuracy_rating r;
     checkin_rating := checkin_rating r; month := month r;
     nightly_rate := nightly_rate r; lead_time := lead_time r |}.

Definition set_booking_date (r : Booking) (v : datecell) : Booking :=
  {| code := code r; property_name := property_name r;
     platform := platform r; status := status r;
     checkin_date := checkin_date r; checkout_date := checkout_date r;
     booking_date := v; nights := nights r;
     revenue := revenue r; rating := rating r;
     value_rating := value_rating r;
     communication_rating := communication_rating r;
     location_rating := location_rating r;
     cleanliness_rating := cleanliness_rating r;
     accuracy_rating := accuracy_rating r;
     checkin_rating := checkin_rating r; month := month r;
     nightly_rate := nightly_rate r; lead_time := lead_time r |}.

Definition set_month (r : Booking) (v : Z) : Booking :=
  {| code := code r; property_name := property_name r;
     platform := platform r; status := status r;
     checkin_date := checkin_date r; checkout_date := checkout_date r;
     booking_date := booking_date r; nights := nights r;
     revenue := revenue r; rating := rating r;
     value_rating := value_rating r;
     communication_rating := communication_rating r;
     location_rating := location_rating r;
     cleanliness_rating := cleanliness_rating r;
     accuracy_rating := accuracy_rating r;
     checkin_rating := checkin_rating r; month := v;
     nightly_rate := nightly_rate r; lead_time := lead_time r |}.

Definition set_nightly_rate (r : Booking) (v : float64) : Booking :=
  {| code := code r; property_name := property_name r;
     platform := platform r; status := status r;
     checkin_date := checkin_date r; checkout_date := checkout_date r;
     booking_date := booking_date r; nights := nights r;
     revenue := revenue r; rating := rating r;
     value_rating := value_rating r;
     communication_rating := communication_rating r;
     location_rating := location_rating r;
     cleanliness_rating := cleanliness_rating r;
     accuracy_rating := accuracy_rating r;
     checkin_rating := checkin_rating r; month := month r;
     nightly_rate := v; lead_time := lead_time r |}.

Definition set_lead_time (r : Booking) (v : leadcell) : Booking :=
  {| code := code r; property_name := property_name r;
     platform := platform r; status := status r;
     checkin_date := checkin_date r; checkout_date := checkout_date r;
     booking_date := booking_date r; nights := nights r;
     revenue := revenue r; rating := rating r;
     value_rating := value_rating r;
     communication_rating := communication_rating r;
     location_rating := location_rating r;
     cleanliness_rating := cleanliness_rating r;
     accuracy_rating := accuracy_rating r;
     checkin_rating := checkin_rating r; month := month r;
     nightly_rate := nightly_rate r; lead_time := v |}.

(** A column: its label and the field of a row that holds its cell. *)
Record Column (A : Type) : Type := {
  label : string;
  cell : Booking -> A
}.
Arguments label {A} _.
Arguments cell {A} _ _.

Definition c_code := {| label := "code"; cell := code |}.
Definition c_property_name :=
  {| label := "property_name"; cell := property_name |}.
Definition c_platform := {| label := "platform"; cell := platform |}.
Definition c_status := {| label := "status"; cell := status |}.
Definition c_checkin_date :=
  {| label := "checkin_date"; cell := checkin_date |}.
Definition c_checkout_date :=
  {| label := "checkout_date"; cell := checkout_date |}.
Definition c_booking_date :=
  {| label := "booking_date"; cell := booking_date |}.
Definition c_nights := {| label := "nights"; cell := nights |}.
Definition c_revenue := {| label := "revenue"; cell := revenue |}.
Definition c_rating := {| label := "rating"; cell := rating |}.
Definition c_value_rating :=
  {| label := "value_rating"; cell := value_rating |}.
Definition c_communication_rating :=
  {| label := "communication_rating"; cell := communication_rating |}.
Definition c_location_rating :=
  {| label := "location_rating"; cell := location_rating |}.
Definition c_cleanliness_rating :=
  {| label := "cleanliness_rating"; cell := cleanliness_rating |}.
Definition c_accuracy_rating :=
  {| label := "accuracy_rating"; cell := accuracy_rating |}.
Definition c_checkin_rating :=
  {| label := "checkin_rating"; cell := checkin_rating |}.
Definition c_month := {| label := "month"; cell := month |}.
Definition c_nightly_rate :=
  {| label := "nightly_rate"; cell := nightly_rate |}.
Definition c_lead_time := {| label := "lead_time"; cell := lead_time |}.

(** ** The object store and the monad of the programs *)

Definition ref : Type := nat.
Definition store : Type := list DataFrame.

Inductive result (A : Type) : Type :=
| Ok (a : A)
| Raise (e : exn).
Arguments Ok {A} a.
Arguments Raise {A} e.

Definition M (A : Type) : Type := store -> result A * store.

Definition ret {A : Type} (a : A) : M A := fun s => (Ok a, s).

Definition raise {A : Type} (e : exn) : M A := fun s => (Raise e, s).

Definition bind {A B : Type} (m : M A) (k : A -> M B) : M B :=
  fun s =>
    match m s with
    | (Ok a, s') => k a s'
    | (Raise e, s') => (Raise e, s')
    end.

Notation "x <- m ;; k" := (bind m (fun x => k))
  (at level 61, m at next level, right associativity).
Notation "m ;; k" := (bind m (fun _ => k))
  (at level 61, right associativity).

Fixpoint update (s : store) (r : ref) (t : DataFrame) : store :=
  match s, r with
  | [], _ => []
  | _ :: s', O => t :: s'
  | x :: s', S r' => x :: update s' r' t
  end.

Definition read (df : ref) : M DataFrame :=
  fun s =>
    match nth_error s df with
    | Some t => (Ok t, s)
    | None => (Raise InvalidReference, s)
    end.

Definition write (df : ref) (t : DataFrame) : M unit :=
  fun s => (Ok tt, update s df t).

(** A new table object. *)
Definition alloc (t : DataFrame) : M ref :=
  fun s => (Ok (List.length s), s ++ [t]).

(** [df[c]]: the cells of column [c], [KeyError] if the table lacks it. *)
Definition getitem {A : Type} (df : ref) (c : Column A) : M (list A) :=
  t <- read df ;;
  if has_column (label c) t then ret (map (cell c) (rows t))
  else raise (KeyError (label c)).

(** The table with column [c] overwritten row by row, or appended when the
    table lacks it. *)
Definition with_column {A : Type} (t : DataFrame) (c : Column A)
    (assign : Booking -> A -> Booking) (values : list A) : DataFrame :=
  {| columns := if has_column (label c) t then columns t
                else columns t ++ [label c];
     rows := map (fun p => assign (fst p) (snd p))
                 (combine (rows t) values) |}.

(** [df[c] = values] and [df.loc[:, c] = values]: the table object is
    updated in place.  The programs only assign columns computed from the
    same table, so the lengths always agree. *)
Definition setitem {A : Type} (df : ref) (c : Column A)
    (assign : Booking -> A -> Booking) (values : list A) : M unit :=
  t <- read df ;;
  if negb (List.length values =? List.length (rows t))%nat
  then raise ValueError
  else write df (with_column t c assign values).

(** [c in df.columns] *)
Definition contains (df : ref) (c : string) : M bool :=
  t <- read df ;; ret (has_column c t).

(** [df.shape[0]] *)
Definition shape0 (df : ref) : M Z :=
  t <- read df ;; ret (len (rows t)).

(** [df.empty] *)
Definition empty (df : ref) : M bool :=
  t <- read df ;;
  ret (match rows t, columns t with
       | [], _ | _, [] => true
       | _, _ => false
       end).

Fixpoint select {A : Type} (l : list A) (mask : list bool) : list A :=
  match l, mask with
  | x :: l', b :: mask' => if b then x :: select l' mask' else select l' mask'
  | _, _ => []
  end.

(** [df[mask]]: a new table holding the rows where the mask is true. *)
Definition boolean_index (df : ref) (mask : list bool) : M ref :=
  t <- read df ;;
  alloc {| columns := columns t; rows := select (rows t) mask |}.

(** ** KPI dictionaries *)

Inductive format_spec : Type :=
| Plain      (* {x} *)
| Comma2f    (* {x:,.2f} *)
| Fixed2f.   (* {x:.2f} *)

(** A value of the KPI dictionary: an f-string around a number, or the
    number itself. *)
Inductive value : Type :=
| FString (before : string) (f : format_spec) (x : float64) (after : string)
| Float (x : float64)
| Int (n : Z).

Definition dict : Type := list (string * value).

Fixpoint dict_get (k : string) (d : dict) : option value :=
  match d with
  | [] => None
  | (k', v) :: d' => if (k =? k')%string then Some v else dict_get k d'
  end.

(** The number a KPI entry displays. *)
Definition number_of (v : value) : float64 :=
  match v with
  | FString _ _ x _ => x
  | Float x => x
  | Int n => of_int n
  end.

(** ** Series arithmetic and helpers shared by the two programs *)

(** [a - b] on two datetime columns, in days. *)
Definition series_sub (a b : list datecell) : list Z :=
  map (fun p => day_of (fst p) - day_of (snd p)) (combine a b).

(** [a / b] on two numeric columns. *)
Definition series_truediv (a b : list float64) : list float64 :=
  map (fun p => np_truediv (fst p) (snd p)) (combine a b).

(** dtype test of the [lead_time] column, read off its cells. *)
Definition is_days (c : leadcell) : bool :=
  match c with
  | Days _ => true
  | Timedelta _ => false
  end.

Definition dtype_is_int64 (l : list leadcell) : bool := forallb is_days l.

(** [values.isin(selection)] on one cell. *)
Definition isin (selection : list string) (v : string) : bool :=
  existsb (String.eqb v) selection.

(** Truth value of a list in [if selection:]. *)
Definition nonempty {A : Type} (l : list A) : bool :=
  match l with
  | [] => false
  | _ => true
  end.

(** [l[i]] on a Python list. *)
Definition index {A : Type} (l : list A) (i : nat) : M A :=
  match nth_error l i with
  | Some x => ret x
  | None => raise IndexError
  end.

(** Python [a / b] on two ints: the float64 nearest to the quotient, named
    by it. *)
Definition py_truediv (a b : Z) : M float64 :=
  if b =? 0 then raise ZeroDivisionError
  else ret (Fin (Qred (inject_Z a / inject_Z b))).

(** [round(df[c].mean(), 2) if c in df.columns else 0] *)
Definition rating_kpi (df : ref) (c : Column (option Q)) : M float64 :=
  present <- contains df (label c) ;;
  if present then
    col <- getitem df c ;;
    ret (round2 (mean_float col))
  else ret (of_int 0).

(** The filter block of [main], the same in both programs: the check-in
    window first, then each selector only when it is not empty. *)
Definition filter_selection (df : ref) (selected_dates : list Z)
    (platform_filter property_filter : list string) : M ref :=
  d0 <- index selected_dates 0 ;;
  d1 <- index selected_dates 1 ;;
  checkin <- getitem df c_checkin_date ;;
  filtered_df <-
    boolean_index df
      (map (fun c => (d0 <=? day_of c) && (day_of c <=? d1)) checkin) ;;
  filtered_df <-
    (if nonempty platform_filter then
       p <- getitem filtered_df c_platform ;;
       boolean_index filtered_df (map (isin platform_filter) p)
     else ret filtered_df) ;;
  (if nonempty property_filter then
     p <- getitem filtered_df c_property_name ;;
     boolean_index filtered_df (map (isin property_filter) p)
   else ret filtered_df).

(** Columns of the table right after the left join. *)
Definition merged_columns : list string :=
  ["code"; "property_name"; "platform"; "status"; "checkin_date";
   "checkout_date"; "booking_date"; "nights"; "revenue"; "rating";
   "value_rating"; "communication_rating"; "location_rating";
   "cleanliness_rating"; "accuracy_rating"; "checkin_rating"].

Definition joined (b : CsvBooking) (r : option Review) : Booking :=
  let field (f : Review -> option Q) :=
    match r with Some x => f x | None => None end in
  {| code := csv_code b; property_name := csv_property_name b;
     platform := csv_platform b; status := csv_status b;
     checkin_date := DateText (csv_checkin_date b);
     checkout_date := DateText (csv_checkout_date b);
     booking_date := DateText (csv_booking_date b);
     nights := csv_nights b; revenue := csv_revenue b;
     rating := field rv_rating;
     value_rating := field rv_value_rating;
     communication_rating := field rv_communication_rating;
     location_rating := field rv_location_rating;
     cleanliness_rating := field rv_cleanliness_rating;
     accuracy_rating := field rv_accuracy_rating;
     checkin_rating := field rv_checkin_rating;
     month := 0; nightly_rate := NaN; lead_time := Days 0 |}.

(** [pd.merge(bookings, reviews_subset, on='code', how='left')]: every
    booking once per matching review, or once with null ratings. *)
Definition merge_left (bookings : list CsvBooking) (reviews : list Review)
  : list Booking :=
  flat_map
    (fun b =>
       match filter (fun r => (rv_code r =? csv_code b)%string) reviews with
       | [] => [joined b None]
       | matches => map (fun r => joined b (Some r)) matches
       end)
    bookings.

(** The percentage a pie chart shows for each slice: its value over the
    sum of all values. *)
Definition pie_percent (series : list (string * Z)) : list (string * float64) :=
  let total := of_int (Zsum (map snd series)) in
  map (fun p => (fst p, np_mul (np_truediv (of_int (snd p)) total)
                               (of_int 100)))
      series.

(** ** Globlal_Dashboard.py *)

Module Globlal_Dashboard.

Definition load_data (bookings : list CsvBooking) (reviews : list Review)
  : M ref :=
  df <- alloc {| columns := merged_columns;
                 rows := merge_left bookings reviews |} ;;
  checkin <- getitem df c_checkin_date ;;
  setitem df c_checkin_date set_checkin_date (map to_datetime checkin) ;;
  checkout <- getitem df c_checkout_date ;;
  setitem df c_checkout_date set_checkout_date (map to_datetime checkout) ;;
  checkin <- getitem df c_checkin_date ;;
  setitem df c_month set_month
    (map (fun c => month_start (day_of c)) checkin) ;;
  revenue <- getitem df c_revenue ;;
  nights <- getitem df c_nights ;;
  setitem df c_nightly_rate set_nightly_rate
    (series_truediv (map Fin revenue) (map of_int nights)) ;;
  ret df.

Definition calculate_kpis (df : ref) : M dict :=
  nights <- getitem df c_nights ;;
  let total_nights := of_int (sum_int64 nights) in
  revenue <- getitem df c_revenue ;;
  let total_revenue := sum_float revenue in
  names <- getitem df c_property_name ;;
  let num_properties := len (unique names) in
  checkout <- getitem df c_checkout_date ;;
  checkin <- getitem df c_checkin_date ;;
  let period_days :=
    np_add (days (timedelta (date_max (map day_of checkout))
                            (date_min (map day_of checkin))))
           (of_int 1) in
  let total_available_nights := np_mul period_days (of_int num_properties) in
  let occupancy_rate :=
    round2 (float_mul (np_truediv total_nights total_available_nights)
                      (of_int 100)) in
  let adr :=
    if truthy total_nights
    then round2 (np_truediv total_revenue total_nights)
    else of_int 0 in
  let revpar :=
    if truthy total_available_nights
    then round2 (np_truediv total_revenue total_available_nights)
    else of_int 0 in
  booking <- getitem df c_booking_date ;;
  setitem df c_booking_date set_booking_date (map to_datetime booking) ;;
  (* df['lead_time'] = round(checkin - booking, 2): rounding leaves a
     Timedelta column as it is *)
  checkin <- getitem df c_checkin_date ;;
  booking <- getitem df c_booking_date ;;
  setitem df c_lead_time set_lead_time
    (map Timedelta (series_sub checkin booking)) ;;
  present <- contains df "lead_time" ;;
  lead <- getitem df c_lead_time ;;
  (if negb present || negb (dtype_is_int64 lead) then
     checkin <- getitem df c_checkin_date ;;
     booking <- getitem df c_booking_date ;;
     setitem df c_lead_time set_lead_time
       (map Days (series_sub checkin booking))
   else ret tt) ;;
  checkin <- getitem df c_checkin_date ;;
  booking <- getitem df c_booking_date ;;
  let lead_time := round2 (mean_int (series_sub checkin booking)) in
  number_of_reservations <- shape0 df ;;
  nights <- getitem df c_nights ;;
  let average_length_of_stay := round2 (mean_int nights) in
  average_rating <- rating_kpi df c_rating ;;
  value_rating <- rating_kpi df c_value_rating ;;
  communication_rating <- rating_kpi df c_communication_rating ;;
  location_rating <- rating_kpi df c_location_rating ;;
  cleanliness_rating <- rating_kpi df c_cleanliness_rating ;;
  accuracy_rating <- rating_kpi df c_accuracy_rating ;;
  checkin_rating <- rating_kpi df c_checkin_rating ;;
  ret [ ("Total Revenue", FString "" Comma2f total_revenue "€");
        ("Occupancy Rate (%)", FString "" Plain occupancy_rate "%");
        ("Average Daily Rate (ADR)", FString "" Plain adr "€");
        ("Revenue Per Available Room (RevPAR)",
         FString "" Plain revpar "€");
        ("Average Lead Time (days)", FString "" Plain lead_time "");
        ("Average Length of Stay (nights)", Float average_length_of_stay);
        ("Number of Reservations", Int number_of_reservations);
        ("Average Rating", Float average_rating);
        ("Value Rating", Float value_rating);
        ("Communication Rating", Float communication_rating);
        ("Location Rating", Float location_rating);
        ("Cleanliness Rating", Float cleanliness_rating);
        ("Accuracy Rating", Float accuracy_rating);
        ("Check-in Rating", Float checkin_rating) ].

(** The figures are modelled by the series handed to the plotting
    library. *)
Definition plot_revenue_per_platform (df : ref)
  : M (list (string * float64)) :=
  platform <- getitem df c_platform ;;
  revenue <- getitem df c_revenue ;;
  ret (aggregate sum_float
         (groupby String.eqb String.ltb (combine platform revenue))).

Definition plot_revenue_percentage_per_platform (df : ref)
  : M (list (string * float64)) :=
  platform <- getitem df c_platform ;;
  revenue <- getitem df c_revenue ;;
  ret (aggregate sum_float
         (groupby String.eqb String.ltb (combine platform revenue))).

Definition plot_nights_booked_percentage_per_platform (df : ref)
  : M (list (string * Z)) :=
  status <- getitem df c_status ;;
  filtered_df <-
    boolean_index df
      (map (fun s => negb (s =? "cancelled")%string) status) ;;
  platform <- getitem filtered_df c_platform ;;
  nights <- getitem filtered_df c_nights ;;
  ret (aggregate sum_int64
         (groupby String.eqb String.ltb (combine platform nights))).

(** Returns the stacked series and the per-property totals that are
    annotated on top of the bars. *)
Definition plot_stacked_revenue_by_property_platform (df : ref)
  : M (list (string * string * float64) * list (string * float64)) :=
  names <- getitem df c_property_name ;;
  platform <- getitem df c_platform ;;
  revenue <- getitem df c_revenue ;;
  let revenue_per_property_platform :=
    aggregate Qsum
      (groupby spair_eqb spair_ltb
               (combine (combine names platform) revenue)) in
  let total_revenue_per_property :=
    aggregate sum_float
      (groupby String.eqb String.ltb
               (map (fun p => (fst (fst p), snd p))
                    revenue_per_property_platform)) in
  ret (map (fun p => (fst p, Fin (Qred (snd p))))
           revenue_per_property_platform,
       total_revenue_per_property).

Record Page : Type := {
  kpis : dict;
  fig1 : list (string * float64);
  fig2 : list (string * float64);
  fig3 : list (string * Z);
  fig4 : list (string * string * float64) * list (string * float64)
}.

(** One run of the page: the widgets' values are the arguments; [None]
    is the "No data loaded." page. *)
Definition main (bookings : list CsvBooking) (reviews : list Review)
    (selected_dates : list Z) (platform_filter property_filter : list string)
  : M (option Page) :=
  df <- load_data bookings reviews ;;
  e <- empty df ;;
  if negb e then
    filtered_df <-
      filter_selection df selected_dates platform_filter property_filter ;;
    k <- calculate_kpis filtered_df ;;
    f1 <- plot_revenue_per_platform filtered_df ;;
    f2 <- plot_revenue_percentage_per_platform filtered_df ;;
    f3 <- plot_nights_booked_percentage_per_platform filtered_df ;;
    f4 <- plot_stacked_revenue_by_property_platform filtered_df ;;
    ret (Some {| kpis := k; fig1 := f1; fig2 := f2; fig3 := f3;
                 fig4 := f4 |})
  else ret None.

End Globlal_Dashboard.

(** ** test_version.py *)

Module test_version.

Definition load_data (bookings : list CsvBooking) (reviews : list Review)
  : M ref :=
  df <- alloc {| columns := merged_columns;
                 rows := merge_left bookings reviews |} ;;
  checkin <- getitem df c_checkin_date ;;
  setitem df c_checkin_date set_checkin_date (map to_datetime checkin) ;;
  checkout <- getitem df c_checkout_date ;;
  setitem df c_checkout_date set_checkout_date (map to_datetime checkout) ;;
  checkin <- getitem df c_checkin_date ;;
  setitem df c_month set_month
    (map (fun c => month_start (day_of c)) checkin) ;;
  ret df.

Definition calculate_kpis (df : ref) : M dict :=
  nights <- getitem df c_nights ;;
  let total_nights := of_int (sum_int64 nights) in
  revenue <- getitem df c_revenue ;;
  let total_revenue := sum_float revenue in
  names <- getitem df c_property_name ;;
  let num_properties := len (unique names) in
  checkout <- getitem df c_checkout_date ;;
  checkin <- getitem df c_checkin_date ;;
  let period_days :=
    np_add (days (timedelta (date_max (map day_of checkout))
                            (date_min (map day_of checkin))))
           (of_int 1) in
  let total_available_nights := np_mul period_days (of_int num_properties) in
  let occupancy_rate :=
    round2 (float_mul (np_truediv total_nights total_available_nights)
                      (of_int 100)) in
  let adr :=
    if truthy total_nights
    then round2 (np_truediv total_revenue total_nights)
    else of_int 0 in
  let revpar :=
    if truthy total_available_nights
    then round2 (np_truediv total_revenue total_available_nights)
    else of_int 0 in
  booking <- getitem df c_booking_date ;;
  setitem df c_booking_date set_booking_date (map to_datetime booking) ;;
  checkin <- getitem df c_checkin_date ;;
  booking <- getitem df c_booking_date ;;
  let lead_time := round2 (mean_int (series_sub checkin booking)) in
  number_of_reservations <- shape0 df ;;
  nights <- getitem df c_nights ;;
  let average_length_of_stay := round2 (mean_int nights) in
  average_rating <- rating_kpi df c_rating ;;
  value_rating <- rating_kpi df c_value_rating ;;
  communication_rating <- rating_kpi df c_communication_rating ;;
  location_rating <- rating_kpi df c_location_rating ;;
  cleanliness_rating <- rating_kpi df c_cleanliness_rating ;;
  accuracy_rating <- rating_kpi df c_accuracy_rating ;;
  checkin_rating <- rating_kpi df c_checkin_rating ;;
  total_reservations <- shape0 df ;;
  status <- getitem df c_status ;;
  cancelled <-
    boolean_index df (map (fun s => (s =? "cancelled")%string) status) ;;
  canceled_reservations <- shape0 cancelled ;;
  ratio <- py_truediv canceled_reservations total_reservations ;;
  let cancellation_rate := py_round2 (float_mul ratio (of_int 100)) in
  ret [ ("Occupancy Rate (%)", FString "" Plain occupancy_rate "%");
        ("Average Daily Rate (ADR)", FString "€" Plain adr "");
        ("Revenue Per Available Room (RevPAR)",
         FString "€" Plain revpar "");
        ("Total Revenue", FString "€" Fixed2f total_revenue "");
        ("Average Lead Time (days)", FString "" Plain lead_time "");
        ("Number of Reservations", Int number_of_reservations);
        ("Average Length of Stay (nights)", Float average_length_of_stay);
        ("Cancellation Rate (%)", Float cancellation_rate);
        ("Average Rating", Float average_rating);
        ("Value Rating", Float value_rating);
        ("Communication Rating", Float communication_rating);
        ("Location Rating", Float location_rating);
        ("Cleanliness Rating", Float cleanliness_rating);
        ("Accuracy Rating", Float accuracy_rating);
        ("Check-in Rating", Float checkin_rating) ].

Definition plot_revenue_percentage_per_platform (df : ref)
  : M (list (string * float64)) :=
  platform <- getitem df c_platform ;;
  revenue <- getitem df c_revenue ;;
  ret (aggregate sum_float
         (groupby String.eqb String.ltb (combine platform revenue))).

Definition plot_nights_booked_percentage_per_platform (df : ref)
  : M (list (string * Z)) :=
  platform <- getitem df c_platform ;;
  nights <- getitem df c_nights ;;
  ret (aggregate sum_int64
         (groupby String.eqb String.ltb (combine platform nights))).

(** The bar chart is drawn from the table itself, one bar segment per
    row. *)
Definition plot_stacked_revenue_by_property_platform (df : ref)
  : M (list (string * string * float64)) :=
  names <- getitem df c_property_name ;;
  revenue <- getitem df c_revenue ;;
  platform <- getitem df c_platform ;;
  ret (combine (combine names platform) (map Fin revenue)).

(** The three assignments that open each monthly chart function. *)
Definition derive_month (df : ref) : M unit :=
  checkin <- getitem df c_checkin_date ;;
  setitem df c_checkin_date set_checkin_date (map to_datetime checkin) ;;
  checkout <- getitem df c_checkout_date ;;
  setitem df c_checkout_date set_checkout_date (map to_datetime checkout) ;;
  checkin <- getitem df c_checkin_date ;;
  setitem df c_month set_month
    (map (fun c => month_start (day_of c)) checkin).

Definition plot_monthly_revenue_line (df : ref)
  : M (list (Z * string * float64)) :=
  derive_month df ;;
  month <- getitem df c_month ;;
  names <- getitem df c_property_name ;;
  revenue <- getitem df c_revenue ;;
  ret (aggregate sum_float
         (groupby pair_eqb pair_ltb
                  (combine (combine month names) revenue))).

Definition plot_monthly_occupancy_rate (df : ref)
  : M (list (Z * string * float64)) :=
  derive_month df ;;
  status <- getitem df c_status ;;
  df <-
    boolean_index df
      (map (fun s => negb (s =? "cancelled")%string) status) ;;
  month <- getitem df c_month ;;
  names <- getitem df c_property_name ;;
  nights <- getitem df c_nights ;;
  checkout <- getitem df c_checkout_date ;;
  checkin <- getitem df c_checkin_date ;;
  ret (aggregate
         (fun x =>
            np_truediv
              (of_int (sum_int64 (map fst x)))
              (np_add
                 (days (timedelta
                          (date_max (map (fun v => day_of (fst (snd v))) x))
                          (date_min (map (fun v => day_of (snd (snd v))) x))))
                 (of_int 1)))
         (groupby pair_eqb pair_ltb
                  (combine (combine month names)
                           (combine nights (combine checkout checkin))))).

Definition plot_monthly_adr_line (df : ref)
  : M (list (Z * string * float64)) :=
  derive_month df ;;
  month <- getitem df c_month ;;
  names <- getitem df c_property_name ;;
  revenue <- getitem df c_revenue ;;
  nights <- getitem df c_nights ;;
  let monthly_data :=
    aggregate
      (fun x => (sum_float (map fst x), sum_int64 (map snd x)))
      (groupby pair_eqb pair_ltb
               (combine (combine month names) (combine revenue nights))) in
  ret (map (fun p => (fst p, np_truediv (fst (snd p)) (of_int (snd (snd p)))))
           monthly_data).

Record Page : Type := {
  kpis : dict;
  fig2 : list (string * float64);
  fig3 : list (string * Z);
  fig4 : list (string * string * float64);
  fig5 : list (Z * string * float64);
  fig6 : list (Z * string * float64);
  fig7 : list (Z * string * float64)
}.

Definition main (bookings : list CsvBooking) (reviews : list Review)
    (selected_dates : list Z) (platform_filter property_filter : list string)
  : M (option Page) :=
  df <- load_data bookings reviews ;;
  e <- empty df ;;
  if negb e then
    filtered_df <-
      filter_selection df selected_dates platform_filter property_filter ;;
    k <- calculate_kpis filtered_df ;;
    f2 <- plot_revenue_percentage_per_platform filtered_df ;;
    f3 <- plot_nights_booked_percentage_per_platform filtered_df ;;
    f4 <- plot_stacked_revenue_by_property_platform filtered_df ;;
    f5 <- plot_monthly_revenue_line filtered_df ;;
    f6 <- plot_monthly_occupancy_rate filtered_df ;;
    f7 <- plot_monthly_adr_line filtered_df ;;
    ret (Some {| kpis := k; fig2 := f2; fig3 := f3; fig4 := f4;
                 fig5 := f5; fig6 := f6; fig7 := f7 |})
  else ret None.

End test_version.

(** ** The KPIs as functions of a table

    The local variables of [calculate_kpis], written as functions of the
    table the reference points to. *)

(** The columns [calculate_kpis] and the chart functions read
    unconditionally. *)
Definition base_columns : list string :=
  ["property_name"; "platform"; "status"; "checkin_date"; "checkout_date";
   "booking_date"; "nights"; "revenue"].

Definition well_formed (t : DataFrame) : bool :=
  forallb (fun c => has_column c t) base_columns.

Definition total_nights (t : DataFrame) : Z :=
  sum_int64 (map nights (rows t)).

Definition total_revenue (t : DataFrame) : Q :=
  Qsum (map revenue (rows t)).

Definition num_properties (t : DataFrame) : Z :=
  len (unique (map property_name (rows t))).

Definition period_days (t : DataFrame) : float64 :=
  np_add
    (days (timedelta
             (date_max (map (fun r => day_of (checkout_date r)) (rows t)))
             (date_min (map (fun r => day_of (checkin_date r)) (rows t)))))
    (of_int 1).

Definition total_available_nights (t : DataFrame) : float64 :=
  np_mul (period_days t) (of_int (num_properties t)).

Definition occupancy_rate (t : DataFrame) : float64 :=
  round2 (float_mul (np_truediv (of_int (total_nights t))
                                (total_available_nights t))
                    (of_int 100)).

Definition adr (t : DataFrame) : float64 :=
  if truthy (of_int (total_nights t))
  then round2 (np_truediv (Fin (Qred (total_revenue t)))
                          (of_int (total_nights t)))
  else of_int 0.

Definition revpar (t : DataFrame) : float64 :=
  if truthy (total_available_nights t)
  then round2 (np_truediv (Fin (Qred (total_revenue t)))
                          (total_available_nights t))
  else of_int 0.

Definition lead_days (r : Booking) : Z :=
  day_of (checkin_date r) - day_of (booking_date r).

Definition lead_time_kpi (t : DataFrame) : float64 :=
  round2 (mean_int (map lead_days (rows t))).

Definition average_length_of_stay (t : DataFrame) : float64 :=
  round2 (mean_int (map nights (rows t))).

Definition rating_value (c : Column (option Q)) (t : DataFrame) : float64 :=
  if has_column (label c) t
  then round2 (mean_float (map (cell c) (rows t)))
  else of_int 0.

Definition is_cancelled (r : Booking) : bool :=
  (status r =? "cancelled")%string.

Definition cancelled_count (t : DataFrame) : Z :=
  len (filter is_cancelled (rows t)).

(** The table [calculate_kpis] leaves behind: [booking_date] parsed, and in
    [Globlal_Dashboard.py] a [lead_time] column of day counts. *)
Definition parse_booking_date (r : Booking) : Booking :=
  set_booking_date r (to_datetime (booking_date r)).

Definition with_lead_time (r : Booking) : Booking :=
  set_lead_time (parse_booking_date r) (Days (lead_days r)).

Definition after_kpis_test_version (t : DataFrame) : DataFrame :=
  {| columns := columns t; rows := map parse_booking_date (rows t) |}.

Definition after_kpis_Globlal (t : DataFrame) : DataFrame :=
  {| columns := if has_column "lead_time" t then columns t
                else columns t ++ ["lead_time"];
     rows := map with_lead_time (rows t) |}.

(** The seven rating KPIs: column and dictionary key. *)
Definition rating_kpis : list (Column (option Q) * string) :=
  [ (c_rating, "Average Rating");
    (c_value_rating, "Value Rating");
    (c_communication_rating, "Communication Rating");
    (c_location_rating, "Location Rating");
    (c_cleanliness_rating, "Cleanliness Rating");
    (c_accuracy_rating, "Accuracy Rating");
    (c_checkin_rating, "Check-in Rating") ].

(** The KPIs both programs report. *)
Definition shared_kpis : list string :=
  [ "Occupancy Rate (%)"; "Average Daily Rate (ADR)";
    "Revenue Per Available Room (RevPAR)"; "Total Revenue";
    "Average Lead Time (days)"; "Number of Reservations";
    "Average Length of Stay (nights)"; "Average Rating"; "Value Rating";
    "Communication Rating"; "Location Rating"; "Cleanliness Rating";
    "Accuracy Rating"; "Check-in Rating" ].

(** ** Statements in the words of the specification *)

(** [r] is [q] rounded to two decimals: a multiple of 1/100 nearest to
    [q], the even multiple when [q] lies half way between two. *)
Definition rounded_to_2_decimals (q r : Q) : Prop :=
  exists n : Z,
    (r == n # 100)%Q /\
    (Qabs (r - q) <= 1 # 200)%Q /\
    ((Qabs (r - q) == 1 # 200)%Q -> Z.even n = true).

(** [r] is the float64 [q] rounded to two decimals the way Python's
    [round] does it on a float: the float64 itself is rounded. *)
Definition py_rounded_to_2_decimals (q r : Q) : Prop :=
  rounded_to_2_decimals (b64 q) r.

(** [r] is the float64 [q] rounded to two decimals the way numpy does it:
    [n / 100] for the integer [n] nearest to the float64 product of [q]
    and 100. *)
Definition np_rounded_to_2_decimals (q r : Q) : Prop :=
  rounded_to_2_decimals (b64 (b64 q * 100) / 100) r.

(** A column added up in float64 cell after cell: every cell is read as
    a float64 and every partial sum is held as one. *)
Definition float_accumulate (l : list Q) : Q :=
  fold_left (fun acc x => b64 (acc + b64 x)) l 0%Q.


(** Filter application as the specification words it: the check-in day in
    the closed window, and membership in each selector that is not empty. *)
Definition selected (d0 d1 : Z) (P Q : list string) (r : Booking) : bool :=
  (d0 <=? day_of (checkin_date r)) && (day_of (checkin_date r) <=? d1)
  && (match P with [] => true | _ => existsb (String.eqb (platform r)) P end)
  && (match Q with
      | [] => true
      | _ => existsb (String.eqb (property_name r)) Q
      end).

(** Nights per platform as the specification words it: cancelled rows
    removed, then the nights of each platform summed. *)
Definition nights_of_platform (p : string) (l : list Booking) : list Z :=
  map nights
      (filter (fun r => (platform r =? p)%string)
              (filter (fun r => negb (is_cancelled r)) l)).

(** Lookup in a chart series. *)
Fixpoint series_get {V : Type} (k : string) (l : list (string * V))
  : option V :=
  match l with
  | [] => None
  | (k', v) :: l' => if (k =? k')%string then Some v else series_get k l'
  end.

Definition cancellation_rate (t : DataFrame) : float64 :=
  py_round2 (float_mul (Fin (Qred (inject_Z (cancelled_count t)
                                   / inject_Z (len (rows t)))))
                       (of_int 100)).

(** The dictionaries the two programs return, in terms of the table. *)
Definition kpis_Globlal (t : DataFrame) : dict :=
  [ ("Total Revenue",
     FString "" Comma2f (Fin (Qred (total_revenue t))) "€");
    ("Occupancy Rate (%)", FString "" Plain (occupancy_rate t) "%");
    ("Average Daily Rate (ADR)", FString "" Plain (adr t) "€");
    ("Revenue Per Available Room (RevPAR)",
     FString "" Plain (revpar t) "€");
    ("Average Lead Time (days)", FString "" Plain (lead_time_kpi t) "");
    ("Average Length of Stay (nights)", Float (average_length_of_stay t));
    ("Number of Reservations", Int (len (rows t)));
    ("Average Rating", Float (rating_value c_rating t));
    ("Value Rating", Float (rating_value c_value_rating t));
    ("Communication Rating", Float (rating_value c_communication_rating t));
    ("Location Rating", Float (rating_value c_location_rating t));
    ("Cleanliness Rating", Float (rating_value c_cleanliness_rating t));
    ("Accuracy Rating", Float (rating_value c_accuracy_rating t));
    ("Check-in Rating", Float (rating_value c_checkin_rating t)) ].

Definition kpis_test_version (t : DataFrame) : dict :=
  [ ("Occupancy Rate (%)", FString "" Plain (occupancy_rate t) "%");
    ("Average Daily Rate (ADR)", FString "€" Plain (adr t) "");
    ("Revenue Per Available Room (RevPAR)",
     FString "€" Plain (revpar t) "");
    ("Total Revenue",
     FString "€" Fixed2f (Fin (Qred (total_revenue t))) "");
    ("Average Lead Time (days)", FString "" Plain (lead_time_kpi t) "");
    ("Number of Reservations", Int (len (rows t)));
    ("Average Length of Stay (nights)", Float (average_length_of_stay t));
    ("Cancellation Rate (%)", Float (cancellation_rate t));
    ("Average Rating", Float (rating_value c_rating t));
    ("Value Rating", Float (rating_value c_value_rating t));
    ("Communication Rating", Float (rating_value c_communication_rating t));
    ("Location Rating", Float (rating_value c_location_rating t));
    ("Cleanliness Rating", Float (rating_value c_cleanliness_rating t));
    ("Accuracy Rating", Float (rating_value c_accuracy_rating t));
    ("Check-in Rating", Float (rating_value c_checkin_rating t)) ].

(** The temporary table [df[df['status'] == 'cancelled']]. *)
Definition cancelled_rows (t : DataFrame) : DataFrame :=
  {| columns := columns t;
     rows := filter is_cancelled (map parse_booking_date (rows t)) |}.

(** The table between the two assignments of [lead_time] in
    [Globlal_Dashboard.py]: the column holds Timedeltas. *)
Definition lead_timedelta (t : DataFrame) : DataFrame :=
  {| columns := if has_column "lead_time" t then columns t
                else columns t ++ ["lead_time"];
     rows := map (fun r => set_lead_time (parse_booking_date r)
                                         (Timedelta (lead_days r)))
                 (rows t) |}.

(** ** Concrete tables *)

Definition csv_row (c p pl st : string) (checkin checkout booked n : Z)
    (rev : Q) : CsvBooking :=
  {| csv_code := c; csv_property_name := p; csv_platform := pl;
     csv_status := st; csv_checkin_date := checkin;
     csv_checkout_date := checkout; csv_booking_date := booked;
     csv_nights := n; csv_revenue := rev |}.

(** The table [Globlal_Dashboard.load_data] builds from the two files. *)
Definition loaded (bookings : list CsvBooking) (reviews : list Review)
  : DataFrame :=
  nth 0 (snd (Globlal_Dashboard.load_data bookings reviews []))
      {| columns := []; rows := [] |}.

(** The three-booking scenario of the specification: property A on airbnb
    twice (one booking cancelled), property B on vrbo once.  Day 19737 is
    2024-01-15. *)
Definition scenario_csv : list CsvBooking :=
  [ csv_row "c1" "A" "airbnb" "confirmed" 19737 19739 19730 2 100;
    csv_row "c2" "A" "airbnb" "cancelled" 19740 19742 19731 2 200;
    csv_row "c3" "B" "vrbo" "confirmed" 19750 19753 19740 3 150 ].

Definition scenario : DataFrame := loaded scenario_csv [].

(** A table with all its columns and no row, as a filter that matches
    nothing leaves it. *)
Definition empty_table : DataFrame :=
  {| columns := columns scenario; rows := [] |}.

(** One booking whose check-out is the day before its check-in. *)
Definition reversed_stay : DataFrame :=
  loaded [csv_row "c1" "A" "airbnb" "confirmed" 19740 19739 19730 2 100] [].

(** One booking of zero nights. *)
Definition zero_nights_csv : list CsvBooking :=
  [csv_row "c1" "A" "airbnb" "confirmed" 19740 19740 19730 0 100].

(** No entry of a KPI dictionary displays NaN. *)
Definition never_nan (k : dict) : Prop :=
  forall key v, dict_get key k = Some v -> number_of v <> NaN.

(** The empty-table requirement of the specification on an aggregator:
    it returns, and nothing it returns is NaN. *)
Definition handles_empty_table (calculate_kpis : ref -> M dict) : Prop :=
  exists k,
    fst (calculate_kpis 0%nat [empty_table]) = Ok k /\ never_nan k.


(** Two runs of the aggregator report equal numbers: both return, and
    every KPI the two programs share is present in both dictionaries with
    the same number. *)
Definition agree_on_shared_kpis (a b : result dict) : Prop :=
  exists ka kb,
    a = Ok ka /\ b = Ok kb /\
    Forall (fun key =>
              exists va vb,
                dict_get key ka = Some va /\
                dict_get key kb = Some vb /\
                number_of va = number_of vb)
           shared_kpis.

Definition review (c : string) (overall value : option Q) : Review :=
  {| rv_code := c; rv_rating := overall; rv_value_rating := value;
     rv_communication_rating := None; rv_location_rating := None;
     rv_cleanliness_rating := None; rv_accuracy_rating := None;
     rv_checkin_rating := None |}.

(** The scenario with reviews for two of its bookings. *)
Definition reviewed_scenario : DataFrame :=
  loaded scenario_csv
         [review "c1" (Some 5%Q) (Some 4%Q); review "c3" (Some 4%Q) None].

(** The selection when no platform filter is applied at all. *)
Definition selected_any_platform (d0 d1 : Z) (Q : list string) (r : Booking)
  : bool :=
  (d0 <=? day_of (checkin_date r)) && (day_of (checkin_date r) <=? d1)
  && (match Q with
      | [] => true
      | _ => existsb (String.eqb (property_name r)) Q
      end).

(** The rows [load_data] leaves behind: check-in and check-out parsed,
    the month derived, and in [Globlal_Dashboard.py] the nightly rate. *)
Definition parse_stay (r : Booking) : Booking :=
  set_checkout_date (set_checkin_date r (to_datetime (checkin_date r)))
                    (to_datetime (checkout_date r)).

Definition with_month (r : Booking) : Booking :=
  set_month r (month_start (day_of (checkin_date r))).

Definition with_nightly_rate (r : Booking) : Booking :=
  set_nightly_rate r (np_truediv (Fin (revenue r)) (of_int (nights r))).

Definition loaded_test_version (bookings : list CsvBooking)
    (reviews : list Review) : DataFrame :=
  {| columns := merged_columns ++ ["month"];
     rows := map (fun r => with_month (parse_stay r))
                 (merge_left bookings reviews) |}.

Definition loaded_Globlal (bookings : list CsvBooking)
    (reviews : list Review) : DataFrame :=
  {| columns := merged_columns ++ ["month"; "nightly_rate"];
     rows := map (fun r => with_nightly_rate (with_month (parse_stay r)))
                 (merge_left bookings reviews) |}.

(** Lookup of a group by its key, and the values a key has in a list of
    key-value pairs. *)
Fixpoint group_get {K V : Type} (keq : K -> K -> bool) (k : K)
    (g : list (K * list V)) : option (list V) :=
  match g with
  | [] => None
  | (k', vs) :: g' => if keq k k' then Some vs else group_get keq k g'
  end.

Definition values_of {K V : Type} (keq : K -> K -> bool) (k : K)
    (kv : list (K * V)) : list V :=
  map snd (filter (fun p => keq (fst p) k) kv).

(** ** Effects on the store, in the words of the specification *)

(** A computation writes to no table but [df]: every other table that
    existed is the same afterwards, and no table disappears. *)
Definition writes_only {A : Type} (df : ref) (m : M A) : Prop :=
  forall s,
    (List.length s <= List.length (snd (m s)))%nat /\
    forall i, i <> df -> (i < List.length s)%nat ->
              nth_error (snd (m s)) i = nth_error s i.

(** A computation writes to no table at all: it can only add new ones. *)
Definition reads_only {A : Type} (m : M A) : Prop :=
  forall s, exists extra, snd (m s) = s ++ extra.

(** The table the monthly chart functions of [test_version.py] leave
    behind: check-in and check-out parsed and the month derived again. *)
Definition month_derived (t : DataFrame) : DataFrame :=
  {| columns := if has_column "month" t then columns t
                else columns t ++ ["month"];
     rows := map (fun r => with_month (parse_stay r)) (rows t) |}.

(** A table as [load_data] leaves it: check-in and check-out are
    Timestamps and the month column holds the first day of the check-in
    month. *)
Definition is_timestamp (c : datecell) : bool :=
  match c with
  | Timestamp _ => true
  | DateText _ => false
  end.

Definition as_loaded (t : DataFrame) : Prop :=
  has_column "month" t = true /\
  forall r, In r (rows t) ->
            is_timestamp (checkin_date r) = true /\
            is_timestamp (checkout_date r) = true /\
            month r = month_start (day_of (checkin_date r)).

(** Two rows that differ at most in [booking_date], which denotes the
    same day in both, and in [lead_time]. *)
Definition same_but_booking_and_lead (r r' : Booking) : Prop :=
  code r' = code r /\ property_name r' = property_name r /\
  platform r' = platform r /\ status r' = status r /\
  checkin_date r' = checkin_date r /\ checkout_date r' = checkout_date r /\
  day_of (booking_date r') = day_of (booking_date r) /\
  nights r' = nights r /\ revenue r' = revenue r /\
  rating r' = rating r /\ value_rating r' = value_rating r /\
  communication_rating r' = communication_rating r /\
  location_rating r' = location_rating r /\
  cleanliness_rating r' = cleanliness_rating r /\
  accuracy_rating r' = accuracy_rating r /\
  checkin_rating r' = checkin_rating r /\
  month r' = month r /\ nightly_rate r' = nightly_rate r.

(** The scenario table with its [status] column dropped. *)
Definition scenario_without_status : DataFrame :=
  {| columns := filter (fun c => negb (c =? "status")%string)
                       (columns scenario);
     rows := rows scenario |}.

(** Lookup in a series whose labels are compared by [keq]. *)
Fixpoint assoc_get {K V : Type} (keq : K -> K -> bool) (k : K)
    (l : list (K * V)) : option V :=
  match l with
  | [] => None
  | (k', v) :: l' => if keq k k' then Some v else assoc_get keq k l'
  end.



(** The reviews whose code is the code of a booking. *)
Definition matching (b : CsvBooking) (reviews : list Review) : list Review :=
  filter (fun r => (rv_code r =? csv_code b)%string) reviews.

(** How many rows the left join makes of a booking. *)
Definition copies (b : CsvBooking) (reviews : list Review) : nat :=
  Nat.max 1 (List.length (matching b reviews)).

(** ** The monthly series, in terms of the rows *)

(** The group a row belongs to in the monthly charts: the first day of
    its check-in month, and its property. *)
Definition month_key (r : Booking) : Z * string :=
  (month_start (day_of (checkin_date r)), property_name r).

(** The occupancy the monthly chart computes for the rows of one group:
    their nights over the days from their earliest check-in to their
    latest check-out, plus one. *)
Definition group_occupancy (g : list Booking) : float64 :=
  np_truediv
    (of_int (sum_int64 (map nights g)))
    (np_add
       (days (timedelta
                (date_max (map (fun r => day_of (checkout_date r)) g))
                (date_min (map (fun r => day_of (checkin_date r)) g))))
       (of_int 1)).

(** The ADR the monthly chart computes for the rows of one group. *)
Definition group_adr (g : list Booking) : float64 :=
  np_truediv (sum_float (map revenue g)) (of_int (sum_int64 (map nights g))).

(** * Proofs *)

(** ** The store *)

Lemma update_length (s : store) (r : ref) (t : DataFrame) :
  List.length (update s r t) = List.length s.
Proof.
  revert r; induction s as [|x s IH]; intros [|r]; simpl; auto.
Qed.

Lemma nth_error_update_eq (s : store) (r : ref) (t : DataFrame) :
  (r < List.length s)%nat -> nth_error (update s r t) r = Some t.
Proof.
  revert r; induction s as [|x s IH]; intros [|r] H; simpl in *;
    try lia; auto.
  apply IH; lia.
Qed.

Lemma nth_error_update_neq (s : store) (r r' : ref) (t : DataFrame) :
  r <> r' -> nth_error (update s r t) r' = nth_error s r'.
Proof.
  revert r r'; induction s as [|x s IH]; intros [|r] [|r'] H; simpl;
    auto; try congruence.
Qed.

Lemma update_update (s : store) (r : ref) (a b : DataFrame) :
  update (update s r a) r b = update s r b.
Proof.
  revert r; induction s as [|x s IH]; intros [|r]; simpl; auto.
  now rewrite IH.
Qed.

Lemma update_same (s : store) (r : ref) (t : DataFrame) :
  nth_error s r = Some t -> update s r t = s.
Proof.
  revert r; induction s as [|x s IH]; intros [|r] H; simpl in *; auto.
  - congruence.
  - now rewrite IH.
Qed.

Lemma update_app (s l : store) (r : ref) (t : DataFrame) :
  (r < List.length s)%nat -> update s r t ++ l = update (s ++ l) r t.
Proof.
  revert r; induction s as [|x s IH]; intros [|r] H; simpl in *;
    try lia; auto.
  rewrite IH; auto; lia.
Qed.

Lemma nth_error_bound (s : store) (r : ref) (t : DataFrame) :
  nth_error s r = Some t -> (r < List.length s)%nat.
Proof.
  intros H. apply nth_error_Some. congruence.
Qed.

(** ** Running the primitives on a store whose table [df] is [t] *)

Section Run.
Variables (s : store) (df : ref) (t0 : DataFrame).
Hypothesis live : nth_error s df = Some t0.

Lemma read_run (t : DataFrame) :
  read df (update s df t) = (Ok t, update s df t).
Proof.
  unfold read. rewrite nth_error_update_eq; auto.
  eapply nth_error_bound; eauto.
Qed.

Lemma bind_getitem {A B : Type} (c : Column A) (k : list A -> M B)
    (t : DataFrame) :
  has_column (label c) t = true ->
  bind (getitem df c) k (update s df t)
  = k (map (cell c) (rows t)) (update s df t).
Proof.
  intros H. unfold getitem, bind at 1 2. rewrite read_run, H. reflexivity.
Qed.

Lemma setitem_run {A : Type} (c : Column A)
    (assign : Booking -> A -> Booking) (values : list A) (t : DataFrame) :
  List.length values = List.length (rows t) ->
  setitem df c assign values (update s df t)
  = (Ok tt, update s df (with_column t c assign values)).
Proof.
  intros H. unfold setitem, bind. rewrite read_run, H.
  rewrite Nat.eqb_refl. simpl. unfold write.
  now rewrite update_update.
Qed.

Lemma bind_setitem {A B : Type} (c : Column A)
    (assign : Booking -> A -> Booking) (values : list A)
    (k : unit -> M B) (t : DataFrame) :
  List.length values = List.length (rows t) ->
  bind (setitem df c assign values) k (update s df t)
  = k tt (update s df (with_column t c assign values)).
Proof.
  intros H. unfold bind. now rewrite setitem_run.
Qed.

Lemma bind_contains {B : Type} (c : string) (k : bool -> M B)
    (t : DataFrame) :
  bind (contains df c) k (update s df t)
  = k (has_column c t) (update s df t).
Proof.
  unfold contains, bind at 1 2. rewrite read_run. reflexivity.
Qed.

Lemma bind_shape0 {B : Type} (k : Z -> M B) (t : DataFrame) :
  bind (shape0 df) k (update s df t) = k (len (rows t)) (update s df t).
Proof.
  unfold shape0, bind at 1 2. rewrite read_run. reflexivity.
Qed.

Lemma bind_boolean_index {B : Type} (mask : list bool) (k : ref -> M B)
    (t : DataFrame) :
  bind (boolean_index df mask) k (update s df t)
  = k (List.length s)
      (update (s ++ [{| columns := columns t;
                        rows := select (rows t) mask |}]) df t).
Proof.
  unfold boolean_index, bind at 1 2. rewrite read_run. unfold alloc.
  rewrite update_length, update_app; auto.
  eapply nth_error_bound; eauto.
Qed.

Lemma bind_rating_kpi {B : Type} (c : Column (option Q))
    (k : float64 -> M B) (t : DataFrame) :
  bind (rating_kpi df c) k (update s df t)
  = k (rating_value c t) (update s df t).
Proof.
  unfold rating_kpi, rating_value. unfold bind at 1.
  rewrite bind_contains.
  destruct (has_column (label c) t) eqn:E; [|reflexivity].
  rewrite bind_getitem by exact E. reflexivity.
Qed.
End Run.

(** ** Columns rebuilt from the rows *)

Lemma map_combine_map {A B C : Type} (f : A -> B -> C) (g : A -> B)
    (l : list A) :
  map (fun p => f (fst p) (snd p)) (combine l (map g l))
  = map (fun x => f x (g x)) l.
Proof.
  induction l as [|x l IH]; simpl; congruence.
Qed.

Lemma with_column_map {A : Type} (t : DataFrame) (c : Column A)
    (assign : Booking -> A -> Booking) (g : Booking -> A) :
  with_column t c assign (map g (rows t))
  = {| columns := if has_column (label c) t then columns t
                  else columns t ++ [label c];
       rows := map (fun r => assign r (g r)) (rows t) |}.
Proof.
  unfold with_column. now rewrite map_combine_map.
Qed.

Lemma series_sub_map (f g : Booking -> datecell) (l : list Booking) :
  series_sub (map f l) (map g l)
  = map (fun r => day_of (f r) - day_of (g r)) l.
Proof.
  unfold series_sub. induction l as [|x l IH]; simpl; congruence.
Qed.

Lemma has_column_app (c d : string) (t : DataFrame) :
  existsb (String.eqb c) (columns t ++ [d])
  = has_column c t || (c =? d)%string.
Proof.
  unfold has_column. rewrite existsb_app. simpl. now rewrite orb_false_r.
Qed.

Lemma well_formed_columns (t : DataFrame) :
  well_formed t = true ->
  forall c, In c base_columns -> has_column c t = true.
Proof.
  unfold well_formed. rewrite forallb_forall. auto.
Qed.

Ltac base_column H :=
  apply (well_formed_columns _ H); simpl; tauto.

Lemma select_map {A : Type} (f : A -> bool) (l : list A) :
  select l (map f l) = filter f l.
Proof.
  induction l as [|x l IH]; simpl; [reflexivity|].
  destruct (f x); congruence.
Qed.

Lemma select_map_map {A B : Type} (g : A -> B) (f : B -> bool) (l : list A) :
  select l (map f (map g l)) = filter (fun x => f (g x)) l.
Proof.
  rewrite map_map. apply select_map.
Qed.

Lemma assign_booking_date (t : DataFrame) :
  has_column "booking_date" t = true ->
  with_column t c_booking_date set_booking_date
    (map to_datetime (map (cell c_booking_date) (rows t)))
  = after_kpis_test_version t.
Proof.
  intros H. rewrite map_map, with_column_map. cbn [label c_booking_date].
  now rewrite H.
Qed.

Lemma len_map {A B : Type} (f : A -> B) (l : list A) : len (map f l) = len l.
Proof.
  unfold len. now rewrite length_map.
Qed.

Lemma bind_shape0_new {B : Type} (s : store) (df : ref) (t0 t x : DataFrame)
    (k : Z -> M B) :
  nth_error s df = Some t0 ->
  bind (shape0 (List.length s)) k (update (s ++ [x]) df t)
  = k (len (rows x)) (update (s ++ [x]) df t).
Proof.
  intros live. pose proof (nth_error_bound _ _ _ live) as Hlt.
  unfold shape0, bind at 1 2, read.
  rewrite nth_error_update_neq by lia.
  rewrite nth_error_app2 by lia. rewrite Nat.sub_diag. reflexivity.
Qed.

Lemma filter_cancelled_parsed (l : list Booking) :
  filter is_cancelled (map parse_booking_date l)
  = map parse_booking_date (filter is_cancelled l).
Proof.
  induction l as [|r l IH]; simpl; [reflexivity|].
  change (is_cancelled (parse_booking_date r)) with (is_cancelled r).
  destruct (is_cancelled r); simpl; congruence.
Qed.

Lemma rating_value_after (c : Column (option Q)) (t : DataFrame) :
  In c (map fst rating_kpis) ->
  rating_value c (after_kpis_test_version t) = rating_value c t.
Proof.
  intros H. unfold rating_value.
  change (has_column (label c) (after_kpis_test_version t))
    with (has_column (label c) t).
  cbn [rows after_kpis_test_version]. rewrite map_map.
  simpl in H.
  repeat (destruct H as [<-|H]; [reflexivity|]). contradiction.
Qed.

Lemma calculate_kpis_test_version_run (s : store) (df : ref) (t : DataFrame) :
  nth_error s df = Some t ->
  well_formed t = true ->
  test_version.calculate_kpis df s
  = (if len (rows t) =? 0 then Raise ZeroDivisionError
     else Ok (kpis_test_version t),
     update (s ++ [cancelled_rows t]) df (after_kpis_test_version t)).
Proof.
  intros live wf.
  assert (Hn : has_column "nights" t = true) by base_column wf.
  assert (Hr : has_column "revenue" t = true) by base_column wf.
  assert (Hp : has_column "property_name" t = true) by base_column wf.
  assert (Hi : has_column "checkin_date" t = true) by base_column wf.
  assert (Ho : has_column "checkout_date" t = true) by base_column wf.
  assert (Hb : has_column "booking_date" t = true) by base_column wf.
  assert (Hs : has_column "status" t = true) by base_column wf.
  rewrite <- (update_same s df t live) at 1.
  unfold test_version.calculate_kpis.
  do 6 rewrite (bind_getitem s df t live) by assumption.
  rewrite (bind_setitem s df t live) by (now rewrite !length_map).
  rewrite assign_booking_date by assumption.
  do 2 rewrite (bind_getitem s df t live) by assumption.
  rewrite (bind_shape0 s df t live).
  rewrite (bind_getitem s df t live) by assumption.
  do 7 rewrite (bind_rating_kpi s df t live).
  rewrite (bind_shape0 s df t live).
  rewrite (bind_getitem s df t live) by assumption.
  rewrite (bind_boolean_index s df t live).
  rewrite (bind_shape0_new s df t _ _ _ live).
  cbn [rows columns after_kpis_test_version].
  rewrite select_map_map, !map_map, !len_map.
  change (filter _ (map parse_booking_date (rows t)))
    with (filter is_cancelled (map parse_booking_date (rows t))).
  fold (cancelled_rows t).
  unfold py_truediv, bind at 1.
  destruct (len (rows t) =? 0) eqn:E; [reflexivity|].
  unfold ret. f_equal. f_equal.
  rewrite filter_cancelled_parsed, len_map.
  rewrite !rating_value_after by (simpl; tauto).
  rewrite series_sub_map.
  reflexivity.
Qed.

Lemma has_column_lead_time (c : string) (t : DataFrame) :
  has_column c (after_kpis_Globlal t)
  = has_column c t || (c =? "lead_time")%string.
Proof.
  unfold has_column at 1. cbn [columns after_kpis_Globlal].
  destruct (has_column "lead_time" t) eqn:E.
  - fold (has_column c t).
    destruct (String.eqb_spec c "lead_time") as [->|]; simpl.
    + now rewrite E.
    + now rewrite orb_false_r.
  - apply has_column_app.
Qed.

Lemma has_column_kept (c : string) (t : DataFrame) :
  has_column c t = true -> has_column c (after_kpis_Globlal t) = true.
Proof.
  intros H. now rewrite has_column_lead_time, H.
Qed.

Lemma rating_value_after_Globlal (c : Column (option Q)) (t : DataFrame) :
  In c (map fst rating_kpis) ->
  rating_value c (after_kpis_Globlal t) = rating_value c t.
Proof.
  intros H. unfold rating_value. rewrite has_column_lead_time.
  cbn [rows after_kpis_Globlal]. rewrite map_map.
  simpl in H.
  repeat (destruct H as [<-|H];
          [cbn [label c_rating c_value_rating c_communication_rating
                c_location_rating c_cleanliness_rating c_accuracy_rating
                c_checkin_rating String.eqb Ascii.eqb Bool.eqb];
           rewrite orb_false_r; reflexivity|]).
  contradiction.
Qed.

Lemma assign_lead_timedelta (t : DataFrame) :
  with_column (after_kpis_test_version t) c_lead_time set_lead_time
    (map Timedelta
       (series_sub
          (map (cell c_checkin_date) (rows (after_kpis_test_version t)))
          (map (cell c_booking_date) (rows (after_kpis_test_version t)))))
  = lead_timedelta t.
Proof.
  rewrite series_sub_map, map_map, with_column_map.
  unfold lead_timedelta. f_equal.
  cbn [rows after_kpis_test_version]. now rewrite map_map.
Qed.

Lemma assign_lead_days (t : DataFrame) :
  with_column (lead_timedelta t) c_lead_time set_lead_time
    (map Days
       (series_sub (map (cell c_checkin_date) (rows (lead_timedelta t)))
                   (map (cell c_booking_date) (rows (lead_timedelta t)))))
  = after_kpis_Globlal t.
Proof.
  rewrite series_sub_map, map_map, with_column_map.
  change (has_column (label c_lead_time) (lead_timedelta t))
    with (has_column "lead_time" (after_kpis_Globlal t)).
  rewrite has_column_lead_time, orb_true_r.
  unfold after_kpis_Globlal. f_equal.
  cbn [rows lead_timedelta]. now rewrite map_map.
Qed.

Lemma lead_timedelta_empty (t : DataFrame) :
  rows t = [] -> lead_timedelta t = after_kpis_Globlal t.
Proof.
  intros H. unfold lead_timedelta, after_kpis_Globlal. now rewrite H.
Qed.

Lemma series_sub_length (a b : list datecell) :
  List.length a = List.length b ->
  List.length (series_sub a b) = List.length a.
Proof.
  intros H. unfold series_sub.
  rewrite length_map, length_combine, <- H. apply Nat.min_id.
Qed.

Lemma calculate_kpis_Globlal_run (s : store) (df : ref) (t : DataFrame) :
  nth_error s df = Some t ->
  well_formed t = true ->
  Globlal_Dashboard.calculate_kpis df s
  = (Ok (kpis_Globlal t), update s df (after_kpis_Globlal t)).
Proof.
  intros live wf.
  assert (Hn : has_column "nights" t = true) by base_column wf.
  assert (Hr : has_column "revenue" t = true) by base_column wf.
  assert (Hp : has_column "property_name" t = true) by base_column wf.
  assert (Hi : has_column "checkin_date" t = true) by base_column wf.
  assert (Ho : has_column "checkout_date" t = true) by base_column wf.
  assert (Hb : has_column "booking_date" t = true) by base_column wf.
  assert (Hl : has_column "lead_time" (lead_timedelta t) = true).
  { change (has_column "lead_time" (after_kpis_Globlal t) = true).
    now rewrite has_column_lead_time, orb_true_r. }
  rewrite <- (update_same s df t live) at 1.
  unfold Globlal_Dashboard.calculate_kpis.
  do 6 rewrite (bind_getitem s df t live) by assumption.
  rewrite (bind_setitem s df t live) by (now rewrite !length_map).
  rewrite assign_booking_date by assumption.
  do 2 rewrite (bind_getitem s df t live) by assumption.
  rewrite (bind_setitem s df t live)
    by (now rewrite length_map, series_sub_length; rewrite !length_map).
  rewrite assign_lead_timedelta.
  rewrite (bind_contains s df t live), Hl.
  rewrite (bind_getitem s df t live) by exact Hl.
  assert (Hk : forall c, has_column c t = true ->
                         has_column c (lead_timedelta t) = true)
    by exact (fun c => has_column_kept c t).
  assert (Hif :
    forall B (k : unit -> M B),
      bind (if negb true
               || negb (dtype_is_int64
                          (map (cell c_lead_time) (rows (lead_timedelta t))))
            then
              checkin <- getitem df c_checkin_date ;;
              booking <- getitem df c_booking_date ;;
              setitem df c_lead_time set_lead_time
                (map Days (series_sub checkin booking))
            else ret tt) k (update s df (lead_timedelta t))
      = k tt (update s df (after_kpis_Globlal t))).
  { intros B k. destruct (rows t) as [|r l] eqn:E.
    - rewrite <- lead_timedelta_empty by exact E.
      cbn [rows lead_timedelta]. rewrite E. reflexivity.
    - replace (dtype_is_int64 _) with false
        by (cbn [rows lead_timedelta]; rewrite E; reflexivity).
      cbn [negb orb]. unfold bind at 1.
      do 2 rewrite (bind_getitem s df t live) by (apply Hk; assumption).
      rewrite (setitem_run s df t live)
        by (now rewrite length_map, series_sub_length; rewrite !length_map).
      now rewrite assign_lead_days. }
  rewrite Hif.
  do 2 rewrite (bind_getitem s df t live)
    by (apply has_column_kept; assumption).
  rewrite (bind_shape0 s df t live).
  rewrite (bind_getitem s df t live)
    by (apply has_column_kept; assumption).
  do 7 rewrite (bind_rating_kpi s df t live).
  rewrite !rating_value_after_Globlal by (simpl; tauto).
  rewrite series_sub_map.
  cbn [rows after_kpis_Globlal].
  rewrite !map_map, !len_map.
  reflexivity.
Qed.

(** ** Rounding *)

Lemma Qmake_100 (n : Z) : (n # 100 == inject_Z n * (1 # 100))%Q.
Proof.
  unfold Qeq, inject_Z; simpl. lia.
Qed.

Lemma round_half_even_near (x : Q) :
  (Qabs (inject_Z (round_half_even x) - x) <= 1 # 2)%Q
  /\ ((Qabs (inject_Z (round_half_even x) - x) == 1 # 2)%Q ->
      Z.even (round_half_even x) = true).
Proof.
  pose proof (Qfloor_le x) as Hlo. pose proof (Qlt_floor x) as Hhi.
  rewrite inject_Z_plus in Hhi. change (inject_Z 1) with 1%Q in Hhi.
  unfold round_half_even.
  set (f := Qfloor x) in *.
  destruct (x - inject_Z f ?= 1 # 2)%Q eqn:E.
  - apply Qeq_alt in E.
    destruct (Z.even f) eqn:Ev.
    + split; [|auto]. apply Qabs_case; intros; lra.
    + split.
      * rewrite inject_Z_plus. change (inject_Z 1) with 1%Q.
        apply Qabs_case; intros; lra.
      * intros _. rewrite Z.even_add, Ev. reflexivity.
  - apply Qlt_alt in E. split.
    + apply Qabs_case; intros; lra.
    + intros H. exfalso. revert H. apply Qabs_case; intros; lra.
  - apply Qgt_alt in E. rewrite inject_Z_plus. change (inject_Z 1) with 1%Q.
    split.
    + apply Qabs_case; intros; lra.
    + intros H. exfalso. revert H. apply Qabs_case; intros; lra.
Qed.

Lemma round_half_even_proper (x y : Q) :
  (x == y)%Q -> round_half_even x = round_half_even y.
Proof.
  intros E. unfold round_half_even.
  rewrite (Qfloor_comp x y E).
  assert (C : (x - inject_Z (Qfloor y) ?= 1 # 2)%Q
              = (y - inject_Z (Qfloor y) ?= 1 # 2)%Q)
    by (now rewrite E).
  now rewrite C.
Qed.

Lemma round_half_even_integer (z : Z) : round_half_even (inject_Z z) = z.
Proof.
  unfold round_half_even. rewrite Qfloor_Z.
  assert (C : (inject_Z z - inject_Z z ?= 1 # 2)%Q = Lt)
    by (apply (proj1 (Qlt_alt _ _)); lra).
  now rewrite C.
Qed.

Lemma round_half_even_le (x y : Q) :
  (x <= y)%Q -> round_half_even x <= round_half_even y.
Proof.
  intros H.
  destruct (Qeq_dec x y) as [E|N];
    [rewrite (round_half_even_proper x y E); lia|].
  destruct (round_half_even_near x) as [Hx Tx].
  destruct (round_half_even_near y) as [Hy Ty].
  apply Qabs_Qle_condition in Hx, Hy.
  destruct (Z_le_gt_dec (round_half_even x) (round_half_even y)) as [L|G];
    [exact L|exfalso].
  assert (G' : (inject_Z (round_half_even y) + 1
                <= inject_Z (round_half_even x))%Q).
  { change 1%Q with (inject_Z 1). rewrite <- inject_Z_plus, <- Zle_Qle. lia. }
  apply N. lra.
Qed.

(** *** The binary logarithm of a positive rational *)

Lemma two_power_pos (e : Z) : (0 < 2 ^ e)%Q.
Proof.
  apply Qpower_0_lt. reflexivity.
Qed.

Lemma two_neq_0 : ~ (2 == 0)%Q.
Proof.
  discriminate.
Qed.

Lemma Z_log2_Q (n : Z) :
  0 < n ->
  (2 ^ Z.log2 n <= inject_Z n)%Q /\ (inject_Z n < 2 ^ (Z.log2 n + 1))%Q.
Proof.
  intros H. destruct (Z.log2_spec n H) as [H1 H2].
  pose proof (Z.log2_nonneg n) as Hl.
  change 2%Q with (inject_Z 2).
  rewrite <- !Zpower_Qpower by lia.
  rewrite <- Zle_Qle, <- Zlt_Qlt. split; [exact H1|].
  exact H2.
Qed.

Lemma Qlog2_spec (q : Q) :
  (0 < q)%Q -> (2 ^ Qlog2 q <= q)%Q /\ (q < 2 ^ (Qlog2 q + 1))%Q.
Proof.
  intros Hq.
  assert (Hn : 0 < Qnum q).
  { unfold Qlt in Hq. simpl in Hq. lia. }
  destruct (Z_log2_Q (Qnum q) Hn) as [N1 N2].
  destruct (Z_log2_Q (Zpos (Qden q)) (Pos2Z.is_pos _)) as [D1 D2].
  assert (Eq : (q == inject_Z (Qnum q) / inject_Z (Zpos (Qden q)))%Q).
  { destruct q as [n d]. apply Qmake_Qdiv. }
  set (ln := Z.log2 (Qnum q)) in *.
  set (ld := Z.log2 (Zpos (Qden q))) in *.
  set (N := inject_Z (Qnum q)) in *. set (D := inject_Z (Zpos (Qden q))) in *.
  assert (HD : (0 < D)%Q) by (unfold D; change 0%Q with (inject_Z 0);
                              rewrite <- Zlt_Qlt; lia).
  pose proof (two_power_pos ld) as P0.
  pose proof (two_power_pos (ld + 1)) as P1.
  pose proof (two_power_pos ln) as P2.
  pose proof (two_power_pos (ln + 1)) as P3.
  assert (Lo : (2 ^ (ln - ld - 1) < q)%Q).
  { replace (ln - ld - 1) with (ln - (ld + 1)) by lia.
    rewrite Qpower_minus by apply two_neq_0. rewrite Eq.
    apply Qlt_shift_div_l; [exact HD|].
    unfold Qdiv. rewrite <- Qmult_assoc, (Qmult_comm (/ _)), Qmult_assoc.
    apply Qlt_shift_div_r; [exact P1|].
    apply Qle_lt_trans with (N * D)%Q.
    - apply Qmult_le_compat_r; [exact N1 | lra].
    - apply Qmult_lt_l; [lra | exact D2]. }
  assert (Hi : (q < 2 ^ (ln - ld + 1))%Q).
  { replace (ln - ld + 1) with (ln + 1 - ld) by lia.
    rewrite Qpower_minus by apply two_neq_0. rewrite Eq.
    apply Qlt_shift_div_r; [exact HD|].
    unfold Qdiv. rewrite <- Qmult_assoc, (Qmult_comm (/ _)), Qmult_assoc.
    apply Qlt_shift_div_l; [exact P0|].
    apply Qle_lt_trans with (N * D)%Q.
    - apply Qmult_le_l; [lra | exact D1].
    - apply Qmult_lt_r; [exact HD | exact N2]. }
  unfold Qlog2. fold ln ld.
  destruct (Qle_bool (2 ^ (ln - ld)) q) eqn:B.
  - apply Qle_bool_iff in B. split; [exact B | exact Hi].
  - assert (B' : (q < 2 ^ (ln - ld))%Q).
    { apply Qnot_le_lt. intros C. apply Qle_bool_iff in C. congruence. }
    replace (ln - ld - 1 + 1) with (ln - ld) by lia.
    split; [apply Qlt_le_weak; exact Lo | exact B'].
Qed.

Lemma Qlog2_unique (q : Q) (l : Z) :
  (2 ^ l <= q)%Q -> (q < 2 ^ (l + 1))%Q -> Qlog2 q = l.
Proof.
  intros H1 H2.
  assert (Hq : (0 < q)%Q)
    by (eapply Qlt_le_trans; [apply (two_power_pos l) | exact H1]).
  destruct (Qlog2_spec q Hq) as [S1 S2].
  assert (A : Qlog2 q < l + 1).
  { apply (Qpower_lt_compat_l_inv 2); [|reflexivity].
    eapply Qle_lt_trans; [exact S1 | exact H2]. }
  assert (B : l < Qlog2 q + 1).
  { apply (Qpower_lt_compat_l_inv 2); [|reflexivity].
    eapply Qle_lt_trans; [exact H1 | exact S2]. }
  lia.
Qed.

Lemma Qlog2_proper (x y : Q) :
  (0 < x)%Q -> (x == y)%Q -> Qlog2 x = Qlog2 y.
Proof.
  intros Hx E. destruct (Qlog2_spec x Hx) as [S1 S2].
  symmetry. apply Qlog2_unique; rewrite <- E; assumption.
Qed.

Lemma Qlog2_le (x y : Q) :
  (0 < x)%Q -> (x <= y)%Q -> Qlog2 x <= Qlog2 y.
Proof.
  intros Hx H.
  assert (Hy : (0 < y)%Q) by lra.
  destruct (Qlog2_spec x Hx) as [X1 _].
  destruct (Qlog2_spec y Hy) as [_ Y2].
  assert (A : Qlog2 x < Qlog2 y + 1).
  { apply (Qpower_lt_compat_l_inv 2); [|reflexivity]. lra. }
  lia.
Qed.

(** *** The nearest number with a significand of 53 bits *)

(** The scaled value of a positive number lies between 2^52 and 2^53. *)
Lemma scaled_range (q : Q) :
  (0 < q)%Q ->
  (2 ^ 52 <= q / 2 ^ (Qlog2 q - 52))%Q /\ (q / 2 ^ (Qlog2 q - 52) < 2 ^ 53)%Q.
Proof.
  intros Hq. destruct (Qlog2_spec q Hq) as [S1 S2].
  pose proof (two_power_pos (Qlog2 q - 52)) as P.
  split.
  - apply Qle_shift_div_l; [exact P|].
    rewrite <- Qpower_plus by apply two_neq_0.
    replace (52 + (Qlog2 q - 52)) with (Qlog2 q) by lia. exact S1.
  - apply Qlt_shift_div_r; [exact P|].
    rewrite <- Qpower_plus by apply two_neq_0.
    replace (53 + (Qlog2 q - 52)) with (Qlog2 q + 1) by lia. exact S2.
Qed.

Lemma significand_range (q : Q) :
  (0 < q)%Q ->
  2 ^ 52 <= round_half_even (q / 2 ^ (Qlog2 q - 52)) <= 2 ^ 53.
Proof.
  intros Hq. destruct (scaled_range q Hq) as [S1 S2].
  split.
  - rewrite <- (round_half_even_integer (2 ^ 52)).
    apply round_half_even_le.
    rewrite Zpower_Qpower by lia. exact S1.
  - rewrite <- (round_half_even_integer (2 ^ 53)).
    apply round_half_even_le.
    rewrite Zpower_Qpower by lia. apply Qlt_le_weak. exact S2.
Qed.

Lemma b64_pos_proper (x y : Q) :
  (0 < x)%Q -> (x == y)%Q -> (b64_pos x == b64_pos y)%Q.
Proof.
  intros Hx E. unfold b64_pos. rewrite <- (Qlog2_proper x y Hx E).
  assert (E' : (x / 2 ^ (Qlog2 x - 52) == y / 2 ^ (Qlog2 x - 52))%Q)
    by (apply Qmult_comp; [exact E | reflexivity]).
  rewrite (round_half_even_proper _ _ E').
  reflexivity.
Qed.

Lemma b64_pos_positive (q : Q) : (0 < q)%Q -> (0 < b64_pos q)%Q.
Proof.
  intros Hq. unfold b64_pos.
  destruct (significand_range q Hq) as [S _].
  apply Qmult_lt_0_compat; [|apply two_power_pos].
  change 0%Q with (inject_Z 0). rewrite <- Zlt_Qlt. lia.
Qed.

(** The rounding error is at most half a unit in the last place, which is
    at most the 2^53-th part of the number. *)
Lemma b64_pos_near (q : Q) :
  (0 < q)%Q -> (Qabs (b64_pos q - q) <= q / 2 ^ 53)%Q.
Proof.
  intros Hq. unfold b64_pos.
  set (e := Qlog2 q - 52).
  pose proof (two_power_pos e) as P.
  destruct (round_half_even_near (q / 2 ^ e)) as [Hn _].
  set (m := inject_Z (round_half_even (q / 2 ^ e))) in *.
  assert (E : (m * 2 ^ e - q == (m - q / 2 ^ e) * 2 ^ e)%Q).
  { field. intros C. rewrite C in P. lra. }
  rewrite E, Qabs_Qmult, (Qabs_pos (2 ^ e)) by lra.
  apply Qle_trans with ((1 # 2) * 2 ^ e)%Q.
  - apply Qmult_le_compat_r; [exact Hn | lra].
  - destruct (scaled_range q Hq) as [S1 _]. fold e in S1.
    apply Qle_shift_div_l; [apply two_power_pos|].
    assert (S1' : (2 ^ 52 * 2 ^ e <= q)%Q).
    { apply Qle_trans with (q / 2 ^ e * 2 ^ e)%Q.
      - apply Qmult_le_compat_r; [exact S1 | lra].
      - apply Qle_lteq. right. field. intros C. rewrite C in P. lra. }
    clear - S1' P. set (p := (2 ^ e)%Q) in *. clearbody p.
    change (2 ^ 53)%Q with (2 * 2 ^ 52)%Q.
    set (c := (2 ^ 52)%Q) in *. clearbody c. lra.
Qed.

Lemma b64_pos_le (x y : Q) :
  (0 < x)%Q -> (x <= y)%Q -> (b64_pos x <= b64_pos y)%Q.
Proof.
  intros Hx H. assert (Hy : (0 < y)%Q) by lra.
  pose proof (Qlog2_le x y Hx H) as L.
  destruct (Z.eq_dec (Qlog2 x) (Qlog2 y)) as [E|N].
  - unfold b64_pos. rewrite E.
    pose proof (two_power_pos (Qlog2 y - 52)) as P.
    apply Qmult_le_compat_r; [|lra].
    rewrite <- Zle_Qle. apply round_half_even_le.
    apply Qmult_le_compat_r; [exact H|].
    apply Qlt_le_weak, Qinv_lt_0_compat, P.
  - destruct (significand_range x Hx) as [_ X].
    destruct (significand_range y Hy) as [Y _].
    unfold b64_pos.
    apply Qle_trans with (2 ^ 53 * 2 ^ (Qlog2 x - 52))%Q.
    + apply Qmult_le_compat_r; [|apply Qlt_le_weak, two_power_pos].
      rewrite <- (Zpower_Qpower 2 53) by lia.
      change (inject_Z 2) with 2%Q. rewrite <- Zle_Qle. exact X.
    + apply Qle_trans with (2 ^ 52 * 2 ^ (Qlog2 y - 52))%Q.
      * rewrite <- !Qpower_plus by apply two_neq_0.
        apply Qpower_le_compat_l; [lia | discriminate].
      * apply Qmult_le_compat_r; [|apply Qlt_le_weak, two_power_pos].
        rewrite <- (Zpower_Qpower 2 52) by lia.
        change (inject_Z 2) with 2%Q. rewrite <- Zle_Qle. exact Y.
Qed.

Lemma b64_positive (q : Q) : (0 < q)%Q -> (b64 q == b64_pos q)%Q.
Proof.
  intros H. unfold b64.
  assert (C : (q ?= 0)%Q = Gt) by (apply Qgt_alt; exact H).
  rewrite C. apply Qred_correct.
Qed.

Lemma b64_negative (q : Q) : (q < 0)%Q -> (b64 q == - b64_pos (- q))%Q.
Proof.
  intros H. unfold b64.
  assert (C : (q ?= 0)%Q = Lt) by (apply Qlt_alt; exact H).
  rewrite C. apply Qred_correct.
Qed.

Lemma b64_zero (q : Q) : (q == 0)%Q -> b64 q = 0%Q.
Proof.
  intros H. unfold b64.
  assert (C : (q ?= 0)%Q = Eq) by (apply Qeq_alt; exact H).
  now rewrite C.
Qed.

(** Equal numbers are held as the same float64. *)
Lemma b64_proper (x y : Q) : (x == y)%Q -> b64 x = b64 y.
Proof.
  intros E. unfold b64.
  assert (C : (x ?= 0)%Q = (y ?= 0)%Q) by (now rewrite E).
  rewrite <- C. destruct (x ?= 0)%Q eqn:S; [reflexivity| |].
  - apply Qlt_alt in S. apply Qred_complete.
    apply Qopp_comp, b64_pos_proper; [lra | now rewrite E].
  - apply Qgt_alt in S. apply Qred_complete.
    now apply b64_pos_proper.
Qed.

Lemma b64_sign (q : Q) : (b64 q ?= 0)%Q = (q ?= 0)%Q.
Proof.
  destruct (q ?= 0)%Q eqn:S.
  - apply Qeq_alt in S. now rewrite (b64_zero q S).
  - apply Qlt_alt in S. apply (proj1 (Qlt_alt _ _)).
    rewrite (b64_negative q S).
    assert (0 < b64_pos (- q))%Q by (apply b64_pos_positive; lra). lra.
  - apply Qgt_alt in S. apply (proj1 (Qgt_alt _ _)).
    rewrite (b64_positive q S). now apply b64_pos_positive.
Qed.

Lemma b64_nonneg (q : Q) : (0 <= q)%Q -> (0 <= b64 q)%Q.
Proof.
  intros H. destruct (Qlt_le_dec 0 q) as [P|Z].
  - rewrite (b64_positive q P). apply Qlt_le_weak. now apply b64_pos_positive.
  - rewrite (b64_zero q) by lra. lra.
Qed.

(** Rounding to float64 keeps the order. *)
Lemma b64_le (x y : Q) : (x <= y)%Q -> (b64 x <= b64 y)%Q.
Proof.
  intros H.
  destruct (Qlt_le_dec 0 x) as [Px|Nx].
  - rewrite (b64_positive x Px), (b64_positive y) by lra.
    now apply b64_pos_le.
  - destruct (Qlt_le_dec 0 y) as [Py|Ny].
    + apply Qle_trans with 0%Q; [|apply b64_nonneg; lra].
      destruct (Qlt_le_dec x 0) as [Lx|Zx].
      * rewrite (b64_negative x Lx).
        assert (0 < b64_pos (- x))%Q by (apply b64_pos_positive; lra). lra.
      * rewrite (b64_zero x) by lra. lra.
    + destruct (Qlt_le_dec y 0) as [Ly|Zy].
      * rewrite (b64_negative x), (b64_negative y Ly) by lra.
        assert (b64_pos (- y) <= b64_pos (- x))%Q
          by (apply b64_pos_le; lra). lra.
      * rewrite (b64_zero y) by lra.
        destruct (Qlt_le_dec x 0) as [Lx|Zx].
        -- rewrite (b64_negative x Lx).
           assert (0 < b64_pos (- x))%Q by (apply b64_pos_positive; lra).
           lra.
        -- rewrite (b64_zero x) by lra. lra.
Qed.

(** The float64 nearest to a number differs from it by at most its
    2^53-th part. *)
Lemma b64_near (q : Q) : (Qabs (b64 q - q) <= Qabs q / 2 ^ 53)%Q.
Proof.
  destruct (Qlt_le_dec 0 q) as [P|N].
  - rewrite (b64_positive q P), (Qabs_pos q) by lra. now apply b64_pos_near.
  - destruct (Qlt_le_dec q 0) as [L|Z].
    + rewrite (b64_negative q L), (Qabs_neg q) by lra.
      setoid_replace (- b64_pos (- q) - q)%Q
        with (- (b64_pos (- q) - - q))%Q by ring.
      rewrite Qabs_opp. apply b64_pos_near. lra.
    + assert (E : (q == 0)%Q) by lra.
      rewrite (b64_zero q E), E. vm_compute. discriminate.
Qed.

(** *** Whole numbers below 2^53 are float64 numbers *)

Lemma inject_Z_neq_0 (z : Z) : z <> 0 -> ~ (inject_Z z == 0)%Q.
Proof.
  intros H E. apply H. unfold Qeq, inject_Z in E. simpl in E. lia.
Qed.



(** *** Rounding to two decimals *)

Lemma scale_half_le (a : Q) :
  (a <= 1 # 2)%Q -> (a * (1 # 100) <= 1 # 200)%Q.
Proof.
  intros H. lra.
Qed.

Lemma scale_half_eq (a : Q) :
  (a * (1 # 100) == 1 # 200)%Q -> (a == 1 # 2)%Q.
Proof.
  intros H. lra.
Qed.

Lemma Qround2_spec (q : Q) : rounded_to_2_decimals q (Qround2 q).
Proof.
  unfold rounded_to_2_decimals, Qround2.
  exists (round_half_even (q * 100)).
  destruct (round_half_even_near (q * 100)) as [Hn He].
  set (n := round_half_even (q * 100)) in *.
  assert (Hd : (Qabs (Qred (n # 100) - q)
                == Qabs (inject_Z n - q * 100) * (1 # 100))%Q).
  { rewrite Qred_correct, Qmake_100.
    setoid_replace (inject_Z n * (1 # 100) - q)%Q
      with ((inject_Z n - q * 100) * (1 # 100))%Q by ring.
    rewrite Qabs_Qmult. reflexivity. }
  split; [apply Qred_correct|].
  split.
  - rewrite Hd. now apply scale_half_le.
  - intros H. apply He. rewrite Hd in H. now apply scale_half_eq.
Qed.

Lemma rounded_proper (q q' r : Q) :
  (q == q')%Q -> rounded_to_2_decimals q r -> rounded_to_2_decimals q' r.
Proof.
  intros E (n & Hn & Hle & Hev). exists n.
  split; [exact Hn|]. split.
  - now rewrite <- E.
  - intros H. apply Hev. now rewrite E.
Qed.

(** Rounding an integer to two decimals gives that integer. *)
Lemma rounded_integer (z : Z) (r : Q) :
  rounded_to_2_decimals (inject_Z z) r -> (r == inject_Z z)%Q.
Proof.
  intros (n & Hn & Hle & _).
  rewrite Hn in Hle |- *.
  apply Qabs_Qle_condition in Hle. destruct Hle as [Hlo Hhi].
  unfold Qle, Qminus, Qplus, Qopp, inject_Z in Hlo, Hhi. simpl in Hlo, Hhi.
  unfold Qeq, inject_Z. simpl. lia.
Qed.

Lemma rounded_nonneg (q r : Q) :
  (0 <= q)%Q -> rounded_to_2_decimals q r -> (0 <= r)%Q.
Proof.
  intros Hq (n & Hn & Hle & _).
  rewrite Hn in *.
  apply Qabs_Qle_condition in Hle. destruct Hle as [Hlo _].
  assert (H : (- (1 # 200) <= n # 100)%Q) by lra.
  unfold Qle in *. simpl in *. lia.
Qed.

(** *** float64 operations on finite numbers *)

Lemma b64_100 : b64 100 = 100%Q.
Proof.
  vm_compute. reflexivity.
Qed.

Lemma float_mul_100 (x : Q) :
  float_mul (Fin x) (of_int 100) = Fin (Qred (b64 x * 100)).
Proof.
  unfold float_mul, as_float64, of_int, np_mul.
  change (inject_Z 100) with 100%Q. now rewrite b64_100.
Qed.

(** numpy's [round(x, 2)] of a finite number, in one formula. *)
Lemma round2_Fin (x : Q) :
  round2 (Fin x) = Fin (Qround2 (b64 (b64 x * 100) / 100)).
Proof.
  unfold round2. rewrite float_mul_100.
  unfold np_rint, as_float64, of_int, np_truediv.
  rewrite (b64_proper (Qred (b64 x * 100)) (b64 x * 100))
    by apply Qred_correct.
  set (y := b64 (b64 x * 100)).
  change (Qsign (inject_Z 100)) with Gt. cbv iota.
  unfold Qround2. f_equal.
  rewrite (round_half_even_proper (y / 100 * 100) y) by (field; discriminate).
  apply Qred_complete. now rewrite Qmake_Qdiv.
Qed.

Lemma round2_value (x : Q) :
  exists q, round2 (Fin x) = Fin q /\ np_rounded_to_2_decimals x q.
Proof.
  exists (Qround2 (b64 (b64 x * 100) / 100)).
  split; [apply round2_Fin | apply Qround2_spec].
Qed.

Lemma py_round2_value (x : Q) :
  exists q, py_round2 (Fin x) = Fin q /\ py_rounded_to_2_decimals x q.
Proof.
  exists (Qround2 (b64 x)). split; [reflexivity | apply Qround2_spec].
Qed.

Lemma np_rounded_proper (x x' r : Q) :
  (x == x')%Q ->
  np_rounded_to_2_decimals x r -> np_rounded_to_2_decimals x' r.
Proof.
  intros E. unfold np_rounded_to_2_decimals.
  now rewrite (b64_proper x x' E).
Qed.

Lemma py_rounded_proper (x x' r : Q) :
  (x == x')%Q ->
  py_rounded_to_2_decimals x r -> py_rounded_to_2_decimals x' r.
Proof.
  intros E. unfold py_rounded_to_2_decimals.
  now rewrite (b64_proper x x' E).
Qed.

(** Rounding to two decimals never leaves an interval with integer
    bounds. *)
Lemma rounded_between (a b : Z) (q r : Q) :
  (inject_Z a <= q)%Q -> (q <= inject_Z b)%Q ->
  rounded_to_2_decimals q r ->
  (inject_Z a <= r)%Q /\ (r <= inject_Z b)%Q.
Proof.
  intros Ha Hb (n & Hn & Hle & _).
  rewrite Hn in *.
  apply Qabs_Qle_condition in Hle. destruct Hle as [Hlo Hhi].
  assert (H1 : (inject_Z a - (1 # 200) <= n # 100)%Q) by lra.
  assert (H2 : (n # 100 <= inject_Z b + (1 # 200))%Q) by lra.
  unfold Qle, Qminus, Qplus, Qopp, inject_Z in *. simpl in *. lia.
Qed.

(** The float64 product with 100, over 100, stays in an interval whose
    bounds are float64 numbers, and so does the rounded result when the
    bounds are whole numbers. *)
Lemma np_rounded_between (a b : Z) (x r : Q) :
  b64 (inject_Z a) = inject_Z a -> b64 (inject_Z b) = inject_Z b ->
  b64 (inject_Z a * 100) = (inject_Z a * 100)%Q ->
  b64 (inject_Z b * 100) = (inject_Z b * 100)%Q ->
  (inject_Z a <= x)%Q -> (x <= inject_Z b)%Q ->
  np_rounded_to_2_decimals x r ->
  (inject_Z a <= r)%Q /\ (r <= inject_Z b)%Q.
Proof.
  intros Fa Fb Ga Gb Ha Hb. unfold np_rounded_to_2_decimals.
  apply b64_le in Ha, Hb. rewrite Fa in Ha. rewrite Fb in Hb.
  assert (Ha' : (inject_Z a * 100 <= b64 x * 100)%Q) by lra.
  assert (Hb' : (b64 x * 100 <= inject_Z b * 100)%Q) by lra.
  apply b64_le in Ha', Hb'. rewrite Ga in Ha'. rewrite Gb in Hb'.
  apply rounded_between.
  - apply Qle_shift_div_l; [reflexivity | exact Ha'].
  - apply Qle_shift_div_r; [reflexivity | exact Hb'].
Qed.

Lemma np_rounded_nonneg (x r : Q) :
  (0 <= x)%Q -> np_rounded_to_2_decimals x r -> (0 <= r)%Q.
Proof.
  intros H. apply rounded_nonneg.
  apply Qle_shift_div_l; [reflexivity|]. rewrite Qmult_0_l.
  apply b64_nonneg.
  apply Qmult_le_0_compat; [now apply b64_nonneg | discriminate].
Qed.

Lemma Qabs_triangle3 (a b c d : Q) :
  (Qabs (a - d) <= Qabs (a - b) + Qabs (b - c) + Qabs (c - d))%Q.
Proof.
  setoid_replace (a - d)%Q with ((a - b) + ((b - c) + (c - d)))%Q by ring.
  eapply Qle_trans; [apply Qabs_triangle|].
  rewrite <- Qplus_assoc. apply Qplus_le_r. apply Qabs_triangle.
Qed.

Lemma b64_abs_le (x : Q) : (Qabs (b64 x) <= 2 * Qabs x)%Q.
Proof.
  pose proof (b64_near x) as H.
  pose proof (Qabs_nonneg x) as Hx.
  assert (T : (Qabs (b64 x) <= Qabs (b64 x - x) + Qabs x)%Q).
  { setoid_replace (b64 x) with ((b64 x - x) + x)%Q at 1 by ring.
    apply Qabs_triangle. }
  assert (U : (Qabs x / 2 ^ 53 <= Qabs x)%Q).
  { apply Qle_shift_div_r; [reflexivity|].
    set (a := Qabs x) in *. clearbody a.
    change (2 ^ 53)%Q with (1 + (2 ^ 53 - 1))%Q.
    set (c := (2 ^ 53 - 1)%Q).
    assert (0 <= c)%Q by (vm_compute; discriminate).
    assert (0 <= a * c)%Q by (apply Qmult_le_0_compat; assumption).
    lra. }
  lra.
Qed.

(** numpy's rounding to two decimals is within half a hundredth of the
    number, up to the rounding of the number and of its product with 100
    to float64. *)
Lemma np_rounded_close (x r : Q) :
  np_rounded_to_2_decimals x r ->
  (Qabs (r - x) <= (1 # 200) + Qabs x / 2 ^ 51)%Q.
Proof.
  intros (n & _ & H & _).
  pose proof (b64_near x) as N1.
  pose proof (b64_near (b64 x * 100)) as N2.
  pose proof (b64_abs_le x) as A.
  set (x1 := b64 x) in *. set (y := b64 (x1 * 100)) in *.
  assert (N2' : (Qabs (y / 100 - x1) <= Qabs x1 / 2 ^ 53)%Q).
  { setoid_replace (y / 100 - x1)%Q with ((y - x1 * 100) * (1 # 100))%Q
      by field.
    rewrite Qabs_Qmult. rewrite Qabs_Qmult in N2.
    change (Qabs 100) with 100%Q in N2.
    change (Qabs (1 # 100)) with (1 # 100)%Q.
    set (d := Qabs (y - x1 * 100)) in *. set (a1 := Qabs x1) in *.
    clearbody d a1.
    assert (E : (a1 * 100 / 2 ^ 53 == a1 / 2 ^ 53 * 100)%Q) by (field; discriminate).
    rewrite E in N2. set (u := (a1 / 2 ^ 53)%Q) in *. clearbody u. lra. }
  pose proof (Qabs_triangle3 r (y / 100) x1 x) as T.
  assert (E : (Qabs x / 2 ^ 51 == 4 * (Qabs x / 2 ^ 53))%Q)
    by (field; discriminate).
  assert (A' : (Qabs x1 / 2 ^ 53 <= 2 * (Qabs x / 2 ^ 53))%Q).
  { unfold Qdiv. rewrite Qmult_assoc.
    apply Qmult_le_compat_r; [exact A | discriminate]. }
  rewrite E.
  set (u := (Qabs x / 2 ^ 53)%Q) in *.
  assert (0 <= u)%Q.
  { unfold u. apply Qle_shift_div_l; [reflexivity|].
    rewrite Qmult_0_l. apply Qabs_nonneg. }
  lra.
Qed.

Lemma py_rounded_close (x r : Q) :
  py_rounded_to_2_decimals x r ->
  (Qabs (r - x) <= (1 # 200) + Qabs x / 2 ^ 53)%Q.
Proof.
  intros (n & _ & H & _).
  pose proof (b64_near x) as N1.
  assert (T : (Qabs (r - x) <= Qabs (r - b64 x) + Qabs (b64 x - x))%Q).
  { setoid_replace (r - x)%Q with ((r - b64 x) + (b64 x - x))%Q by ring.
    apply Qabs_triangle. }
  lra.
Qed.

(** The examples that tell binary rounding from exact arithmetic: 23/40 is
    held as a float64 just below 0.575, and 161/40 as one just above
    4.025. *)
Example round2_below_half :
  round2 (Fin (23 # 40)) = Fin (57 # 100)
  /\ round2 (Fin (203 # 200)) = Fin (101 # 100).
Proof.
  split; vm_compute; reflexivity.
Qed.

Example round2_above_half : round2 (Fin (161 # 40)) = Fin (403 # 100).
Proof.
  vm_compute. reflexivity.
Qed.

(** The example of numpy's documentation of [round]: 16.055 is held as a
    float64 just below it, which Python's [round] rounds down to 16.05,
    while its float64 product with 100 is 1605.5, which numpy rounds to
    the even integer 1606. *)
Example round2_numpy_and_python :
  round2 (Fin (16055 # 1000)) = Fin (803 # 50)
  /\ py_round2 (Fin (16055 # 1000)) = Fin (321 # 20).
Proof.
  split; vm_compute; reflexivity.
Qed.

Example percent_below_half :
  py_round2 (float_mul (Fin (23 # 160)) (of_int 100)) = Fin (1437 # 100)
  /\ round2 (float_mul (Fin (23 # 160)) (of_int 100)) = Fin (1437 # 100).
Proof.
  split; vm_compute; reflexivity.
Qed.

(** ** Cancellation rate *)

Lemma len_nonempty {A : Type} (x : A) (l : list A) : 0 < len (x :: l).
Proof.
  unfold len. simpl. lia.
Qed.

Lemma cancelled_none (l : list Booking) :
  (forall r, In r l -> status r <> "cancelled") -> filter is_cancelled l = [].
Proof.
  induction l as [|x l IH]; intros H; simpl; [reflexivity|].
  unfold is_cancelled at 1.
  destruct (String.eqb_spec (status x) "cancelled") as [E|_].
  - exfalso. apply (H x); simpl; auto.
  - apply IH. intros r Hr. apply H. simpl; auto.
Qed.

Lemma cancelled_all (l : list Booking) :
  (forall r, In r l -> status r = "cancelled") -> filter is_cancelled l = l.
Proof.
  induction l as [|x l IH]; intros H; simpl; [reflexivity|].
  unfold is_cancelled at 1. rewrite (H x) by (simpl; auto). simpl.
  f_equal. apply IH. intros r Hr. apply H. simpl; auto.
Qed.

Lemma cancellation_rate_value (t : DataFrame) :
  exists q,
    cancellation_rate t = Fin q /\
    py_rounded_to_2_decimals
      (b64 (inject_Z (cancelled_count t) / inject_Z (len (rows t))) * 100) q.
Proof.
  unfold cancellation_rate. rewrite float_mul_100.
  set (r := (inject_Z (cancelled_count t) / inject_Z (len (rows t)))%Q).
  destruct (py_round2_value (Qred (b64 (Qred r) * 100))) as (q & Hq & Hr).
  exists q. split; [exact Hq|].
  eapply py_rounded_proper; [|exact Hr].
  rewrite Qred_correct, (b64_proper (Qred r) r) by apply Qred_correct.
  reflexivity.
Qed.

(** A share between 0 and 1, times 100 in float64 and rounded by Python
    to two decimals, is a percentage between 0 and 100 within half a
    hundredth of the exact percentage, up to float64 rounding. *)
Lemma percent_rounded (r q : Q) :
  (0 <= r)%Q -> (r <= 1)%Q ->
  py_rounded_to_2_decimals (b64 r * 100) q ->
  (0 <= q)%Q /\ (q <= 100)%Q
  /\ (Qabs (q - r * 100) <= (1 # 200) + 1 / 2 ^ 45)%Q.
Proof.
  intros H0 H1 Hq.
  pose proof (b64_le _ _ H0) as L0. pose proof (b64_le _ _ H1) as L1.
  change (b64 0) with 0%Q in L0. change (b64 1) with 1%Q in L1.
  set (y := (b64 r * 100)%Q) in *.
  assert (Y0 : (0 <= y)%Q) by (unfold y; lra).
  assert (Y1 : (y <= 100)%Q) by (unfold y; lra).
  pose proof (b64_le _ _ Y0) as M0. pose proof (b64_le _ _ Y1) as M1.
  change (b64 0) with 0%Q in M0. rewrite b64_100 in M1.
  destruct (rounded_between 0 100 (b64 y) q M0 M1 Hq) as [B0 B1].
  split; [exact B0|]. split; [exact B1|].
  pose proof (py_rounded_close y q Hq) as C.
  pose proof (b64_near r) as N.
  rewrite (Qabs_pos y) in C by exact Y0.
  rewrite (Qabs_pos r) in N by exact H0.
  assert (T : (Qabs (q - r * 100) <= Qabs (q - y) + Qabs (b64 r - r) * 100)%Q).
  { setoid_replace (q - r * 100)%Q with ((q - y) + (b64 r - r) * 100)%Q
      by (unfold y; ring).
    eapply Qle_trans; [apply Qabs_triangle|].
    rewrite Qabs_Qmult. change (Qabs 100) with 100%Q. lra. }
  assert (U : (y / 2 ^ 53 <= 100 / 2 ^ 53)%Q).
  { unfold Qdiv. apply Qmult_le_compat_r; [exact Y1 | discriminate]. }
  assert (V : (r / 2 ^ 53 <= 1 / 2 ^ 53)%Q).
  { unfold Qdiv. apply Qmult_le_compat_r; [exact H1 | discriminate]. }
  assert (W : (100 / 2 ^ 53 + 1 / 2 ^ 53 * 100 <= 1 / 2 ^ 45)%Q)
    by (vm_compute; discriminate).
  lra.
Qed.

(** C6.  On a table with at least one row, [calculate_kpis] of
    test_version.py reports as cancellation rate the number of rows whose
    status is "cancelled" over the row count, times 100 in float64,
    rounded by Python to two decimals: a number within half a hundredth
    of the exact percentage up to float64 rounding, 0 when no row is
    cancelled and 100 when every row is.  On a table without rows the
    computation fails with ZeroDivisionError. *)
Theorem cancellation_rate_formula (s : store) (df : ref) (t : DataFrame) :
  nth_error s df = Some t ->
  well_formed t = true ->
  match rows t with
  | [] => fst (test_version.calculate_kpis df s) = Raise ZeroDivisionError
  | _ :: _ =>
      exists k q,
        fst (test_version.calculate_kpis df s) = Ok k /\
        dict_get "Cancellation Rate (%)" k = Some (Float (Fin q)) /\
        py_rounded_to_2_decimals
          (b64 (inject_Z (cancelled_count t) / inject_Z (len (rows t)))
           * 100) q /\
        (Qabs (q - inject_Z (cancelled_count t) / inject_Z (len (rows t))
                   * 100)
         <= (1 # 200) + 1 / 2 ^ 45)%Q /\
        ((forall r, In r (rows t) -> status r <> "cancelled") ->
         (q == 0)%Q) /\
        ((forall r, In r (rows t) -> status r = "cancelled") ->
         (q == 100)%Q)
  end.
Proof.
  intros live wf.
  rewrite (calculate_kpis_test_version_run s df t live wf).
  destruct (rows t) as [|r l] eqn:E; [reflexivity|].
  pose proof (len_nonempty r l) as Hlen.
  replace (len (r :: l) =? 0) with false by (symmetry; apply Z.eqb_neq; lia).
  destruct (cancellation_rate_value t) as (q & Hq & Hround).
  exists (kpis_test_version t), q. cbn [fst].
  split; [reflexivity|]. split.
  { rewrite <- Hq. reflexivity. }
  rewrite E in Hround. split; [exact Hround|].
  assert (Hc : 0 <= cancelled_count t <= len (r :: l)).
  { unfold cancelled_count, len. rewrite E.
    pose proof (filter_length_le is_cancelled (r :: l)). lia. }
  assert (Hn : (0 < inject_Z (len (r :: l)))%Q)
    by (change 0%Q with (inject_Z 0); rewrite <- Zlt_Qlt; lia).
  split; [|split].
  - apply percent_rounded; [| |exact Hround].
    + apply Qle_shift_div_l; [exact Hn|].
      rewrite Qmult_0_l. change 0%Q with (inject_Z 0).
      rewrite <- Zle_Qle. lia.
    + apply Qle_shift_div_r; [exact Hn|].
      rewrite Qmult_1_l, <- Zle_Qle. lia.
  - intros H. apply (rounded_integer 0).
    eapply rounded_proper; [|exact Hround].
    unfold cancelled_count. rewrite E, cancelled_none by exact H.
    change (len []) with 0.
    rewrite (b64_proper (inject_Z 0 / inject_Z (len (r :: l))) 0)
      by (unfold Qdiv; ring).
    reflexivity.
  - intros H. apply (rounded_integer 100).
    eapply rounded_proper; [|exact Hround].
    unfold cancelled_count. rewrite E, cancelled_all by exact H.
    rewrite (b64_proper (inject_Z (len (r :: l)) / inject_Z (len (r :: l))) 1)
      by (field; lra).
    reflexivity.
Qed.

Lemma cancellation_rate_formula_witness :
  exists k,
    fst (test_version.calculate_kpis 0%nat [scenario]) = Ok k /\
    dict_get "Cancellation Rate (%)" k = Some (Float (Fin (3333 # 100))).
Proof.
  destruct (cancellation_rate_formula [scenario] 0%nat scenario
              eq_refl eq_refl) as (k & q & H1 & H2 & _).
  exists k. split; [exact H1|].
  rewrite H2. vm_compute in H1. injection H1 as <-. vm_compute in H2.
  injection H2 as <-. reflexivity.
Defined.

(** ** Average daily rate *)



Lemma inject_Z_sign (z : Z) : Qsign (inject_Z z) = (z ?= 0).
Proof.
  unfold Qsign, Qcompare, inject_Z. simpl. now rewrite Z.mul_1_r.
Qed.


Lemma np_truediv_finite (x y : Q) :
  ~ (y == 0)%Q -> np_truediv (Fin x) (Fin y) = Fin (Qred (x / y)).
Proof.
  intros H. unfold np_truediv, Qsign.
  destruct (y ?= 0)%Q eqn:C; [|reflexivity|reflexivity].
  apply Qeq_alt in C. contradiction.
Qed.




(** ** Available nights and occupancy *)

Lemma fold_max_spec (l : list Z) (x : Z) :
  (x <= fold_left Z.max l x)
  /\ (forall y, In y l -> y <= fold_left Z.max l x)
  /\ (fold_left Z.max l x = x \/ In (fold_left Z.max l x) l).
Proof.
  revert x; induction l as [|a l IH]; intros x; simpl.
  - repeat split; [lia | tauto | auto].
  - destruct (IH (Z.max x a)) as (H1 & H2 & H3). repeat split.
    + lia.
    + intros y [<-|Hy]; [lia | auto].
    + destruct H3 as [H3|H3]; [|auto].
      rewrite H3. destruct (Z.max_spec x a) as [[_ ->]|[_ ->]]; auto.
Qed.

Lemma fold_min_spec (l : list Z) (x : Z) :
  (fold_left Z.min l x <= x)
  /\ (forall y, In y l -> fold_left Z.min l x <= y)
  /\ (fold_left Z.min l x = x \/ In (fold_left Z.min l x) l).
Proof.
  revert x; induction l as [|a l IH]; intros x; simpl.
  - repeat split; [lia | tauto | auto].
  - destruct (IH (Z.min x a)) as (H1 & H2 & H3). repeat split.
    + lia.
    + intros y [<-|Hy]; [lia | auto].
    + destruct H3 as [H3|H3]; [|auto].
      rewrite H3. destruct (Z.min_spec x a) as [[_ ->]|[_ ->]]; auto.
Qed.

(** [date_max] is the greatest element, [date_min] the least. *)
Lemma date_max_spec (l : list Z) (m : Z) :
  date_max l = Some m -> In m l /\ forall y, In y l -> y <= m.
Proof.
  destruct l as [|x l]; simpl; [discriminate|].
  intros [= <-]. destruct (fold_max_spec l x) as (H1 & H2 & H3).
  split; [destruct H3 as [->|]; auto|].
  intros y [<-|Hy]; auto.
Qed.

Lemma date_min_spec (l : list Z) (m : Z) :
  date_min l = Some m -> In m l /\ forall y, In y l -> m <= y.
Proof.
  destruct l as [|x l]; simpl; [discriminate|].
  intros [= <-]. destruct (fold_min_spec l x) as (H1 & H2 & H3).
  split; [destruct H3 as [->|]; auto|].
  intros y [<-|Hy]; auto.
Qed.

(** [unique] lists every value once. *)
Lemma unique_In (l : list string) (x : string) : In x (unique l) <-> In x l.
Proof.
  induction l as [|a l IH]; simpl; [tauto|].
  rewrite filter_In, IH.
  destruct (String.eqb_spec x a) as [->|N]; simpl.
  - split; auto.
  - split; [intros [H|[H _]]; auto | intros [H|H]; auto; congruence].
Qed.

Lemma unique_NoDup (l : list string) : NoDup (unique l).
Proof.
  induction l as [|a l IH]; simpl; constructor.
  - rewrite filter_In. intros [_ H]. now rewrite String.eqb_refl in H.
  - now apply NoDup_filter.
Qed.

Lemma round2_special :
  round2 NaN = NaN /\ round2 PInf = PInf /\ round2 NInf = NInf.
Proof.
  repeat split; vm_compute; reflexivity.
Qed.

Lemma float_mul_100_special :
  float_mul NaN (of_int 100) = NaN
  /\ float_mul PInf (of_int 100) = PInf
  /\ float_mul NInf (of_int 100) = NInf.
Proof.
  repeat split; vm_compute; reflexivity.
Qed.

(** On a table with rows, the available nights are the span in days from
    the earliest check-in to the latest check-out, plus one, times the
    number of distinct properties; the occupancy is total nights over
    that product, times 100 in float64, rounded by numpy to two decimals
    when the product is not zero, and an infinity or [NaN] when it is. *)
Lemma occupancy_rate_formula (t : DataFrame) :
  rows t <> [] ->
  exists hi lo,
    date_max (map (fun r => day_of (checkout_date r)) (rows t)) = Some hi /\
    date_min (map (fun r => day_of (checkin_date r)) (rows t)) = Some lo /\
    let available := (hi - lo + 1) * num_properties t in
    (exists a, total_available_nights t = Fin a
               /\ (a == inject_Z available)%Q) /\
    (available <> 0 ->
     exists q,
       occupancy_rate t = Fin q /\
       np_rounded_to_2_decimals
         (b64 (inject_Z (total_nights t) / inject_Z available) * 100) q) /\
    (available = 0 ->
     occupancy_rate t = match total_nights t ?= 0 with
                        | Eq => NaN
                        | Gt => PInf
                        | Lt => NInf
                        end).
Proof.
  intros Hrows.
  unfold occupancy_rate, total_available_nights, period_days.
  destruct (rows t) as [|r l]; [congruence|]. cbn [map date_max date_min].
  set (hi := fold_left Z.max _ _). set (lo := fold_left Z.min _ _).
  exists hi, lo. split; [reflexivity|]. split; [reflexivity|].
  cbv zeta. cbn [timedelta days np_add np_mul of_int].
  set (a := Qred (Qred (inject_Z (hi - lo) + inject_Z 1)
                  * inject_Z (num_properties t))).
  assert (Ha : (a == inject_Z ((hi - lo + 1) * num_properties t))%Q).
  { unfold a. rewrite !Qred_correct, <- inject_Z_plus, <- inject_Z_mult.
    reflexivity. }
  split; [exists a; split; [reflexivity | exact Ha]|].
  assert (Hs : Qsign a = ((hi - lo + 1) * num_properties t ?= 0)).
  { rewrite <- inject_Z_sign. unfold Qsign. now rewrite Ha. }
  split.
  - intros Hne. unfold of_int at 1.
    rewrite np_truediv_finite
      by (rewrite Ha; now apply inject_Z_neq_0).
    rewrite float_mul_100.
    destruct (round2_value
                (Qred (b64 (Qred (inject_Z (total_nights t) / a)) * 100)))
      as (q & Hq & Hr).
    exists q. split; [exact Hq|].
    eapply np_rounded_proper; [|exact Hr].
    rewrite Qred_correct.
    rewrite (b64_proper (Qred (inject_Z (total_nights t) / a))
               (inject_Z (total_nights t)
                / inject_Z ((hi - lo + 1) * num_properties t)))
      by (now rewrite Qred_correct, Ha).
    reflexivity.
  - intros E. unfold np_truediv, of_int at 1. rewrite Hs, E, inject_Z_sign.
    cbn [Z.compare].
    destruct round2_special as (R1 & R2 & R3).
    destruct float_mul_100_special as (F1 & F2 & F3).
    destruct (total_nights t ?= 0); now rewrite ?F1, ?F2, ?F3.
Qed.

(** C4.  A booking whose check-out is the day before its check-in makes
    the available nights 0.  RevPAR, guarded on that denominator, is 0;
    the occupancy rate divides by it unguarded and is reported as
    infinity, in both programs, without any error. *)
Theorem occupancy_division_unguarded :
  total_available_nights reversed_stay = Fin 0 /\
  (exists k,
     fst (Globlal_Dashboard.calculate_kpis 0%nat [reversed_stay]) = Ok k /\
     dict_get "Occupancy Rate (%)" k = Some (FString "" Plain PInf "%") /\
     dict_get "Revenue Per Available Room (RevPAR)" k
     = Some (FString "" Plain (Fin 0) "€")) /\
  (exists k,
     fst (test_version.calculate_kpis 0%nat [reversed_stay]) = Ok k /\
     dict_get "Occupancy Rate (%)" k = Some (FString "" Plain PInf "%") /\
     dict_get "Revenue Per Available Room (RevPAR)" k
     = Some (FString "€" Plain (Fin 0) "")).
Proof.
  split; [reflexivity|].
  split; eexists; (split; [vm_compute; reflexivity|]);
    split; reflexivity.
Qed.

(** ** The empty table *)

(** C2, as stated, fails: on the empty table [Globlal_Dashboard.py]
    returns NaN entries and [test_version.py] raises. *)
Lemma empty_table_not_handled :
  ~ handles_empty_table Globlal_Dashboard.calculate_kpis /\
  ~ handles_empty_table test_version.calculate_kpis.
Proof.
  split; intros (k & Hk & Hnan).
  - vm_compute in Hk. injection Hk as <-.
    apply (Hnan "Average Lead Time (days)" (FString "" Plain NaN ""));
      reflexivity.
  - vm_compute in Hk. discriminate.
Qed.

(** C2, amended.  On a table without rows the ADR is 0, the average lead
    time is NaN, and each rating average is NaN when its column is present
    and 0 when it is absent; [Globlal_Dashboard.py] returns these without
    raising, and [test_version.py] raises ZeroDivisionError. *)
Theorem empty_table_kpis (s : store) (df : ref) (t : DataFrame) :
  nth_error s df = Some t ->
  well_formed t = true ->
  rows t = [] ->
  (exists k,
     fst (Globlal_Dashboard.calculate_kpis df s) = Ok k /\
     dict_get "Average Daily Rate (ADR)" k
     = Some (FString "" Plain (Fin 0) "€") /\
     dict_get "Average Lead Time (days)" k
     = Some (FString "" Plain NaN "") /\
     Forall (fun p =>
               dict_get (snd p) k
               = Some (Float (if has_column (label (fst p)) t then NaN
                              else Fin 0)))
            rating_kpis) /\
  fst (test_version.calculate_kpis df s) = Raise ZeroDivisionError.
Proof.
  intros live wf Hrows.
  rewrite (calculate_kpis_Globlal_run s df t live wf).
  rewrite (calculate_kpis_test_version_run s df t live wf).
  rewrite Hrows. split; [|reflexivity].
  exists (kpis_Globlal t). cbn [fst]. split; [reflexivity|].
  assert (Hr : forall c, rating_value c t
                         = if has_column (label c) t then NaN else Fin 0).
  { intros c. unfold rating_value. rewrite Hrows. reflexivity. }
  split; [|split].
  - unfold kpis_Globlal, adr, total_nights. rewrite Hrows. reflexivity.
  - unfold kpis_Globlal, lead_time_kpi. rewrite Hrows. reflexivity.
  - unfold rating_kpis.
    repeat (constructor; [cbn [fst snd]; rewrite <- Hr; reflexivity|]).
    constructor.
Qed.

Lemma empty_table_kpis_witness :
  fst (test_version.calculate_kpis 0%nat [empty_table])
  = Raise ZeroDivisionError.
Proof.
  exact (proj2 (empty_table_kpis [empty_table] 0%nat empty_table
                  eq_refl eq_refl eq_refl)).
Defined.

(** ** Rating averages *)

Lemma dropna_In (l : list (option Q)) (q : Q) :
  In q (dropna l) <-> In (Some q) l.
Proof.
  induction l as [|[x|] l IH]; simpl; [tauto| |].
  - rewrite IH. split; intros [H|H]; auto; left; congruence.
  - rewrite IH. split; [auto | intros [H|H]; [discriminate | auto]].
Qed.

(** The rating KPI of a column that holds a rating. *)
Lemma rating_value_rounded (c : Column (option Q)) (t : DataFrame)
    (x : Q) (l : list Q) :
  has_column (label c) t = true ->
  dropna (map (cell c) (rows t)) = x :: l ->
  exists q,
    rating_value c t = Fin q /\
    np_rounded_to_2_decimals (Qsum (x :: l) / inject_Z (len (x :: l))) q.
Proof.
  intros Hc E. unfold rating_value, mean_float. rewrite Hc, E.
  destruct (round2_value (Qred (Qsum (x :: l) / inject_Z (len (x :: l)))))
    as (q & Hq & Hr).
  exists q. split; [exact Hq|].
  eapply np_rounded_proper; [apply Qred_correct | exact Hr].
Qed.





(** ** The two variants of the aggregator *)

(** C10, as stated, fails: on the empty table [Globlal_Dashboard.py]
    returns a dictionary and [test_version.py] raises, so the two do not
    report equal numbers. *)
Lemma variants_differ_on_empty_table :
  ~ agree_on_shared_kpis
      (fst (Globlal_Dashboard.calculate_kpis 0%nat [empty_table]))
      (fst (test_version.calculate_kpis 0%nat [empty_table])).
Proof.
  intros (ka & kb & _ & Hb & _). vm_compute in Hb. discriminate.
Qed.

(** C10, amended.  On every table with at least one row the two
    aggregators return, and every KPI they share has the same number in
    both dictionaries; the cancellation rate is an entry of the second
    dictionary only.  On a table without rows the first returns and the
    second raises ZeroDivisionError. *)
Theorem variants_agree (s : store) (df : ref) (t : DataFrame) :
  nth_error s df = Some t ->
  well_formed t = true ->
  match rows t with
  | [] =>
      (exists k, fst (Globlal_Dashboard.calculate_kpis df s) = Ok k) /\
      fst (test_version.calculate_kpis df s) = Raise ZeroDivisionError
  | _ :: _ =>
      agree_on_shared_kpis
        (fst (Globlal_Dashboard.calculate_kpis df s))
        (fst (test_version.calculate_kpis df s)) /\
      (exists ka kb,
         fst (Globlal_Dashboard.calculate_kpis df s) = Ok ka /\
         fst (test_version.calculate_kpis df s) = Ok kb /\
         dict_get "Cancellation Rate (%)" ka = None /\
         dict_get "Cancellation Rate (%)" kb
         = Some (Float (cancellation_rate t)))
  end.
Proof.
  intros live wf.
  rewrite (calculate_kpis_Globlal_run s df t live wf).
  rewrite (calculate_kpis_test_version_run s df t live wf).
  destruct (rows t) as [|r l] eqn:E.
  - split; [eexists|]; reflexivity.
  - pose proof (len_nonempty r l).
    replace (len (r :: l) =? 0) with false
      by (symmetry; apply Z.eqb_neq; lia).
    cbn [fst]. split.
    + exists (kpis_Globlal t), (kpis_test_version t).
      split; [reflexivity|]. split; [reflexivity|].
      unfold shared_kpis.
      repeat (constructor;
              [eexists; eexists; split; [reflexivity|];
               split; reflexivity|]).
      constructor.
    + exists (kpis_Globlal t), (kpis_test_version t).
      repeat split; reflexivity.
Qed.

Lemma variants_agree_witness :
  agree_on_shared_kpis
    (fst (Globlal_Dashboard.calculate_kpis 0%nat [reviewed_scenario]))
    (fst (test_version.calculate_kpis 0%nat [reviewed_scenario])).
Proof.
  exact (proj1 (variants_agree [reviewed_scenario] 0%nat reviewed_scenario
                  eq_refl eq_refl)).
Defined.

(** ** Filter application *)

Lemma bind_getitem_live {A B : Type} (s : store) (df : ref) (t : DataFrame)
    (c : Column A) (k : list A -> M B) :
  nth_error s df = Some t ->
  has_column (label c) t = true ->
  bind (getitem df c) k s = k (map (cell c) (rows t)) s.
Proof.
  intros live H. rewrite <- (update_same s df t live) at 1 2.
  now apply bind_getitem with (t0 := t).
Qed.

Lemma bind_boolean_index_live {B : Type} (s : store) (df : ref)
    (t : DataFrame) (mask : list bool) (k : ref -> M B) :
  nth_error s df = Some t ->
  bind (boolean_index df mask) k s
  = k (List.length s)
      (s ++ [{| columns := columns t; rows := select (rows t) mask |}]).
Proof.
  intros live. rewrite <- (update_same s df t live) at 1.
  rewrite (bind_boolean_index s df t live).
  rewrite update_same; [reflexivity|].
  rewrite nth_error_app1; [exact live|].
  eapply nth_error_bound; eauto.
Qed.

Lemma nth_error_last (s : store) (t : DataFrame) :
  nth_error (s ++ [t]) (List.length s) = Some t.
Proof.
  rewrite nth_error_app2 by lia. now rewrite Nat.sub_diag.
Qed.

Lemma filter_and {A : Type} (f g : A -> bool) (l : list A) :
  filter g (filter f l) = filter (fun x => f x && g x) l.
Proof.
  induction l as [|x l IH]; simpl; [reflexivity|].
  destruct (f x); simpl; [destruct (g x)|]; congruence.
Qed.

Lemma bind_ret {A B : Type} (a : A) (k : A -> M B) (s : store) :
  bind (ret a) k s = k a s.
Proof.
  reflexivity.
Qed.

Lemma filter_selection_run (s : store) (df : ref) (t : DataFrame)
    (d0 d1 : Z) (P Q : list string) :
  nth_error s df = Some t ->
  well_formed t = true ->
  exists r extra,
    filter_selection df [d0; d1] P Q s = (Ok r, s ++ extra) /\
    nth_error (s ++ extra) r
    = Some {| columns := columns t;
              rows := filter (selected d0 d1 P Q) (rows t) |}.
Proof.
  intros live wf.
  assert (Hi : has_column "checkin_date" t = true) by base_column wf.
  assert (Hp : has_column "platform" t = true) by base_column wf.
  assert (Hn : has_column "property_name" t = true) by base_column wf.
  set (f1 := fun x : Booking =>
               (d0 <=? day_of (checkin_date x))
               && (day_of (checkin_date x) <=? d1)).
  set (t1 := {| columns := columns t; rows := filter f1 (rows t) |}).
  pose proof (nth_error_last s t1) as live1.
  assert (E1 : filter_selection df [d0; d1] P Q s
             = (filtered_df <-
                  (if nonempty P then
                     p <- getitem (List.length s) c_platform ;;
                     boolean_index (List.length s) (map (isin P) p)
                   else ret (List.length s)) ;;
                (if nonempty Q then
                   p <- getitem filtered_df c_property_name ;;
                   boolean_index filtered_df (map (isin Q) p)
                 else ret filtered_df)) (s ++ [t1])).
  { unfold filter_selection. cbn [index nth_error].
    rewrite !bind_ret.
    rewrite (bind_getitem_live s df t) by assumption.
    rewrite (bind_boolean_index_live s df t) by assumption.
    now rewrite select_map_map. }
  rewrite E1. clear E1.
  destruct P as [|p P]; destruct Q as [|q Q]; cbn [nonempty].
  - exists (List.length s), [t1].
    split; [reflexivity|]. rewrite live1. unfold t1. f_equal. f_equal.
    apply filter_ext. intros r. unfold selected, f1.
    now rewrite !andb_true_r.
  - do 2 eexists. split.
    + rewrite bind_ret.
      rewrite (bind_getitem_live _ _ t1) by assumption.
      unfold boolean_index, bind, read, alloc. rewrite live1.
      cbn [rows columns t1]. rewrite select_map_map, filter_and.
      rewrite <- app_assoc. reflexivity.
    + rewrite app_assoc, nth_error_last. f_equal. f_equal.
      apply filter_ext. intros r. unfold selected, isin, f1.
      now rewrite !andb_true_r.
  - do 2 eexists. split.
    + unfold bind at 1.
      rewrite (bind_getitem_live _ _ t1) by assumption.
      unfold boolean_index, bind, read, alloc. rewrite live1.
      cbn [rows columns t1]. rewrite select_map_map, filter_and.
      unfold ret. rewrite <- app_assoc. reflexivity.
    + rewrite app_assoc, nth_error_last. f_equal. f_equal.
      apply filter_ext. intros r. unfold selected, isin, f1.
      now rewrite !andb_true_r.
  - set (f2 := fun x : Booking => f1 x && isin (p :: P) (platform x)).
    set (t2 := {| columns := columns t; rows := filter f2 (rows t) |}).
    pose proof (nth_error_last (s ++ [t1]) t2) as live2.
    do 2 eexists. split.
    + unfold bind at 1.
      rewrite (bind_getitem_live _ _ t1) by assumption.
      unfold boolean_index at 1, bind at 1, read at 1, alloc at 1.
      rewrite live1.
      cbn [rows columns t1]. rewrite select_map_map, filter_and.
      cbn [cell c_platform]. fold f2. fold t2.
      rewrite (bind_getitem_live _ _ t2) by assumption.
      unfold boolean_index, bind, read, alloc. rewrite live2.
      cbn [rows columns t2]. rewrite select_map_map, filter_and.
      rewrite <- !app_assoc. reflexivity.
    + rewrite !app_assoc, nth_error_last. f_equal.
Qed.

Lemma member_existsb (v : string) (l : list string) :
  existsb (String.eqb v) l = true <-> In v l.
Proof.
  rewrite existsb_exists. split.
  - intros (x & Hx & E). apply String.eqb_eq in E. now subst.
  - intros H. exists v. split; [exact H | apply String.eqb_refl].
Qed.

Lemma selector_spec (v : string) (l : list string) :
  (match l with [] => true | _ => existsb (String.eqb v) l end) = true
  <-> (l <> [] -> In v l).
Proof.
  destruct l as [|x l].
  - split; [congruence | reflexivity].
  - rewrite member_existsb. split; [auto | intros H; apply H; discriminate].
Qed.

Lemma selected_spec (d0 d1 : Z) (P Q : list string) (r : Booking) :
  selected d0 d1 P Q r = true
  <-> d0 <= day_of (checkin_date r) <= d1
      /\ (P <> [] -> In (platform r) P)
      /\ (Q <> [] -> In (property_name r) Q).
Proof.
  unfold selected. rewrite !andb_true_iff, !selector_spec, !Z.leb_le. tauto.
Qed.

Lemma filter_incl_length {A : Type} (f g : A -> bool) (l : list A) :
  (forall x, f x = true -> g x = true) ->
  (List.length (filter f l) <= List.length (filter g l))%nat.
Proof.
  intros H. induction l as [|x l IH]; simpl; [lia|].
  destruct (f x) eqn:E.
  - rewrite (H x E). simpl. lia.
  - destruct (g x); simpl; lia.
Qed.

(** C7.  Filter application builds a new table that keeps, in table
    order, exactly the rows whose check-in day lies in the closed window
    and whose platform (property) belongs to the platform (property)
    selector whenever that selector is not empty.  An empty platform
    selector keeps the rows that no platform filter keeps, a singleton
    keeps a part of them, and no table that existed before is changed. *)
Theorem filter_application (s : store) (df : ref) (t : DataFrame)
    (d0 d1 : Z) (P Q : list string) :
  nth_error s df = Some t ->
  well_formed t = true ->
  (exists r s',
     filter_selection df [d0; d1] P Q s = (Ok r, s') /\
     nth_error s' r
     = Some {| columns := columns t;
               rows := filter (selected d0 d1 P Q) (rows t) |} /\
     (forall i x, nth_error s i = Some x -> nth_error s' i = Some x)) /\
  (forall r,
     In r (filter (selected d0 d1 P Q) (rows t))
     <-> In r (rows t)
         /\ d0 <= day_of (checkin_date r) <= d1
         /\ (P <> [] -> In (platform r) P)
         /\ (Q <> [] -> In (property_name r) Q)) /\
  filter (selected d0 d1 [] Q) (rows t)
  = filter (selected_any_platform d0 d1 Q) (rows t) /\
  (forall p,
     incl (filter (selected d0 d1 [p] Q) (rows t))
          (filter (selected_any_platform d0 d1 Q) (rows t)) /\
     (List.length (filter (selected d0 d1 [p] Q) (rows t))
      <= List.length (filter (selected_any_platform d0 d1 Q) (rows t)))%nat).
Proof.
  intros live wf.
  assert (Hsub : forall p r, selected d0 d1 [p] Q r = true ->
                             selected_any_platform d0 d1 Q r = true).
  { intros p r. unfold selected, selected_any_platform.
    rewrite !andb_true_iff. tauto. }
  split; [|split; [|split]].
  - destruct (filter_selection_run s df t d0 d1 P Q live wf)
      as (r & extra & Hrun & Hr).
    exists r, (s ++ extra). split; [exact Hrun|]. split; [exact Hr|].
    intros i x Hi. rewrite nth_error_app1; [exact Hi|].
    eapply nth_error_bound; eauto.
  - intros r. rewrite filter_In, selected_spec. tauto.
  - apply filter_ext. intros r. unfold selected, selected_any_platform.
    now rewrite andb_true_r.
  - intros p. split.
    + intros r. rewrite !filter_In. intros [Hin Hsel]. split; eauto.
    + apply filter_incl_length. apply Hsub.
Qed.

Lemma filter_application_witness :
  exists r s',
    filter_selection 0%nat [19737; 19745] ["airbnb"] [] [scenario]
    = (Ok r, s') /\
    option_map (fun t' => map code (rows t')) (nth_error s' r)
    = Some ["c1"; "c2"].
Proof.
  destruct (filter_application [scenario] 0%nat scenario 19737 19745
              ["airbnb"] [] eq_refl eq_refl)
    as ((r & s' & Hrun & Hr & _) & _).
  exists r, s'. split; [exact Hrun|]. rewrite Hr. reflexivity.
Defined.

(** ** Loading *)

Lemma bind_alloc {B : Type} (t : DataFrame) (k : ref -> M B) (s : store) :
  bind (alloc t) k s = k (List.length s) (s ++ [t]).
Proof.
  reflexivity.
Qed.

Lemma series_truediv_map (f g : Booking -> float64) (l : list Booking) :
  series_truediv (map f l) (map g l)
  = map (fun r => np_truediv (f r) (g r)) l.
Proof.
  unfold series_truediv. induction l as [|x l IH]; simpl; congruence.
Qed.

Lemma update_last (s : store) (t0 t : DataFrame) :
  update (s ++ [t0]) (List.length s) t = s ++ [t].
Proof.
  induction s as [|x s IH]; simpl; congruence.
Qed.

Lemma load_data_Globlal_run (bookings : list CsvBooking)
    (reviews : list Review) (s : store) :
  Globlal_Dashboard.load_data bookings reviews s
  = (Ok (List.length s), s ++ [loaded_Globlal bookings reviews]).
Proof.
  unfold Globlal_Dashboard.load_data. rewrite bind_alloc.
  set (t0 := {| columns := merged_columns;
                rows := merge_left bookings reviews |}).
  pose proof (nth_error_last s t0) as live.
  rewrite <- (update_same _ _ _ live) at 1.
  rewrite (bind_getitem _ _ _ live) by reflexivity.
  rewrite (bind_setitem _ _ _ live) by (now rewrite !length_map).
  rewrite map_map, with_column_map.
  rewrite (bind_getitem _ _ _ live) by reflexivity.
  rewrite (bind_setitem _ _ _ live) by (now rewrite !length_map).
  rewrite map_map, with_column_map.
  rewrite (bind_getitem _ _ _ live) by reflexivity.
  rewrite (bind_setitem _ _ _ live) by (now rewrite !length_map).
  rewrite map_map, with_column_map.
  do 2 rewrite (bind_getitem _ _ _ live) by reflexivity.
  rewrite (bind_setitem _ _ _ live)
    by (unfold series_truediv;
        now rewrite length_map, length_combine, !length_map, Nat.min_id).
  rewrite !map_map, series_truediv_map, with_column_map.
  unfold ret. rewrite update_last. f_equal. f_equal. f_equal.
  unfold loaded_Globlal. f_equal.
  cbn [rows t0]. rewrite !map_map. reflexivity.
Qed.

Lemma load_data_test_version_run (bookings : list CsvBooking)
    (reviews : list Review) (s : store) :
  test_version.load_data bookings reviews s
  = (Ok (List.length s), s ++ [loaded_test_version bookings reviews]).
Proof.
  unfold test_version.load_data. rewrite bind_alloc.
  set (t0 := {| columns := merged_columns;
                rows := merge_left bookings reviews |}).
  pose proof (nth_error_last s t0) as live.
  rewrite <- (update_same _ _ _ live) at 1.
  rewrite (bind_getitem _ _ _ live) by reflexivity.
  rewrite (bind_setitem _ _ _ live) by (now rewrite !length_map).
  rewrite map_map, with_column_map.
  rewrite (bind_getitem _ _ _ live) by reflexivity.
  rewrite (bind_setitem _ _ _ live) by (now rewrite !length_map).
  rewrite map_map, with_column_map.
  rewrite (bind_getitem _ _ _ live) by reflexivity.
  rewrite (bind_setitem _ _ _ live) by (now rewrite !length_map).
  rewrite map_map, with_column_map.
  unfold ret. rewrite update_last. f_equal. f_equal. f_equal.
  unfold loaded_test_version. f_equal.
  cbn [rows t0]. rewrite !map_map. reflexivity.
Qed.

(** Every booking of the file is a row of the joined table. *)
Lemma merge_left_covers (bookings : list CsvBooking) (reviews : list Review)
    (b : CsvBooking) :
  In b bookings ->
  exists r, In r (merge_left bookings reviews)
            /\ code r = csv_code b /\ nights r = csv_nights b
            /\ revenue r = csv_revenue b.
Proof.
  intros Hb. unfold merge_left.
  destruct (filter (fun r => (rv_code r =? csv_code b)%string) reviews)
    as [|m ms] eqn:E.
  - exists (joined b None). split; [|repeat split].
    apply in_flat_map. exists b. split; [exact Hb|]. rewrite E. simpl; auto.
  - exists (joined b (Some m)). split; [|repeat split].
    apply in_flat_map. exists b. split; [exact Hb|]. rewrite E. simpl; auto.
Qed.

(** C9, as stated, fails: a booking of zero nights with revenue 100 gets
    an infinite nightly rate at load time, not NaN. *)
Lemma zero_nights_rate_is_infinite :
  map nights (rows (loaded zero_nights_csv [])) = [0] /\
  map nightly_rate (rows (loaded zero_nights_csv [])) = [PInf].
Proof.
  split; reflexivity.
Qed.

(** C9, amended.  Loading never raises on a booking of zero nights: every
    booking becomes a row whose nightly rate is its revenue divided by its
    nights as float64 values, so with zero nights the rate is infinite
    when the revenue is not zero and NaN when the revenue is zero. *)
Theorem nightly_rate_derivation (bookings : list CsvBooking)
    (reviews : list Review) (s : store) :
  exists t,
    Globlal_Dashboard.load_data bookings reviews s
    = (Ok (List.length s), s ++ [t]) /\
    (forall b, In b bookings ->
               exists r, In r (rows t) /\ code r = csv_code b
                         /\ nights r = csv_nights b
                         /\ revenue r = csv_revenue b) /\
    (forall r, In r (rows t) ->
               nightly_rate r
               = np_truediv (Fin (revenue r)) (of_int (nights r)) /\
               (nights r = 0 ->
                nightly_rate r = match (revenue r ?= 0)%Q with
                                 | Eq => NaN
                                 | Gt => PInf
                                 | Lt => NInf
                                 end)).
Proof.
  exists (loaded_Globlal bookings reviews).
  split; [apply load_data_Globlal_run|]. split.
  - intros b Hb.
    destruct (merge_left_covers bookings reviews b Hb)
      as (r & Hr & Hc & Hn & Hv).
    exists (with_nightly_rate (with_month (parse_stay r))).
    split; [|repeat split; assumption].
    cbn [rows loaded_Globlal].
    apply (in_map (fun r => with_nightly_rate (with_month (parse_stay r)))).
    exact Hr.
  - intros r Hr. cbn [rows loaded_Globlal] in Hr.
    apply in_map_iff in Hr. destruct Hr as (x & <- & _).
    split; [reflexivity|].
    cbn [nights revenue nightly_rate with_nightly_rate set_nightly_rate
         with_month set_month parse_stay set_checkin_date
         set_checkout_date].
    intros ->. reflexivity.
Qed.


(** ** Nights booked per platform *)

(** C1.  On the three-booking scenario the nights-per-platform series of
    [Globlal_Dashboard.py] leaves the cancelled booking out (airbnb 2,
    vrbo 3, shares 40% and 60%), while the function of the same name in
    [test_version.py] counts it (airbnb 4, vrbo 3). *)
Theorem nights_per_platform_scenario :
  map (fun r => (platform r, status r, nights r)) (rows scenario)
  = [ ("airbnb", "confirmed", 2); ("airbnb", "cancelled", 2);
      ("vrbo", "confirmed", 3) ] /\
  fst (Globlal_Dashboard.plot_nights_booked_percentage_per_platform
         0%nat [scenario])
  = Ok [("airbnb", 2); ("vrbo", 3)] /\
  pie_percent [("airbnb", 2); ("vrbo", 3)]
  = [("airbnb", Fin 40); ("vrbo", Fin 60)] /\
  fst (test_version.plot_nights_booked_percentage_per_platform
         0%nat [scenario])
  = Ok [("airbnb", 4); ("vrbo", 3)].
Proof.
  repeat split; reflexivity.
Qed.

(** ** Grouping: the groups of [groupby] *)

Section GroupByFacts.
Context {K V : Type}.
Variables (keq klt : K -> K -> bool).
Hypothesis keq_eq : forall a b, keq a b = true <-> a = b.
Hypothesis klt_irrefl : forall a, klt a a = false.
Hypothesis klt_trans :
  forall a b c, klt a b = true -> klt b c = true -> klt a c = true.
Hypothesis klt_total :
  forall a b, keq a b = false -> klt a b = false -> klt b a = true.

Let before (a b : K * list V) : Prop := klt (fst a) (fst b) = true.

Lemma keq_refl (a : K) : keq a a = true.
Proof.
  now apply keq_eq.
Qed.

Lemma group_get_above (k : K) (g : list (K * list V)) :
  Forall (fun b => klt k (fst b) = true) g -> group_get keq k g = None.
Proof.
  induction 1 as [|[k' vs] g H _ IH]; simpl; [reflexivity|].
  destruct (keq k k') eqn:E; [|exact IH].
  apply keq_eq in E. subst k'. simpl in H.
  now rewrite klt_irrefl in H.
Qed.

Lemma group_insert_Forall (Q : K -> Prop) (k : K) (v : V)
    (g : list (K * list V)) :
  Q k ->
  Forall (fun b => Q (fst b)) g ->
  Forall (fun b => Q (fst b)) (group_insert keq klt k v g).
Proof.
  intros Hk. induction 1 as [|[k' vs] g H Hall IH]; simpl.
  - repeat constructor. exact Hk.
  - destruct (keq k k'); [|destruct (klt k k')].
    + constructor; auto.
    + repeat constructor; auto.
    + constructor; auto.
Qed.

Lemma group_insert_sorted (k : K) (v : V) (g : list (K * list V)) :
  StronglySorted before g -> StronglySorted before (group_insert keq klt k v g).
Proof.
  induction 1 as [|[k' vs] g Hs IH Hall]; simpl.
  - repeat constructor.
  - destruct (keq k k') eqn:E; [|destruct (klt k k') eqn:L].
    + constructor; auto.
    + constructor; [constructor; auto|].
      constructor; [exact L|].
      eapply Forall_impl; [|exact Hall].
      intros b Hb. unfold before in *. simpl in *. eauto.
    + constructor; [exact IH|].
      assert (Hk : klt k' k = true) by (apply klt_total; assumption).
      apply (group_insert_Forall (fun x => klt k' x = true));
        [exact Hk | exact Hall].
Qed.

Lemma group_insert_get (k k' : K) (v : V) (g : list (K * list V)) :
  StronglySorted before g ->
  group_get keq k' (group_insert keq klt k v g)
  = if keq k' k
    then Some (match group_get keq k g with
               | Some vs => vs ++ [v]
               | None => [v]
               end)
    else group_get keq k' g.
Proof.
  induction 1 as [|[k0 vs] g Hs IH Hall]; simpl.
  - destruct (keq k' k); reflexivity.
  - destruct (keq k k0) eqn:E; [|destruct (klt k k0) eqn:L]; simpl.
    + apply keq_eq in E. subst k0.
      destruct (keq k' k); reflexivity.
    + destruct (keq k' k) eqn:E'; [|reflexivity].
      rewrite group_get_above; [reflexivity|].
      eapply Forall_impl; [|exact Hall].
      intros b Hb. unfold before in Hb. simpl in Hb. eauto.
    + rewrite IH. destruct (keq k' k) eqn:E'; [|reflexivity].
      apply keq_eq in E'. subst k'. now rewrite E.
Qed.

Lemma groupby_from (kv : list (K * V)) (g : list (K * list V)) :
  StronglySorted before g ->
  StronglySorted before
    (fold_left (fun g p => group_insert keq klt (fst p) (snd p) g) kv g)
  /\ forall k,
      group_get keq k
        (fold_left (fun g p => group_insert keq klt (fst p) (snd p) g)
                   kv g)
      = match group_get keq k g, values_of keq k kv with
        | None, [] => None
        | None, vs => Some vs
        | Some a, vs => Some (a ++ vs)
        end.
Proof.
  revert g. induction kv as [|[k0 v0] kv IH]; intros g Hs; simpl.
  - split; [exact Hs|]. intros k.
    destruct (group_get keq k g); [now rewrite app_nil_r | reflexivity].
  - destruct (IH _ (group_insert_sorted k0 v0 g Hs)) as [H1 H2].
    split; [exact H1|]. intros k. rewrite H2.
    rewrite (group_insert_get k0 k v0 g Hs).
    unfold values_of. simpl.
    destruct (keq k0 k) eqn:E.
    + apply keq_eq in E. subst k0. rewrite keq_refl. simpl.
      destruct (group_get keq k g); [now rewrite <- app_assoc | reflexivity].
    + assert (E' : keq k k0 = false).
      { destruct (keq k k0) eqn:E2; [|reflexivity].
        apply keq_eq in E2. subst. now rewrite keq_refl in E. }
      rewrite E'. reflexivity.
Qed.

(** The groups come out ordered by key, and the group of a key holds
    the values of that key in table order. *)
Lemma groupby_spec (kv : list (K * V)) :
  StronglySorted before (groupby keq klt kv)
  /\ forall k,
      group_get keq k (groupby keq klt kv)
      = match values_of keq k kv with
        | [] => None
        | vs => Some vs
        end.
Proof.
  unfold groupby.
  destruct (groupby_from kv [] (SSorted_nil _)) as [H1 H2].
  split; [exact H1|]. intros k. now rewrite H2.
Qed.
End GroupByFacts.

(** ** The order of platform labels *)

Lemma string_compare_refl (a : string) : (a ?= a)%string = Eq.
Proof.
  induction a as [|c a IH]; simpl; [reflexivity|].
  unfold Ascii.compare. now rewrite N.compare_refl.
Qed.

Lemma string_compare_lt_trans (a b c : string) :
  (a ?= b)%string = Lt -> (b ?= c)%string = Lt -> (a ?= c)%string = Lt.
Proof.
  revert b c. induction a as [|x a IH]; intros [|y b] [|z c]; simpl;
    try discriminate; try reflexivity.
  unfold Ascii.compare.
  destruct (N.compare_spec (Ascii.N_of_ascii x) (Ascii.N_of_ascii y)) as [Exy|Lxy|Gxy];
    destruct (N.compare_spec (Ascii.N_of_ascii y) (Ascii.N_of_ascii z)) as [Eyz|Lyz|Gyz];
    try discriminate; intros H1 H2.
  - rewrite Exy, Eyz, N.compare_refl. eauto.
  - rewrite Exy. now apply N.compare_lt_iff in Lyz as ->.
  - rewrite <- Eyz. now apply N.compare_lt_iff in Lxy as ->.
  - assert (L : (Ascii.N_of_ascii x < Ascii.N_of_ascii z)%N) by lia.
    now apply N.compare_lt_iff in L as ->.
Qed.

Lemma string_ltb_irrefl (a : string) : (a <? a)%string = false.
Proof.
  unfold String.ltb. now rewrite string_compare_refl.
Qed.

Lemma string_ltb_trans (a b c : string) :
  (a <? b)%string = true -> (b <? c)%string = true -> (a <? c)%string = true.
Proof.
  unfold String.ltb.
  destruct (a ?= b)%string eqn:E1; try discriminate.
  destruct (b ?= c)%string eqn:E2; try discriminate.
  now rewrite (string_compare_lt_trans a b c E1 E2).
Qed.

Lemma string_ltb_total (a b : string) :
  (a =? b)%string = false -> (a <? b)%string = false ->
  (b <? a)%string = true.
Proof.
  unfold String.ltb. rewrite (String.compare_antisym b a).
  intros N. apply String.eqb_neq in N.
  destruct (a ?= b)%string eqn:E; simpl; try discriminate; [|reflexivity].
  apply String.compare_eq_iff in E. contradiction.
Qed.

Lemma series_get_aggregate {V R : Type} (f : list V -> R) (p : string)
    (g : list (string * list V)) :
  series_get p (aggregate f g) = option_map f (group_get String.eqb p g).
Proof.
  induction g as [|[k vs] g IH]; simpl; [reflexivity|].
  destruct (p =? k)%string; [reflexivity | exact IH].
Qed.

Lemma values_of_columns {V : Type} (key : Booking -> string)
    (val : Booking -> V) (p : string) (l : list Booking) :
  values_of String.eqb p (combine (map key l) (map val l))
  = map val (filter (fun r => (key r =? p)%string) l).
Proof.
  unfold values_of. induction l as [|r l IH]; simpl; [reflexivity|].
  destruct (key r =? p)%string; simpl; congruence.
Qed.

Lemma aggregate_sorted {V R : Type} (f : list V -> R)
    (g : list (string * list V)) :
  StronglySorted (fun a b => (fst a <? fst b)%string = true) g ->
  StronglySorted (fun a b => (a <? b)%string = true)
                 (map fst (aggregate f g)).
Proof.
  unfold aggregate. rewrite map_map. cbn [fst].
  induction 1 as [|a g _ IH Hall]; simpl; constructor; [exact IH|].
  rewrite Forall_map. exact Hall.
Qed.

(** What the series of [groupby(key)[val].agg(f)] holds for a label: the
    aggregate of the values of the rows with that key, and nothing when no
    row has it; the labels come out in increasing order. *)
Lemma groupby_series {V R : Type} (key : Booking -> string)
    (val : Booking -> V) (f : list V -> R) (l : list Booking) :
  let series :=
    aggregate f (groupby String.eqb String.ltb
                         (combine (map key l) (map val l))) in
  StronglySorted (fun a b => (a <? b)%string = true) (map fst series)
  /\ forall p,
      series_get p series
      = match map val (filter (fun r => (key r =? p)%string) l) with
        | [] => None
        | vs => Some (f vs)
        end.
Proof.
  cbv zeta.
  destruct (groupby_spec String.eqb String.ltb String.eqb_eq
              string_ltb_irrefl string_ltb_trans string_ltb_total
              (combine (map key l) (map val l))) as [Hs Hg].
  split.
  - apply aggregate_sorted. exact Hs.
  - intros p. rewrite series_get_aggregate, Hg, values_of_columns.
    destruct (map val (filter _ l)); reflexivity.
Qed.

(** The nights-per-platform series of [Globlal_Dashboard.py] on any
    table: cancelled rows are removed first, then the nights of each
    platform are summed. *)
Lemma nights_per_platform_excludes_cancelled (s : store) (df : ref)
    (t : DataFrame) :
  nth_error s df = Some t ->
  well_formed t = true ->
  exists series,
    fst (Globlal_Dashboard.plot_nights_booked_percentage_per_platform df s)
    = Ok series /\
    forall p,
      series_get p series
      = match nights_of_platform p (rows t) with
        | [] => None
        | ns => Some (sum_int64 ns)
        end.
Proof.
  intros live wf.
  assert (Hs : has_column "status" t = true) by base_column wf.
  assert (Hp : has_column "platform" t = true) by base_column wf.
  assert (Hn : has_column "nights" t = true) by base_column wf.
  unfold Globlal_Dashboard.plot_nights_booked_percentage_per_platform.
  rewrite (bind_getitem_live s df t) by assumption.
  rewrite (bind_boolean_index_live s df t) by assumption.
  rewrite select_map_map.
  set (t1 := {| columns := columns t; rows := filter _ (rows t) |}).
  pose proof (nth_error_last s t1) as live1.
  do 2 rewrite (bind_getitem_live _ _ t1) by assumption.
  eexists. split; [reflexivity|].
  intros p.
  destruct (groupby_series platform nights sum_int64 (rows t1)) as [_ H].
  apply H.
Qed.

(** The function of the same name in [test_version.py] sums the nights of
    all rows of a platform, cancelled or not. *)
Lemma nights_per_platform_counts_cancelled (s : store) (df : ref)
    (t : DataFrame) :
  nth_error s df = Some t ->
  well_formed t = true ->
  exists series,
    fst (test_version.plot_nights_booked_percentage_per_platform df s)
    = Ok series /\
    forall p,
      series_get p series
      = match map nights
                (filter (fun r => (platform r =? p)%string) (rows t)) with
        | [] => None
        | ns => Some (sum_int64 ns)
        end.
Proof.
  intros live wf.
  assert (Hp : has_column "platform" t = true) by base_column wf.
  assert (Hn : has_column "nights" t = true) by base_column wf.
  unfold test_version.plot_nights_booked_percentage_per_platform.
  do 2 rewrite (bind_getitem_live s df t) by assumption.
  eexists. split; [reflexivity|].
  intros p.
  destruct (groupby_series platform nights sum_int64 (rows t)) as [_ H].
  apply H.
Qed.

(** ** Which tables a computation writes to *)

Lemma reads_only_ret {A : Type} (a : A) : reads_only (ret a).
Proof.
  intros s. exists []. simpl. now rewrite app_nil_r.
Qed.

Lemma reads_only_raise {A : Type} (e : exn) : reads_only (@raise A e).
Proof.
  intros s. exists []. simpl. now rewrite app_nil_r.
Qed.

Lemma reads_only_bind {A B : Type} (m : M A) (k : A -> M B) :
  reads_only m -> (forall a, reads_only (k a)) -> reads_only (bind m k).
Proof.
  intros Hm Hk s. unfold bind.
  destruct (Hm s) as [e1 H1]. destruct (m s) as [[a|e] s']; simpl in *.
  - destruct (Hk a s') as [e2 H2]. exists (e1 ++ e2).
    now rewrite H2, H1, app_assoc.
  - now exists e1.
Qed.

Lemma reads_only_read (df : ref) : reads_only (read df).
Proof.
  intros s. exists []. unfold read.
  destruct (nth_error s df); simpl; now rewrite app_nil_r.
Qed.

Lemma reads_only_alloc (t : DataFrame) : reads_only (alloc t).
Proof.
  intros s. now exists [t].
Qed.

Lemma reads_only_getitem {A : Type} (df : ref) (c : Column A) :
  reads_only (getitem df c).
Proof.
  apply reads_only_bind; [apply reads_only_read|].
  intros t. destruct (has_column (label c) t);
    [apply reads_only_ret | apply reads_only_raise].
Qed.

Lemma reads_only_contains (df : ref) (c : string) :
  reads_only (contains df c).
Proof.
  apply reads_only_bind; [apply reads_only_read|].
  intros t. apply reads_only_ret.
Qed.

Lemma reads_only_shape0 (df : ref) : reads_only (shape0 df).
Proof.
  apply reads_only_bind; [apply reads_only_read|].
  intros t. apply reads_only_ret.
Qed.

Lemma reads_only_boolean_index (df : ref) (mask : list bool) :
  reads_only (boolean_index df mask).
Proof.
  apply reads_only_bind; [apply reads_only_read|].
  intros t. apply reads_only_alloc.
Qed.

Lemma reads_only_index {A : Type} (l : list A) (i : nat) :
  reads_only (index l i).
Proof.
  unfold index. destruct (nth_error l i);
    [apply reads_only_ret | apply reads_only_raise].
Qed.

Lemma reads_only_py_truediv (a b : Z) : reads_only (py_truediv a b).
Proof.
  unfold py_truediv. destruct (b =? 0);
    [apply reads_only_raise | apply reads_only_ret].
Qed.

Lemma reads_only_rating_kpi (df : ref) (c : Column (option Q)) :
  reads_only (rating_kpi df c).
Proof.
  apply reads_only_bind; [apply reads_only_contains|].
  intros [|]; [|apply reads_only_ret].
  apply reads_only_bind; [apply reads_only_getitem|].
  intros col. apply reads_only_ret.
Qed.

Ltac reads :=
  repeat first
    [ apply reads_only_ret
    | apply reads_only_raise
    | apply reads_only_getitem
    | apply reads_only_contains
    | apply reads_only_shape0
    | apply reads_only_boolean_index
    | apply reads_only_index
    | apply reads_only_py_truediv
    | apply reads_only_rating_kpi
    | apply reads_only_bind; [|intros ?]
    | match goal with
      | |- reads_only (if ?b then _ else _) => destruct b
      end ].

Lemma reads_only_filter_selection (df : ref) (dates : list Z)
    (P Q : list string) :
  reads_only (filter_selection df dates P Q).
Proof.
  unfold filter_selection. reads.
Qed.

Lemma reads_only_writes_only {A : Type} (df : ref) (m : M A) :
  reads_only m -> writes_only df m.
Proof.
  intros H s. destruct (H s) as [extra E]. rewrite E. split.
  - rewrite length_app. lia.
  - intros i _ Hi. now rewrite nth_error_app1.
Qed.

Lemma writes_only_bind {A B : Type} (df : ref) (m : M A) (k : A -> M B) :
  writes_only df m -> (forall a, writes_only df (k a)) ->
  writes_only df (bind m k).
Proof.
  intros Hm Hk s. unfold bind.
  destruct (Hm s) as [L1 H1]. destruct (m s) as [[a|e] s']; simpl in *.
  - destruct (Hk a s') as [L2 H2]. split; [lia|].
    intros i Hi Hlt. rewrite H2 by (auto; lia). auto.
  - split; auto.
Qed.

Lemma writes_only_setitem {A : Type} (df : ref) (c : Column A)
    (assign : Booking -> A -> Booking) (values : list A) :
  writes_only df (setitem df c assign values).
Proof.
  intros s. unfold setitem, bind, read, write.
  destruct (nth_error s df) as [t|]; simpl; [|split; auto].
  destruct (negb _); simpl; [split; auto|].
  rewrite update_length. split; [lia|].
  intros i Hi _. now apply nth_error_update_neq.
Qed.

Ltac writes df :=
  repeat first
    [ apply writes_only_setitem
    | apply reads_only_writes_only; solve [reads]
    | apply writes_only_bind; [|intros ?]
    | match goal with
      | |- writes_only _ (if ?b then _ else _) => destruct b
      end ].

Lemma writes_only_calculate_kpis_Globlal (df : ref) :
  writes_only df (Globlal_Dashboard.calculate_kpis df).
Proof.
  unfold Globlal_Dashboard.calculate_kpis. writes df.
Qed.

Lemma writes_only_calculate_kpis_test_version (df : ref) :
  writes_only df (test_version.calculate_kpis df).
Proof.
  unfold test_version.calculate_kpis. writes df.
Qed.

Lemma writes_only_derive_month (df : ref) :
  writes_only df (test_version.derive_month df).
Proof.
  unfold test_version.derive_month. writes df.
Qed.

Lemma writes_only_plot_monthly_revenue_line (df : ref) :
  writes_only df (test_version.plot_monthly_revenue_line df).
Proof.
  unfold test_version.plot_monthly_revenue_line.
  apply writes_only_bind; [apply writes_only_derive_month|]. intros _.
  writes df.
Qed.

Lemma writes_only_plot_monthly_occupancy_rate (df : ref) :
  writes_only df (test_version.plot_monthly_occupancy_rate df).
Proof.
  unfold test_version.plot_monthly_occupancy_rate.
  apply writes_only_bind; [apply writes_only_derive_month|]. intros _.
  writes df.
Qed.

Lemma writes_only_plot_monthly_adr_line (df : ref) :
  writes_only df (test_version.plot_monthly_adr_line df).
Proof.
  unfold test_version.plot_monthly_adr_line.
  apply writes_only_bind; [apply writes_only_derive_month|]. intros _.
  writes df.
Qed.

(** The chart functions that assign nothing. *)
Lemma reads_only_charts (df : ref) :
  reads_only (Globlal_Dashboard.plot_revenue_per_platform df) /\
  reads_only (Globlal_Dashboard.plot_revenue_percentage_per_platform df) /\
  reads_only
    (Globlal_Dashboard.plot_nights_booked_percentage_per_platform df) /\
  reads_only
    (Globlal_Dashboard.plot_stacked_revenue_by_property_platform df) /\
  reads_only (test_version.plot_revenue_percentage_per_platform df) /\
  reads_only (test_version.plot_nights_booked_percentage_per_platform df) /\
  reads_only (test_version.plot_stacked_revenue_by_property_platform df).
Proof.
  repeat split.
  - unfold Globlal_Dashboard.plot_revenue_per_platform. reads.
  - unfold Globlal_Dashboard.plot_revenue_percentage_per_platform. reads.
  - unfold Globlal_Dashboard.plot_nights_booked_percentage_per_platform.
    reads.
  - unfold Globlal_Dashboard.plot_stacked_revenue_by_property_platform.
    reads.
  - unfold test_version.plot_revenue_percentage_per_platform. reads.
  - unfold test_version.plot_nights_booked_percentage_per_platform. reads.
  - unfold test_version.plot_stacked_revenue_by_property_platform. reads.
Qed.

Lemma reads_only_keeps {A : Type} (m : M A) (s : store) (i : ref)
    (x : DataFrame) :
  reads_only m -> nth_error s i = Some x ->
  nth_error (snd (m s)) i = Some x.
Proof.
  intros H Hi. destruct (H s) as [extra ->].
  rewrite nth_error_app1; [exact Hi|]. eapply nth_error_bound; eauto.
Qed.

(** ** What the aggregations write *)

Lemma derive_month_run (s : store) (df : ref) (t0 t : DataFrame) :
  nth_error s df = Some t0 ->
  has_column "checkin_date" t = true ->
  has_column "checkout_date" t = true ->
  test_version.derive_month df (update s df t)
  = (Ok tt, update s df (month_derived t)).
Proof.
  intros live Hi Ho. unfold test_version.derive_month.
  rewrite (bind_getitem s df t0 live) by assumption.
  rewrite (bind_setitem s df t0 live) by (now rewrite !length_map).
  rewrite map_map, with_column_map. cbn [label c_checkin_date]. rewrite Hi.
  rewrite (bind_getitem s df t0 live) by exact Ho.
  rewrite (bind_setitem s df t0 live) by (now rewrite !length_map).
  rewrite map_map, with_column_map. cbn [label c_checkout_date columns].
  change (has_column "checkout_date" {| columns := columns t; rows := _ |})
    with (has_column "checkout_date" t).
  rewrite Ho.
  rewrite (bind_getitem s df t0 live) by exact Hi.
  rewrite (setitem_run s df t0 live) by (now rewrite !length_map).
  rewrite map_map, with_column_map. cbn [label c_month columns rows].
  change (has_column "month" {| columns := columns t; rows := _ |})
    with (has_column "month" t).
  unfold month_derived. rewrite !map_map. reflexivity.
Qed.

Lemma month_derived_loaded (t : DataFrame) : as_loaded t -> month_derived t = t.
Proof.
  intros [Hm Hrows]. destruct t as [cols rws]. unfold month_derived.
  rewrite Hm. cbn [columns rows] in *. f_equal.
  rewrite <- (map_id rws) at 2. apply map_ext_in.
  intros r Hr. destruct (Hrows r Hr) as (H1 & H2 & H3).
  destruct r as [? ? ? ? ci co ? ? ? ? ? ? ? ? ? ? m ? ?].
  cbn in H1, H2, H3. subst m.
  destruct ci; [discriminate|]. destruct co; [discriminate|]. reflexivity.
Qed.

Lemma after_kpis_rows_Globlal (l : list Booking) :
  Forall2 same_but_booking_and_lead l (map with_lead_time l).
Proof.
  induction l as [|r l IH]; simpl; constructor; [|exact IH].
  unfold same_but_booking_and_lead. repeat split; reflexivity.
Qed.

Lemma after_kpis_rows_test_version (l : list Booking) :
  Forall2 same_but_booking_and_lead l (map parse_booking_date l).
Proof.
  induction l as [|r l IH]; simpl; constructor; [|exact IH].
  unfold same_but_booking_and_lead. repeat split; reflexivity.
Qed.

Lemma monthly_chart_run {A : Type} (rest : M A) (s : store) (df : ref)
    (t : DataFrame) :
  nth_error s df = Some t ->
  well_formed t = true ->
  reads_only rest ->
  exists extra,
    snd (bind (test_version.derive_month df) (fun _ => rest) s)
    = update s df (month_derived t) ++ extra.
Proof.
  intros live wf Hrest.
  assert (Hi : has_column "checkin_date" t = true) by base_column wf.
  assert (Ho : has_column "checkout_date" t = true) by base_column wf.
  assert (E : bind (test_version.derive_month df) (fun _ => rest) s
              = rest (update s df (month_derived t))).
  { rewrite <- (update_same s df t live) at 1. unfold bind.
    now rewrite (derive_month_run s df t t live Hi Ho). }
  rewrite E. apply Hrest.
Qed.

(** C3, as stated, fails: after [calculate_kpis] of
    [Globlal_Dashboard.py] the table it was given has a [lead_time]
    column that it did not have before. *)
Lemma calculate_kpis_changes_its_input :
  nth_error [scenario] 0%nat = Some scenario /\
  has_column "lead_time" scenario = false /\
  exists t',
    nth_error (snd (Globlal_Dashboard.calculate_kpis 0%nat [scenario])) 0%nat
    = Some t' /\
    has_column "lead_time" t' = true /\ t' <> scenario.
Proof.
  split; [reflexivity|]. split; [reflexivity|].
  eexists. split; [vm_compute; reflexivity|]. split; [reflexivity|].
  intros H. apply (f_equal (has_column "lead_time")) in H.
  vm_compute in H. discriminate.
Qed.

(** C3, amended.  [calculate_kpis] writes to the table it is given and to
    no other: it parses [booking_date] in place and, in
    [Globlal_Dashboard.py], adds a [lead_time] column of day counts, and
    leaves the rows, their order and every other column as they were.
    The monthly chart functions of [test_version.py] assign
    [checkin_date], [checkout_date] and [month] again, which leaves a
    table as [load_data] built it unchanged.  The other chart functions
    and filter application write to no table: filtering only adds new
    tables to the store. *)
Theorem input_table_effects (s : store) (df : ref) (t : DataFrame)
    (dates : list Z) (P Q : list string) :
  nth_error s df = Some t ->
  well_formed t = true ->
  (snd (Globlal_Dashboard.calculate_kpis df s)
   = update s df (after_kpis_Globlal t) /\
   Forall2 same_but_booking_and_lead
           (rows t) (rows (after_kpis_Globlal t))) /\
  (snd (test_version.calculate_kpis df s)
   = update s df (after_kpis_test_version t) ++ [cancelled_rows t] /\
   columns (after_kpis_test_version t) = columns t /\
   Forall2 same_but_booking_and_lead
           (rows t) (rows (after_kpis_test_version t))) /\
  ((exists extra,
      snd (test_version.plot_monthly_revenue_line df s)
      = update s df (month_derived t) ++ extra) /\
   (exists extra,
      snd (test_version.plot_monthly_occupancy_rate df s)
      = update s df (month_derived t) ++ extra) /\
   (exists extra,
      snd (test_version.plot_monthly_adr_line df s)
      = update s df (month_derived t) ++ extra) /\
   (as_loaded t -> month_derived t = t)) /\
  (reads_only (Globlal_Dashboard.plot_revenue_per_platform df) /\
   reads_only (Globlal_Dashboard.plot_revenue_percentage_per_platform df) /\
   reads_only
     (Globlal_Dashboard.plot_nights_booked_percentage_per_platform df) /\
   reads_only
     (Globlal_Dashboard.plot_stacked_revenue_by_property_platform df) /\
   reads_only (test_version.plot_revenue_percentage_per_platform df) /\
   reads_only (test_version.plot_nights_booked_percentage_per_platform df) /\
   reads_only (test_version.plot_stacked_revenue_by_property_platform df)) /\
  (reads_only (filter_selection df dates P Q) /\
   nth_error (snd (filter_selection df dates P Q s)) df = Some t) /\
  (writes_only df (Globlal_Dashboard.calculate_kpis df) /\
   writes_only df (test_version.calculate_kpis df) /\
   writes_only df (test_version.plot_monthly_revenue_line df) /\
   writes_only df (test_version.plot_monthly_occupancy_rate df) /\
   writes_only df (test_version.plot_monthly_adr_line df)).
Proof.
  intros live wf.
  pose proof (nth_error_bound s df t live) as Hlt.
  split; [|split; [|split; [|split; [|split]]]].
  - rewrite (calculate_kpis_Globlal_run s df t live wf). split.
    + reflexivity.
    + apply after_kpis_rows_Globlal.
  - rewrite (calculate_kpis_test_version_run s df t live wf).
    split; [|split].
    + cbn [snd]. now rewrite update_app.
    + reflexivity.
    + apply after_kpis_rows_test_version.
  - split; [|split; [|split]].
    + apply monthly_chart_run; auto. reads.
    + apply monthly_chart_run; auto. reads.
    + apply monthly_chart_run; auto. reads.
    + apply month_derived_loaded.
  - apply reads_only_charts.
  - split; [apply reads_only_filter_selection|].
    apply reads_only_keeps; [apply reads_only_filter_selection | exact live].
  - split; [apply writes_only_calculate_kpis_Globlal|].
    split; [apply writes_only_calculate_kpis_test_version|].
    split; [apply writes_only_plot_monthly_revenue_line|].
    split; [apply writes_only_plot_monthly_occupancy_rate|].
    apply writes_only_plot_monthly_adr_line.
Qed.

Lemma input_table_effects_witness :
  snd (Globlal_Dashboard.calculate_kpis 0%nat [scenario])
  = [after_kpis_Globlal scenario] /\
  (exists extra,
     snd (test_version.plot_monthly_occupancy_rate 0%nat [scenario])
     = [scenario] ++ extra).
Proof.
  destruct (input_table_effects [scenario] 0%nat scenario [19737; 19760]
              [] [] eq_refl eq_refl)
    as ((H1 & _) & _ & (_ & (extra & H2) & _ & H3) & _).
  split; [exact H1|].
  exists extra. rewrite H2. rewrite H3; [reflexivity|].
  split; [reflexivity|].
  intros r Hr. cbn in Hr.
  repeat (destruct Hr as [<-|Hr]; [repeat split; reflexivity|]).
  contradiction.
Defined.

(** * Further properties of the two programs *)

(** ** Nights booked per platform, on every table *)

Lemma plot_nights_Globlal_run (s : store) (df : ref) (t : DataFrame) :
  nth_error s df = Some t ->
  well_formed t = true ->
  fst (Globlal_Dashboard.plot_nights_booked_percentage_per_platform df s)
  = Ok (aggregate sum_int64
          (groupby String.eqb String.ltb
             (combine
                (map platform
                     (filter (fun r => negb (is_cancelled r)) (rows t)))
                (map nights
                     (filter (fun r => negb (is_cancelled r)) (rows t)))))).
Proof.
  intros live wf.
  assert (Hs : has_column "status" t = true) by base_column wf.
  assert (Hp : has_column "platform" t = true) by base_column wf.
  assert (Hn : has_column "nights" t = true) by base_column wf.
  unfold Globlal_Dashboard.plot_nights_booked_percentage_per_platform.
  rewrite (bind_getitem_live s df t) by assumption.
  rewrite (bind_boolean_index_live s df t) by assumption.
  rewrite select_map_map.
  set (t1 := {| columns := columns t; rows := filter _ (rows t) |}).
  pose proof (nth_error_last s t1) as live1.
  do 2 rewrite (bind_getitem_live _ _ t1) by assumption.
  reflexivity.
Qed.

Lemma plot_nights_test_version_run (s : store) (df : ref) (t : DataFrame) :
  nth_error s df = Some t ->
  well_formed t = true ->
  fst (test_version.plot_nights_booked_percentage_per_platform df s)
  = Ok (aggregate sum_int64
          (groupby String.eqb String.ltb
             (combine (map platform (rows t)) (map nights (rows t))))).
Proof.
  intros live wf.
  assert (Hp : has_column "platform" t = true) by base_column wf.
  assert (Hn : has_column "nights" t = true) by base_column wf.
  unfold test_version.plot_nights_booked_percentage_per_platform.
  do 2 rewrite (bind_getitem_live s df t) by assumption.
  reflexivity.
Qed.

Lemma filter_all {A : Type} (f : A -> bool) (l : list A) :
  (forall x, In x l -> f x = true) -> filter f l = l.
Proof.
  induction l as [|x l IH]; intros H; simpl; [reflexivity|].
  rewrite (H x) by (simpl; auto). f_equal. apply IH.
  intros y Hy. apply H. simpl; auto.
Qed.

(** X1 witness. *)
Lemma nights_per_platform_excludes_cancelled_witness :
  exists series,
    fst (Globlal_Dashboard.plot_nights_booked_percentage_per_platform
           0%nat [scenario]) = Ok series /\
    series_get "airbnb" series = Some 2 /\
    series_get "booking.com" series = None.
Proof.
  destruct (nights_per_platform_excludes_cancelled [scenario] 0%nat scenario
              eq_refl eq_refl) as (series & Hrun & Hget).
  exists series. split; [exact Hrun|].
  rewrite !Hget. split; reflexivity.
Defined.

(** X2.  On a table without cancelled rows the nights-per-platform series
    of the two programs are the same list. *)
Theorem nights_series_agree_without_cancellations (s : store) (df : ref)
    (t : DataFrame) :
  nth_error s df = Some t ->
  well_formed t = true ->
  (forall r, In r (rows t) -> status r <> "cancelled") ->
  exists series,
    fst (Globlal_Dashboard.plot_nights_booked_percentage_per_platform df s)
    = Ok series /\
    fst (test_version.plot_nights_booked_percentage_per_platform df s)
    = Ok series.
Proof.
  intros live wf Hnone.
  rewrite (plot_nights_Globlal_run s df t live wf).
  rewrite (plot_nights_test_version_run s df t live wf).
  rewrite filter_all.
  - eexists. split; reflexivity.
  - intros r Hr. unfold is_cancelled.
    apply negb_true_iff. apply String.eqb_neq. now apply Hnone.
Qed.

Lemma nights_series_agree_without_cancellations_witness :
  exists series,
    fst (Globlal_Dashboard.plot_nights_booked_percentage_per_platform
           0%nat [reversed_stay]) = Ok series /\
    fst (test_version.plot_nights_booked_percentage_per_platform
           0%nat [reversed_stay]) = Ok series.
Proof.
  apply (nights_series_agree_without_cancellations [reversed_stay] 0%nat
           reversed_stay eq_refl eq_refl).
  intros r [<-|[]]. discriminate.
Defined.

(** ** Errors of the filter block and of the aggregator *)

(** X3.  With fewer than two selected dates the filter block fails with
    IndexError before it builds any table. *)
Theorem filter_needs_two_dates (s : store) (df : ref) (t : DataFrame)
    (dates : list Z) (P Q : list string) :
  nth_error s df = Some t ->
  has_column "checkin_date" t = true ->
  (List.length dates < 2)%nat ->
  filter_selection df dates P Q s = (Raise IndexError, s).
Proof.
  intros _ _ H. destruct dates as [|d0 [|d1 l]]; simpl in H; try lia;
    reflexivity.
Qed.

Lemma filter_needs_two_dates_witness :
  filter_selection 0%nat [19737] ["airbnb"] [] [scenario]
  = (Raise IndexError, [scenario]).
Proof.
  apply (filter_needs_two_dates [scenario] 0%nat scenario [19737]
           ["airbnb"] [] eq_refl eq_refl).
  simpl. lia.
Defined.

Lemma calculate_kpis_Globlal_run_columns (s : store) (df : ref)
    (t : DataFrame) :
  nth_error s df = Some t ->
  has_column "nights" t = true ->
  has_column "revenue" t = true ->
  has_column "property_name" t = true ->
  has_column "checkin_date" t = true ->
  has_column "checkout_date" t = true ->
  has_column "booking_date" t = true ->
  Globlal_Dashboard.calculate_kpis df s
  = (Ok (kpis_Globlal t), update s df (after_kpis_Globlal t)).
Proof.
  intros live Hn Hr Hp Hi Ho Hb.
  assert (Hl : has_column "lead_time" (lead_timedelta t) = true).
  { change (has_column "lead_time" (after_kpis_Globlal t) = true).
    now rewrite has_column_lead_time, orb_true_r. }
  assert (Hk : forall c, has_column c t = true ->
                         has_column c (lead_timedelta t) = true)
    by exact (fun c => has_column_kept c t).
  rewrite <- (update_same s df t live) at 1.
  unfold Globlal_Dashboard.calculate_kpis.
  do 6 rewrite (bind_getitem s df t live) by assumption.
  rewrite (bind_setitem s df t live) by (now rewrite !length_map).
  rewrite assign_booking_date by assumption.
  do 2 rewrite (bind_getitem s df t live) by assumption.
  rewrite (bind_setitem s df t live)
    by (now rewrite length_map, series_sub_length; rewrite !length_map).
  rewrite assign_lead_timedelta.
  rewrite (bind_contains s df t live), Hl.
  rewrite (bind_getitem s df t live) by exact Hl.
  assert (Hif :
    forall B (k : unit -> M B),
      bind (if negb true
               || negb (dtype_is_int64
                          (map (cell c_lead_time) (rows (lead_timedelta t))))
            then
              checkin <- getitem df c_checkin_date ;;
              booking <- getitem df c_booking_date ;;
              setitem df c_lead_time set_lead_time
                (map Days (series_sub checkin booking))
            else ret tt) k (update s df (lead_timedelta t))
      = k tt (update s df (after_kpis_Globlal t))).
  { intros B k. destruct (rows t) as [|r l] eqn:E.
    - rewrite <- lead_timedelta_empty by exact E.
      cbn [rows lead_timedelta]. rewrite E. reflexivity.
    - replace (dtype_is_int64 _) with false
        by (cbn [rows lead_timedelta]; rewrite E; reflexivity).
      cbn [negb orb]. unfold bind at 1.
      do 2 rewrite (bind_getitem s df t live) by (apply Hk; assumption).
      rewrite (setitem_run s df t live)
        by (now rewrite length_map, series_sub_length; rewrite !length_map).
      now rewrite assign_lead_days. }
  rewrite Hif.
  do 2 rewrite (bind_getitem s df t live)
    by (apply has_column_kept; assumption).
  rewrite (bind_shape0 s df t live).
  rewrite (bind_getitem s df t live)
    by (apply has_column_kept; assumption).
  do 7 rewrite (bind_rating_kpi s df t live).
  rewrite !rating_value_after_Globlal by (simpl; tauto).
  rewrite series_sub_map.
  cbn [rows after_kpis_Globlal].
  rewrite !map_map, !len_map.
  reflexivity.
Qed.

(** X4.  On a table that lacks the [status] column (and has the other
    columns the aggregator reads) [calculate_kpis] of [test_version.py]
    raises KeyError('status') only after it has parsed [booking_date] in
    place, so the table is left modified; [calculate_kpis] of
    [Globlal_Dashboard.py] never reads [status] and returns. *)
Theorem calculate_kpis_without_status (s : store) (df : ref)
    (t : DataFrame) :
  nth_error s df = Some t ->
  has_column "nights" t = true ->
  has_column "revenue" t = true ->
  has_column "property_name" t = true ->
  has_column "checkin_date" t = true ->
  has_column "checkout_date" t = true ->
  has_column "booking_date" t = true ->
  has_column "status" t = false ->
  test_version.calculate_kpis df s
  = (Raise (KeyError "status"), update s df (after_kpis_test_version t)) /\
  Globlal_Dashboard.calculate_kpis df s
  = (Ok (kpis_Globlal t), update s df (after_kpis_Globlal t)).
Proof.
  intros live Hn Hr Hp Hi Ho Hb Hs.
  split; [|now apply calculate_kpis_Globlal_run_columns].
  rewrite <- (update_same s df t live) at 1.
  unfold test_version.calculate_kpis.
  do 6 rewrite (bind_getitem s df t live) by assumption.
  rewrite (bind_setitem s df t live) by (now rewrite !length_map).
  rewrite assign_booking_date by assumption.
  do 2 rewrite (bind_getitem s df t live) by assumption.
  rewrite (bind_shape0 s df t live).
  rewrite (bind_getitem s df t live) by assumption.
  do 7 rewrite (bind_rating_kpi s df t live).
  rewrite (bind_shape0 s df t live).
  unfold bind at 1, getitem, bind at 1.
  rewrite (read_run s df t live).
  change (has_column (label c_status) (after_kpis_test_version t))
    with (has_column "status" t).
  now rewrite Hs.
Qed.

Lemma calculate_kpis_without_status_witness :
  fst (test_version.calculate_kpis 0%nat [scenario_without_status])
  = Raise (KeyError "status") /\
  option_map (fun t => map booking_date (rows t))
             (nth_error
                (snd (test_version.calculate_kpis
                        0%nat [scenario_without_status])) 0%nat)
  = Some [Timestamp 19730; Timestamp 19731; Timestamp 19740].
Proof.
  destruct (calculate_kpis_without_status [scenario_without_status] 0%nat
              scenario_without_status eq_refl eq_refl eq_refl eq_refl
              eq_refl eq_refl eq_refl eq_refl) as [H _].
  rewrite H. split; reflexivity.
Defined.

(** ** Ranges of the ratio KPIs *)

Lemma filter_length_le {A : Type} (f : A -> bool) (l : list A) :
  (List.length (filter f l) <= List.length l)%nat.
Proof.
  induction l as [|x l IH]; simpl; [lia|].
  destruct (f x); simpl; lia.
Qed.

(** X5.  Whenever [test_version.py] reports a cancellation rate it lies
    between 0 and 100. *)
Theorem cancellation_rate_range (s : store) (df : ref) (t : DataFrame) :
  nth_error s df = Some t ->
  well_formed t = true ->
  rows t <> [] ->
  exists k q,
    fst (test_version.calculate_kpis df s) = Ok k /\
    dict_get "Cancellation Rate (%)" k = Some (Float (Fin q)) /\
    (0 <= q)%Q /\ (q <= 100)%Q.
Proof.
  intros live wf Hrows.
  rewrite (calculate_kpis_test_version_run s df t live wf).
  destruct (rows t) as [|r l] eqn:E; [congruence|].
  pose proof (len_nonempty r l) as Hlen.
  replace (len (r :: l) =? 0) with false by (symmetry; apply Z.eqb_neq; lia).
  destruct (cancellation_rate_value t) as (q & Hq & Hround).
  exists (kpis_test_version t), q. cbn [fst].
  split; [reflexivity|]. split; [rewrite <- Hq; reflexivity|].
  rewrite E in Hround.
  assert (Hc : 0 <= cancelled_count t <= len (r :: l)).
  { unfold cancelled_count, len. rewrite E.
    pose proof (filter_length_le is_cancelled (r :: l)). lia. }
  assert (Hn : (0 < inject_Z (len (r :: l)))%Q)
    by (change 0%Q with (inject_Z 0); rewrite <- Zlt_Qlt; lia).
  apply percent_rounded in Hround; [split; apply Hround| |].
  - apply Qle_shift_div_l; [exact Hn|].
    rewrite Qmult_0_l. change 0%Q with (inject_Z 0).
    rewrite <- Zle_Qle. lia.
  - apply Qle_shift_div_r; [exact Hn|].
    rewrite Qmult_1_l, <- Zle_Qle. lia.
Qed.

Lemma cancellation_rate_range_witness :
  exists k q,
    fst (test_version.calculate_kpis 0%nat [scenario]) = Ok k /\
    dict_get "Cancellation Rate (%)" k = Some (Float (Fin q)) /\
    (0 <= q)%Q /\ (q <= 100)%Q.
Proof.
  apply (cancellation_rate_range [scenario] 0%nat scenario eq_refl eq_refl).
  discriminate.
Defined.

Lemma Qsum_bounds (a b : Q) (l : list Q) :
  (forall q, In q l -> (a <= q)%Q /\ (q <= b)%Q) ->
  (a * inject_Z (len l) <= Qsum l)%Q /\ (Qsum l <= b * inject_Z (len l))%Q.
Proof.
  induction l as [|x l IH]; intros H.
  - change (inject_Z (len [])) with 0%Q. simpl. split; lra.
  - destruct (H x (or_introl eq_refl)) as [Hx1 Hx2].
    destruct IH as [I1 I2]; [intros q Hq; apply H; simpl; auto|].
    assert (E : (inject_Z (len (x :: l)) == 1 + inject_Z (len l))%Q).
    { unfold len. simpl List.length. rewrite Nat2Z.inj_succ.
      unfold Z.succ. rewrite inject_Z_plus. change (inject_Z 1) with 1%Q.
      ring. }
    rewrite E. simpl Qsum.
    set (n := inject_Z (len l)) in *. clearbody n. split; lra.
Qed.

Lemma mean_bounds (a b : Q) (l : list Q) :
  l <> [] ->
  (forall q, In q l -> (a <= q)%Q /\ (q <= b)%Q) ->
  (a <= Qsum l / inject_Z (len l))%Q /\ (Qsum l / inject_Z (len l) <= b)%Q.
Proof.
  intros Hne H. destruct (Qsum_bounds a b l H) as [H1 H2].
  assert (Hn : (0 < inject_Z (len l))%Q).
  { change 0%Q with (inject_Z 0). rewrite <- Zlt_Qlt.
    destruct l; [congruence | apply len_nonempty]. }
  split.
  - now apply Qle_shift_div_l.
  - now apply Qle_shift_div_r.
Qed.

Lemma rating_entry (c : Column (option Q)) (key : string) (t : DataFrame) :
  In (c, key) rating_kpis ->
  dict_get key (kpis_Globlal t) = Some (Float (rating_value c t))
  /\ dict_get key (kpis_test_version t) = Some (Float (rating_value c t)).
Proof.
  unfold rating_kpis. simpl.
  intros H.
  repeat (destruct H as [[= <- <-]|H]; [split; reflexivity|]).
  contradiction.
Qed.

(** X6.  When every rating present in a rating column lies between 1 and
    5 and at least one is present, the rating KPI lies between 1 and 5. *)
Theorem rating_kpi_within_scale (s : store) (df : ref) (t : DataFrame)
    (c : Column (option Q)) (key : string) :
  nth_error s df = Some t ->
  well_formed t = true ->
  In (c, key) rating_kpis ->
  has_column (label c) t = true ->
  (forall q, In (Some q) (map (cell c) (rows t)) ->
             (1 <= q)%Q /\ (q <= 5)%Q) ->
  (exists q, In (Some q) (map (cell c) (rows t))) ->
  exists k v,
    fst (Globlal_Dashboard.calculate_kpis df s) = Ok k /\
    dict_get key k = Some (Float (Fin v)) /\
    (1 <= v)%Q /\ (v <= 5)%Q.
Proof.
  intros live wf Hin Hcol Hrange (q0 & Hq0).
  rewrite (calculate_kpis_Globlal_run s df t live wf).
  destruct (dropna (map (cell c) (rows t))) as [|x l] eqn:E.
  { apply dropna_In in Hq0. rewrite E in Hq0. contradiction. }
  destruct (rating_value_rounded c t x l Hcol E) as (v & Hv & Hround).
  exists (kpis_Globlal t), v. cbn [fst]. split; [reflexivity|].
  split; [rewrite <- Hv; apply (rating_entry c key t Hin)|].
  apply (np_rounded_between 1 5) in Hround;
    [exact Hround | reflexivity | reflexivity | reflexivity | reflexivity
     | |].
  - apply (mean_bounds 1 5 (x :: l)); [discriminate|].
    intros q Hq. apply Hrange. apply dropna_In. now rewrite E.
  - apply (mean_bounds 1 5 (x :: l)); [discriminate|].
    intros q Hq. apply Hrange. apply dropna_In. now rewrite E.
Qed.

Lemma rating_kpi_within_scale_witness :
  exists k v,
    fst (Globlal_Dashboard.calculate_kpis 0%nat [reviewed_scenario]) = Ok k /\
    dict_get "Average Rating" k = Some (Float (Fin v)) /\
    (1 <= v)%Q /\ (v <= 5)%Q.
Proof.
  apply (rating_kpi_within_scale [reviewed_scenario] 0%nat reviewed_scenario
           c_rating "Average Rating" eq_refl eq_refl).
  - simpl; auto.
  - reflexivity.
  - intros q Hq. cbn in Hq.
    destruct Hq as [[= <-]|[Hq|[[= <-]|[]]]];
      [|discriminate|]; split; unfold Qle; simpl; lia.
  - exists 5%Q. cbn. auto.
Defined.

(** ** Lead time *)

(** The rounded mean of an int64 column that is not empty. *)
Lemma round2_mean_int (l : list Z) :
  l <> [] ->
  exists q,
    round2 (mean_int l) = Fin q /\
    np_rounded_to_2_decimals (inject_Z (Zsum l) / inject_Z (len l)) q /\
    (Qabs (q - inject_Z (Zsum l) / inject_Z (len l))
     <= (1 # 200) + Qabs (inject_Z (Zsum l) / inject_Z (len l)) / 2 ^ 51)%Q.
Proof.
  intros Hl. unfold mean_int. destruct l as [|x l]; [congruence|].
  destruct (round2_value
              (Qred (inject_Z (Zsum (x :: l)) / inject_Z (len (x :: l)))))
    as (q & Hq & Hr).
  exists q. split; [exact Hq|].
  assert (Hr' : np_rounded_to_2_decimals
                  (inject_Z (Zsum (x :: l)) / inject_Z (len (x :: l))) q)
    by (eapply np_rounded_proper; [apply Qred_correct | exact Hr]).
  split; [exact Hr' | now apply np_rounded_close].
Qed.

(** X7.  [calculate_kpis] of [Globlal_Dashboard.py] leaves in the table a
    [lead_time] column holding, for each row, the whole days from booking
    to check-in, and a [booking_date] column of Timestamps; on a table
    with rows the lead-time KPI is the mean of those day counts rounded
    by numpy to two decimals, a number within half a hundredth of the
    mean up to float64 rounding. *)
Theorem lead_time_column_and_kpi (s : store) (df : ref) (t : DataFrame) :
  nth_error s df = Some t ->
  well_formed t = true ->
  exists k t',
    Globlal_Dashboard.calculate_kpis df s = (Ok k, update s df t') /\
    has_column "lead_time" t' = true /\
    map lead_time (rows t')
    = map (fun r => Days (day_of (checkin_date r) - day_of (booking_date r)))
          (rows t) /\
    Forall (fun r => is_timestamp (booking_date r) = true) (rows t') /\
    (rows t <> [] ->
     let mean :=
       (inject_Z (Zsum (map lead_days (rows t)))
        / inject_Z (len (rows t)))%Q in
     exists q,
       dict_get "Average Lead Time (days)" k
       = Some (FString "" Plain (Fin q) "") /\
       np_rounded_to_2_decimals mean q /\
       (Qabs (q - mean) <= (1 # 200) + Qabs mean / 2 ^ 51)%Q).
Proof.
  intros live wf.
  exists (kpis_Globlal t), (after_kpis_Globlal t).
  split; [apply (calculate_kpis_Globlal_run s df t live wf)|].
  split; [now rewrite has_column_lead_time, orb_true_r|].
  split; [cbn [rows after_kpis_Globlal]; now rewrite map_map|].
  split.
  - cbn [rows after_kpis_Globlal]. apply Forall_forall. intros r Hr.
    apply in_map_iff in Hr. destruct Hr as (x & <- & _). reflexivity.
  - intros Hrows. cbv zeta.
    destruct (round2_mean_int (map lead_days (rows t))) as (q & Hq & Hr).
    { destruct (rows t); [congruence | discriminate]. }
    rewrite len_map in Hr. exists q. split; [|exact Hr].
    unfold kpis_Globlal. cbn [dict_get String.eqb Ascii.eqb Bool.eqb].
    unfold lead_time_kpi. rewrite Hq. reflexivity.
Qed.

Lemma lead_time_column_and_kpi_witness :
  exists k t',
    Globlal_Dashboard.calculate_kpis 0%nat [scenario]
    = (Ok k, update [scenario] 0%nat t') /\
    map lead_time (rows t') = [Days 7; Days 9; Days 10].
Proof.
  destruct (lead_time_column_and_kpi [scenario] 0%nat scenario
              eq_refl eq_refl) as (k & t' & H1 & _ & H3 & _).
  exists k, t'. split; [exact H1|]. rewrite H3. reflexivity.
Defined.

(** ** RevPAR and occupancy *)




Lemma num_properties_positive (t : DataFrame) :
  rows t <> [] -> 1 <= num_properties t.
Proof.
  unfold num_properties. destruct (rows t) as [|r l]; [congruence|].
  intros _. simpl. unfold len. simpl. lia.
Qed.

(** A ratio times 100 in float64, rounded by numpy to two decimals, is
    within half a hundredth of the exact percentage, up to float64
    rounding. *)
Lemma np_percent_close (x q : Q) :
  np_rounded_to_2_decimals (b64 x * 100) q ->
  (Qabs (q - x * 100) <= (1 # 200) + Qabs (x * 100) / 2 ^ 49)%Q.
Proof.
  intros Hq.
  pose proof (np_rounded_close _ _ Hq) as C.
  pose proof (b64_near x) as N. pose proof (b64_abs_le x) as A.
  pose proof (Qabs_nonneg x) as Hx.
  assert (T : (Qabs (q - x * 100)
               <= Qabs (q - b64 x * 100) + Qabs (b64 x - x) * 100)%Q).
  { setoid_replace (q - x * 100)%Q
      with ((q - b64 x * 100) + (b64 x - x) * 100)%Q by ring.
    eapply Qle_trans; [apply Qabs_triangle|].
    rewrite (Qabs_Qmult (b64 x - x)). change (Qabs 100) with 100%Q. lra. }
  rewrite Qabs_Qmult in C. rewrite Qabs_Qmult.
  change (Qabs 100) with 100%Q in *.
  assert (E1 : (Qabs (b64 x) * 100 / 2 ^ 51
                == 400 * (Qabs (b64 x) / 2 ^ 53))%Q) by (field; discriminate).
  assert (E2 : (Qabs x * 100 / 2 ^ 49 == 1600 * (Qabs x / 2 ^ 53))%Q)
    by (field; discriminate).
  assert (A' : (Qabs (b64 x) / 2 ^ 53 <= 2 * (Qabs x / 2 ^ 53))%Q).
  { unfold Qdiv. rewrite Qmult_assoc.
    apply Qmult_le_compat_r; [exact A | discriminate]. }
  rewrite E1 in C. rewrite E2.
  set (u := (Qabs x / 2 ^ 53)%Q) in *.
  assert (0 <= u)%Q.
  { unfold u. apply Qle_shift_div_l; [reflexivity|].
    now rewrite Qmult_0_l. }
  lra.
Qed.

(** X9.  When the table has rows and no row checks out before it checks
    in, the available nights are at least 1, so the occupancy rate is a
    finite number: total nights over the available nights, times 100 in
    float64, rounded by numpy to two decimals.  It is within half a
    hundredth of the exact percentage up to float64 rounding, and not
    negative when total nights is not. *)
Theorem occupancy_of_valid_stays (s : store) (df : ref) (t : DataFrame) :
  nth_error s df = Some t ->
  well_formed t = true ->
  rows t <> [] ->
  (forall r, In r (rows t) ->
             day_of (checkin_date r) <= day_of (checkout_date r)) ->
  exists k hi lo q,
    fst (Globlal_Dashboard.calculate_kpis df s) = Ok k /\
    date_max (map (fun r => day_of (checkout_date r)) (rows t)) = Some hi /\
    date_min (map (fun r => day_of (checkin_date r)) (rows t)) = Some lo /\
    dict_get "Occupancy Rate (%)" k = Some (FString "" Plain (Fin q) "%") /\
    1 <= (hi - lo + 1) * num_properties t /\
    (let share :=
       (inject_Z (total_nights t)
        / inject_Z ((hi - lo + 1) * num_properties t))%Q in
     np_rounded_to_2_decimals (b64 share * 100) q /\
     (Qabs (q - share * 100)
      <= (1 # 200) + Qabs (share * 100) / 2 ^ 49)%Q) /\
    (0 <= total_nights t -> (0 <= q)%Q).
Proof.
  intros live wf Hrows Hvalid.
  rewrite (calculate_kpis_Globlal_run s df t live wf).
  destruct (occupancy_rate_formula t Hrows)
    as (hi & lo & Hhi & Hlo & _ & Hocc & _).
  cbv zeta in Hocc.
  assert (Hspan : lo <= hi).
  { destruct (rows t) as [|r l] eqn:E; [congruence|].
    destruct (date_max_spec _ _ Hhi) as [_ Hmax].
    destruct (date_min_spec _ _ Hlo) as [_ Hmin].
    assert (H1 : day_of (checkout_date r) <= hi)
      by (apply Hmax; simpl; auto).
    assert (H2 : lo <= day_of (checkin_date r))
      by (apply Hmin; simpl; auto).
    assert (H3 := Hvalid r (or_introl eq_refl)). lia. }
  pose proof (num_properties_positive t Hrows) as Hnp.
  assert (Hav : 1 <= (hi - lo + 1) * num_properties t) by nia.
  destruct (Hocc ltac:(lia)) as (q & Hq & Hr).
  exists (kpis_Globlal t), hi, lo, q. cbn [fst].
  split; [reflexivity|]. split; [exact Hhi|]. split; [exact Hlo|].
  split; [rewrite <- Hq; reflexivity|].
  split; [exact Hav|]. cbv zeta.
  split; [split; [exact Hr | now apply np_percent_close]|].
  intros Hn. eapply np_rounded_nonneg; [|exact Hr].
  apply Qmult_le_0_compat; [|discriminate].
  apply b64_nonneg.
  apply Qle_shift_div_l;
    [change 0%Q with (inject_Z 0); rewrite <- Zlt_Qlt; lia|].
  rewrite Qmult_0_l. change 0%Q with (inject_Z 0).
  rewrite <- Zle_Qle. lia.
Qed.

Lemma occupancy_of_valid_stays_witness :
  exists k,
    fst (Globlal_Dashboard.calculate_kpis 0%nat [scenario]) = Ok k /\
    dict_get "Occupancy Rate (%)" k
    = Some (FString "" Plain (Fin (2059 # 100)) "%").
Proof.
  assert (Hvalid : forall r, In r (rows scenario) ->
                     day_of (checkin_date r) <= day_of (checkout_date r)).
  { intros r Hr. cbn in Hr.
    repeat (destruct Hr as [<-|Hr]; [cbn; lia|]). contradiction. }
  destruct (occupancy_of_valid_stays [scenario] 0%nat scenario eq_refl
              eq_refl ltac:(discriminate) Hvalid)
    as (k & hi & lo & q & Hk & _ & _ & Hq & _).
  exists k. split; [exact Hk|]. rewrite Hq.
  vm_compute in Hk. injection Hk as <-. vm_compute in Hq.
  injection Hq as <-. reflexivity.
Defined.

(** ** Grouped sums: entries and totals *)

Lemma Qsum_app (a b : list Q) : (Qsum (a ++ b) == Qsum a + Qsum b)%Q.
Proof.
  induction a as [|x a IH]; simpl; [ring|]. rewrite IH. ring.
Qed.

Section GroupMass.
Context {K : Type}.
Variables (keq klt : K -> K -> bool) (sel : K -> bool).
Hypothesis keq_eq : forall a b, keq a b = true <-> a = b.




End GroupMass.



Lemma revenue_series_run (s : store) (df : ref) (t : DataFrame) :
  nth_error s df = Some t ->
  well_formed t = true ->
  let series :=
    aggregate sum_float
      (groupby String.eqb String.ltb
               (combine (map platform (rows t)) (map revenue (rows t)))) in
  fst (Globlal_Dashboard.plot_revenue_per_platform df s) = Ok series /\
  fst (Globlal_Dashboard.plot_revenue_percentage_per_platform df s)
  = Ok series /\
  fst (test_version.plot_revenue_percentage_per_platform df s) = Ok series.
Proof.
  intros live wf.
  assert (Hp : has_column "platform" t = true) by base_column wf.
  assert (Hr : has_column "revenue" t = true) by base_column wf.
  cbv zeta.
  unfold Globlal_Dashboard.plot_revenue_per_platform,
    Globlal_Dashboard.plot_revenue_percentage_per_platform,
    test_version.plot_revenue_percentage_per_platform.
  rewrite !(bind_getitem_live s df t) by assumption.
  repeat split; reflexivity.
Qed.

(** X10.  The revenue-per-platform series, the same in the bar chart and
    in the two pie charts, lists the platforms in increasing order; a
    platform has an entry exactly when some row has it, and the entry is
    the sum of the revenue of the rows of that platform, cancelled rows
    included. *)
Theorem revenue_per_platform_series (s : store) (df : ref) (t : DataFrame) :
  nth_error s df = Some t ->
  well_formed t = true ->
  exists series,
    fst (Globlal_Dashboard.plot_revenue_per_platform df s) = Ok series /\
    fst (Globlal_Dashboard.plot_revenue_percentage_per_platform df s)
    = Ok series /\
    fst (test_version.plot_revenue_percentage_per_platform df s)
    = Ok series /\
    StronglySorted (fun a b => (a <? b)%string = true) (map fst series) /\
    forall p,
      series_get p series
      = match map revenue
                  (filter (fun r => (platform r =? p)%string) (rows t)) with
        | [] => None
        | vs => Some (Fin (Qred (Qsum vs)))
        end.
Proof.
  intros live wf.
  destruct (revenue_series_run s df t live wf) as (H1 & H2 & H3).
  eexists. split; [exact H1|]. split; [exact H2|]. split; [exact H3|].
  apply (groupby_series platform revenue sum_float (rows t)).
Qed.

Lemma revenue_per_platform_series_witness :
  exists series,
    fst (Globlal_Dashboard.plot_revenue_per_platform 0%nat [scenario])
    = Ok series /\
    series_get "airbnb" series = Some (Fin 300) /\
    series_get "booking.com" series = None.
Proof.
  destruct (revenue_per_platform_series [scenario] 0%nat scenario
              eq_refl eq_refl) as (series & H1 & _ & _ & _ & Hget).
  exists series. split; [exact H1|]. rewrite !Hget. split; reflexivity.
Defined.

(** *** Whole amounts *)





(** Amounts with cents are another matter: 0.1 + 0.2 + 0.3 added up cell
    after cell is not the float64 that 0.1 + (0.2 + 0.3) is, so a total
    and the sum of its group totals can differ in the last bit. *)
Example float_sums_depend_on_grouping :
  ~ (float_accumulate [1 # 10; 1 # 5; 3 # 10]
     == float_accumulate [1 # 10; float_accumulate [1 # 5; 3 # 10]])%Q.
Proof.
  vm_compute. discriminate.
Qed.




(** ** The stacked chart of [Globlal_Dashboard.py] *)





Lemma assoc_get_aggregate {K V R : Type} (keq : K -> K -> bool)
    (f : list V -> R) (k : K) (g : list (K * list V)) :
  assoc_get keq k (aggregate f g) = option_map f (group_get keq k g).
Proof.
  induction g as [|[k' vs] g IH]; simpl; [reflexivity|].
  destruct (keq k k'); [reflexivity | exact IH].
Qed.

Lemma assoc_get_map {K V W : Type} (keq : K -> K -> bool) (h : V -> W)
    (k : K) (l : list (K * V)) :
  assoc_get keq k (map (fun p => (fst p, h (snd p))) l)
  = option_map h (assoc_get keq k l).
Proof.
  induction l as [|[k' v] l IH]; simpl; [reflexivity|].
  destruct (keq k k'); [reflexivity | exact IH].
Qed.

Lemma values_of_rows {K V : Type} (keq : K -> K -> bool)
    (key : Booking -> K) (val : Booking -> V) (k : K) (l : list Booking) :
  values_of keq k (combine (map key l) (map val l))
  = map val (filter (fun r => keq (key r) k) l).
Proof.
  unfold values_of. induction l as [|r l IH]; simpl; [reflexivity|].
  destruct (keq (key r) k); simpl; congruence.
Qed.

Lemma combine_map {A B C : Type} (f : A -> B) (g : A -> C) (l : list A) :
  combine (map f l) (map g l) = map (fun x => (f x, g x)) l.
Proof.
  induction l as [|x l IH]; simpl; congruence.
Qed.







(** ** The left join of [load_data] *)

Lemma filter_none {A : Type} (f : A -> bool) (l : list A) :
  (forall x, In x l -> f x = false) -> filter f l = [].
Proof.
  induction l as [|x l IH]; intros H; simpl; [reflexivity|].
  rewrite (H x) by (simpl; auto). apply IH.
  intros y Hy. apply H. simpl; auto.
Qed.

Lemma flat_map_step {A B : Type} (f : A -> list B) (x : A) (l : list A) :
  flat_map f (x :: l) = f x ++ flat_map f l.
Proof.
  reflexivity.
Qed.

Lemma matching_unique (c : string) (reviews : list Review) :
  NoDup (map rv_code reviews) ->
  filter (fun r => (rv_code r =? c)%string) reviews
  = match find (fun r => (rv_code r =? c)%string) reviews with
    | Some r => [r]
    | None => []
    end.
Proof.
  induction reviews as [|x l IH]; intros Hnd; simpl; [reflexivity|].
  inversion Hnd as [|? ? Hx Hl]; subst.
  destruct (String.eqb_spec (rv_code x) c) as [E|N].
  - f_equal. apply filter_none.
    intros r Hr. apply String.eqb_neq. intros Hc. apply Hx.
    rewrite E, <- Hc. now apply in_map.
  - now apply IH.
Qed.

Lemma merge_left_unique (bookings : list CsvBooking)
    (reviews : list Review) :
  NoDup (map rv_code reviews) ->
  merge_left bookings reviews
  = map (fun b =>
           joined b (find (fun r => (rv_code r =? csv_code b)%string)
                          reviews))
        bookings.
Proof.
  intros Hnd. unfold merge_left.
  induction bookings as [|b l IH]; [reflexivity|].
  rewrite flat_map_step, IH, (matching_unique (csv_code b) reviews Hnd).
  change (map ?f (b :: l)) with (f b :: map f l). cbv beta.
  destruct (find (fun r => (rv_code r =? csv_code b)%string) reviews);
    reflexivity.
Qed.

(** X13.  When no two reviews share a code, the loaded table has exactly
    one row per booking, in file order, with the booking's own fields and
    the ratings of its review, or null ratings when it has none. *)
Theorem load_data_one_row_per_booking (bookings : list CsvBooking)
    (reviews : list Review) (s : store) :
  NoDup (map rv_code reviews) ->
  exists t,
    Globlal_Dashboard.load_data bookings reviews s
    = (Ok (List.length s), s ++ [t]) /\
    map code (rows t) = map csv_code bookings /\
    map nights (rows t) = map csv_nights bookings /\
    map revenue (rows t) = map csv_revenue bookings /\
    map rating (rows t)
    = map (fun b =>
             match find (fun r => (rv_code r =? csv_code b)%string)
                        reviews with
             | Some r => rv_rating r
             | None => None
             end)
          bookings /\
    exists t',
      test_version.load_data bookings reviews s
      = (Ok (List.length s), s ++ [t']) /\
      map code (rows t') = map csv_code bookings.
Proof.
  intros Hnd. exists (loaded_Globlal bookings reviews).
  split; [apply load_data_Globlal_run|].
  cbn [rows loaded_Globlal].
  rewrite (merge_left_unique bookings reviews Hnd), !map_map.
  cbn [code nights revenue rating with_nightly_rate set_nightly_rate
       with_month set_month parse_stay set_checkin_date set_checkout_date
       joined].
  repeat split.
  exists (loaded_test_version bookings reviews).
  split; [apply load_data_test_version_run|].
  cbn [rows loaded_test_version].
  rewrite (merge_left_unique bookings reviews Hnd), !map_map.
  reflexivity.
Qed.

Lemma load_data_one_row_per_booking_witness :
  exists t,
    Globlal_Dashboard.load_data scenario_csv
      [review "c1" (Some 5%Q) (Some 4%Q); review "c3" (Some 4%Q) None] []
    = (Ok 0%nat, [t]) /\
    map code (rows t) = ["c1"; "c2"; "c3"] /\
    map rating (rows t) = [Some 5%Q; None; Some 4%Q].
Proof.
  destruct (load_data_one_row_per_booking scenario_csv
              [review "c1" (Some 5%Q) (Some 4%Q);
               review "c3" (Some 4%Q) None] [])
    as (t & H1 & H2 & _ & _ & H5 & _).
  - repeat constructor; simpl; intuition discriminate.
  - exists t. split; [exact H1|]. split; [exact H2|]. rewrite H5.
    reflexivity.
Defined.

Lemma merge_left_length (bookings : list CsvBooking)
    (reviews : list Review) :
  List.length (merge_left bookings reviews)
  = list_sum (map (fun b => copies b reviews) bookings).
Proof.
  unfold merge_left. induction bookings as [|b l IH]; [reflexivity|].
  rewrite flat_map_step, length_app, IH.
  change (map (fun b0 => copies b0 reviews) (b :: l))
    with (copies b reviews :: map (fun b0 => copies b0 reviews) l).
  change (list_sum (copies b reviews :: ?x))
    with (copies b reviews + list_sum x)%nat.
  f_equal. unfold copies, matching.
  destruct (filter _ reviews) as [|m ms]; [reflexivity|].
  rewrite length_map. simpl. lia.
Qed.

Lemma Qsum_repeat (q : Q) (n : nat) :
  (Qsum (repeat q n) == inject_Z (Z.of_nat n) * q)%Q.
Proof.
  induction n as [|n IH].
  - simpl. ring.
  - rewrite Nat2Z.inj_succ. unfold Z.succ. rewrite inject_Z_plus.
    simpl Qsum. rewrite IH. change (inject_Z 1) with 1%Q. ring.
Qed.

Lemma merge_left_revenue (bookings : list CsvBooking)
    (reviews : list Review) :
  (Qsum (map revenue (merge_left bookings reviews))
   == Qsum (map (fun b => inject_Z (Z.of_nat (copies b reviews))
                          * csv_revenue b) bookings))%Q.
Proof.
  unfold merge_left. induction bookings as [|b l IH]; [reflexivity|].
  rewrite flat_map_step, map_app, Qsum_app, IH.
  change (Qsum (map ?f (b :: l))) with (f b + Qsum (map f l))%Q.
  apply Qplus_comp; [|reflexivity].
  unfold copies, matching.
  destruct (filter _ reviews) as [|m ms].
  - simpl. ring.
  - rewrite map_map. cbn [revenue joined].
    replace (Nat.max 1 (List.length (m :: ms)))
      with (List.length (m :: ms)) by (simpl; lia).
    rewrite <- Qsum_repeat. clear.
    generalize (m :: ms). intros l.
    induction l as [|x l IH]; simpl; [reflexivity|]. now rewrite IH.
Qed.

(** X14.  The left join makes one row of a booking without reviews and
    one row per review of a booking with reviews: the loaded table has
    that many rows, and its total revenue counts the revenue of a booking
    once per copy. *)
Theorem load_data_row_count (bookings : list CsvBooking)
    (reviews : list Review) (s : store) :
  exists t,
    Globlal_Dashboard.load_data bookings reviews s
    = (Ok (List.length s), s ++ [t]) /\
    List.length (rows t)
    = list_sum (map (fun b => copies b reviews) bookings) /\
    (List.length bookings <= List.length (rows t))%nat /\
    (total_revenue t
     == Qsum (map (fun b => inject_Z (Z.of_nat (copies b reviews))
                            * csv_revenue b) bookings))%Q.
Proof.
  exists (loaded_Globlal bookings reviews).
  split; [apply load_data_Globlal_run|].
  unfold total_revenue. cbn [rows loaded_Globlal].
  rewrite length_map, map_map. cbn [revenue with_nightly_rate
    set_nightly_rate with_month set_month parse_stay set_checkin_date
    set_checkout_date].
  split; [apply merge_left_length|]. split.
  - rewrite merge_left_length. clear.
    induction bookings as [|b l IH]; simpl; [lia|].
    unfold copies at 1. lia.
  - apply merge_left_revenue.
Qed.

(** ** The page: load, filter, aggregate *)

Lemma as_loaded_filter (f : Booking -> bool) (t : DataFrame) :
  as_loaded t ->
  as_loaded {| columns := columns t; rows := filter f (rows t) |}.
Proof.
  intros [Hm Hrows]. split; [exact Hm|].
  intros r Hr. cbn [rows] in Hr. apply filter_In in Hr. now apply Hrows.
Qed.

Lemma as_loaded_after_kpis (t : DataFrame) :
  as_loaded t -> as_loaded (after_kpis_test_version t).
Proof.
  intros [Hm Hrows]. split; [exact Hm|].
  intros r Hr. cbn [rows after_kpis_test_version] in Hr.
  apply in_map_iff in Hr. destruct Hr as (x & <- & Hx).
  exact (Hrows x Hx).
Qed.

Lemma as_loaded_test_version (bookings : list CsvBooking)
    (reviews : list Review) :
  as_loaded (loaded_test_version bookings reviews).
Proof.
  split; [reflexivity|].
  intros r Hr. cbn [rows loaded_test_version] in Hr.
  apply in_map_iff in Hr. destruct Hr as (x & <- & _).
  repeat split.
Qed.

Lemma as_loaded_Globlal (bookings : list CsvBooking)
    (reviews : list Review) :
  as_loaded (loaded_Globlal bookings reviews).
Proof.
  split; [reflexivity|].
  intros r Hr. cbn [rows loaded_Globlal] in Hr.
  apply in_map_iff in Hr. destruct Hr as (x & <- & _).
  repeat split.
Qed.

(** X15.  The table that [main] of [test_version.py] hands to the
    aggregator and the charts, the loaded table filtered by the
    selection, has all the columns they read, Timestamps in its check-in
    and check-out columns and the month of each check-in in its month
    column; it keeps these properties after [calculate_kpis], and the
    base table is still in the store as it was loaded. *)
Theorem filtered_table_is_as_loaded (bookings : list CsvBooking)
    (reviews : list Review) (d0 d1 : Z) (P Q : list string) (s : store) :
  exists f s' t,
    (df <- test_version.load_data bookings reviews ;;
     filter_selection df [d0; d1] P Q) s = (Ok f, s') /\
    nth_error s' f = Some t /\
    rows t = filter (selected d0 d1 P Q)
                    (rows (loaded_test_version bookings reviews)) /\
    well_formed t = true /\
    as_loaded t /\
    as_loaded (after_kpis_test_version t) /\
    nth_error s' (List.length s)
    = Some (loaded_test_version bookings reviews).
Proof.
  unfold bind at 1. rewrite load_data_test_version_run.
  set (L := loaded_test_version bookings reviews).
  pose proof (nth_error_last s L) as live.
  assert (wf : well_formed L = true) by reflexivity.
  destruct (filter_selection_run (s ++ [L]) (List.length s) L d0 d1 P Q
              live wf) as (f & extra & Hrun & Hf).
  exists f, ((s ++ [L]) ++ extra). eexists.
  split; [exact Hrun|]. split; [exact Hf|].
  split; [reflexivity|]. split; [reflexivity|].
  assert (Ha : as_loaded {| columns := columns L;
                            rows := filter (selected d0 d1 P Q) (rows L) |})
    by (apply as_loaded_filter, as_loaded_test_version).
  split; [exact Ha|]. split; [now apply as_loaded_after_kpis|].
  rewrite nth_error_app1; [exact live|].
  rewrite length_app. simpl. lia.
Qed.

(** X16.  On a table as [load_data] leaves it, also after filtering, the
    three monthly chart functions of [test_version.py] change no table of
    the store: they may only add new tables. *)
Theorem monthly_charts_keep_loaded_tables (s : store) (df : ref)
    (t : DataFrame) :
  nth_error s df = Some t ->
  well_formed t = true ->
  as_loaded t ->
  (exists extra,
     snd (test_version.plot_monthly_revenue_line df s) = s ++ extra) /\
  (exists extra,
     snd (test_version.plot_monthly_occupancy_rate df s) = s ++ extra) /\
  (exists extra,
     snd (test_version.plot_monthly_adr_line df s) = s ++ extra).
Proof.
  intros live wf Ha.
  pose proof (month_derived_loaded t Ha) as Hsame.
  pose proof (update_same s df t live) as Hs.
  assert (Hkeep : forall (A : Type) (rest : M A),
             reads_only rest ->
             exists extra,
               snd (bind (test_version.derive_month df) (fun _ => rest) s)
               = s ++ extra).
  { intros A rest Hrest.
    destruct (monthly_chart_run rest s df t live wf Hrest) as [extra H].
    exists extra. rewrite Hsame, Hs in H. exact H. }
  repeat split.
  - unfold test_version.plot_monthly_revenue_line. apply Hkeep. reads.
  - unfold test_version.plot_monthly_occupancy_rate. apply Hkeep. reads.
  - unfold test_version.plot_monthly_adr_line. apply Hkeep. reads.
Qed.

Lemma as_loaded_scenario : as_loaded scenario.
Proof.
  apply (as_loaded_Globlal scenario_csv []).
Qed.

Lemma monthly_charts_keep_loaded_tables_witness :
  exists extra,
    snd (test_version.plot_monthly_occupancy_rate 0%nat [scenario])
    = [scenario] ++ extra.
Proof.
  destruct (monthly_charts_keep_loaded_tables [scenario] 0%nat scenario
              eq_refl eq_refl as_loaded_scenario) as (_ & H & _).
  exact H.
Defined.

Lemma merge_left_nonempty (bookings : list CsvBooking)
    (reviews : list Review) :
  bookings <> [] -> merge_left bookings reviews <> [].
Proof.
  intros H Hm. apply (f_equal (@List.length Booking)) in Hm.
  rewrite merge_left_length in Hm.
  destruct bookings as [|b l]; [congruence|].
  simpl in Hm. unfold copies in Hm at 1. lia.
Qed.

Lemma bind_empty_live {B : Type} (s : store) (df : ref) (t : DataFrame)
    (k : bool -> M B) :
  nth_error s df = Some t ->
  bind (empty df) k s
  = k (match rows t, columns t with
       | [], _ | _, [] => true
       | _, _ => false
       end) s.
Proof.
  intros live. unfold empty, bind, read. rewrite live. reflexivity.
Qed.

(** X17.  When the bookings file has rows but the selection keeps none
    of them, [main] of [test_version.py] fails with ZeroDivisionError:
    the aggregator divides by the row count of the filtered table. *)
Theorem main_fails_on_empty_selection (bookings : list CsvBooking)
    (reviews : list Review) (d0 d1 : Z) (P Q : list string) (s : store) :
  bookings <> [] ->
  filter (selected d0 d1 P Q) (rows (loaded_test_version bookings reviews))
  = [] ->
  fst (test_version.main bookings reviews [d0; d1] P Q s)
  = Raise ZeroDivisionError.
Proof.
  intros Hb Hsel. unfold test_version.main.
  unfold bind at 1. rewrite load_data_test_version_run.
  set (L := loaded_test_version bookings reviews) in *.
  pose proof (nth_error_last s L) as live.
  assert (wf : well_formed L = true) by reflexivity.
  rewrite (bind_empty_live _ _ L) by exact live.
  assert (Hrows : rows L <> []).
  { unfold L. cbn [rows loaded_test_version]. intros H.
    apply map_eq_nil in H. now apply (merge_left_nonempty bookings reviews). }
  assert (Hemp : match rows L, columns L with
                 | [], _ | _, [] => true
                 | _, _ => false
                 end = false)
    by (destruct (rows L); [congruence | reflexivity]).
  rewrite Hemp. cbn [negb].
  destruct (filter_selection_run (s ++ [L]) (List.length s) L d0 d1 P Q
              live wf) as (f & extra & Hrun & Hf).
  unfold bind at 1. rewrite Hrun.
  unfold bind at 1.
  rewrite (calculate_kpis_test_version_run _ f _ Hf) by reflexivity.
  cbn [rows]. rewrite Hsel. reflexivity.
Qed.

Lemma main_fails_on_empty_selection_witness :
  fst (test_version.main scenario_csv [] [19737; 19760] ["vrbo"] ["A"] [])
  = Raise ZeroDivisionError.
Proof.
  apply main_fails_on_empty_selection; [discriminate | reflexivity].
Defined.

(** X18.  With an empty bookings file [main] shows "No data loaded." in
    both programs whatever the widgets return: neither the filter block
    nor the aggregator runs, so nothing is raised even for fewer than two
    dates. *)
Theorem main_without_bookings (reviews : list Review) (dates : list Z)
    (P Q : list string) (s : store) :
  fst (Globlal_Dashboard.main [] reviews dates P Q s) = Ok None /\
  fst (test_version.main [] reviews dates P Q s) = Ok None.
Proof.
  unfold Globlal_Dashboard.main, test_version.main.
  unfold bind at 1.
  rewrite load_data_Globlal_run.
  rewrite (bind_empty_live _ _ _ _ (nth_error_last s _)).
  split; [reflexivity|].
  unfold bind at 1.
  rewrite load_data_test_version_run.
  rewrite (bind_empty_live _ _ _ _ (nth_error_last s _)).
  reflexivity.
Qed.

(** ** The monthly charts of [test_version.py] *)

Lemma pair_eqb_eq (a b : Z * string) : pair_eqb a b = true <-> a = b.
Proof.
  destruct a as [a1 a2], b as [b1 b2]. unfold pair_eqb. cbn [fst snd].
  rewrite andb_true_iff, Z.eqb_eq, String.eqb_eq. split.
  - intros [-> ->]. reflexivity.
  - intros [= -> ->]. auto.
Qed.

Lemma pair_ltb_irrefl (a : Z * string) : pair_ltb a a = false.
Proof.
  unfold pair_ltb.
  now rewrite Z.ltb_irrefl, string_ltb_irrefl, andb_false_r.
Qed.

Lemma pair_ltb_trans (a b c : Z * string) :
  pair_ltb a b = true -> pair_ltb b c = true -> pair_ltb a c = true.
Proof.
  destruct a as [a1 a2], b as [b1 b2], c as [c1 c2].
  unfold pair_ltb. cbn [fst snd].
  rewrite !orb_true_iff, !andb_true_iff, !Z.ltb_lt, !Z.eqb_eq.
  intros [H1|[H1 H1']] [H2|[H2 H2']].
  - left. lia.
  - left. lia.
  - left. lia.
  - right. split; [lia|]. eauto using string_ltb_trans.
Qed.

Lemma pair_ltb_total (a b : Z * string) :
  pair_eqb a b = false -> pair_ltb a b = false -> pair_ltb b a = true.
Proof.
  destruct a as [a1 a2], b as [b1 b2].
  unfold pair_eqb, pair_ltb. cbn [fst snd].
  rewrite orb_false_iff, orb_true_iff.
  intros He [Hl1 Hl2]. apply Z.ltb_ge in Hl1.
  destruct (Z.eqb_spec a1 b1) as [->|N].
  - rewrite Z.eqb_refl. simpl in *. right. now apply string_ltb_total.
  - left. apply Z.ltb_lt. lia.
Qed.

(** The series of a grouping of the rows by [month_key]. *)
Lemma monthly_groupby_series {V R : Type} (val : Booking -> V)
    (f : list V -> R) (l : list Booking) (k : Z * string) :
  assoc_get pair_eqb k
    (aggregate f (groupby pair_eqb pair_ltb
                          (combine (map month_key l) (map val l))))
  = match map val (filter (fun r => pair_eqb (month_key r) k) l) with
    | [] => None
    | vs => Some (f vs)
    end.
Proof.
  destruct (groupby_spec pair_eqb pair_ltb pair_eqb_eq pair_ltb_irrefl
              pair_ltb_trans pair_ltb_total
              (combine (map month_key l) (map val l))) as [_ Hget].
  rewrite assoc_get_aggregate, Hget, values_of_rows.
  destruct (map val (filter _ l)); reflexivity.
Qed.

Lemma has_column_month_derived (c : string) (t : DataFrame) :
  has_column c t = true -> has_column c (month_derived t) = true.
Proof.
  intros H. unfold has_column at 1. cbn [columns month_derived].
  destruct (has_column "month" t); [exact H|].
  rewrite has_column_app, H. reflexivity.
Qed.

Lemma has_month_derived (t : DataFrame) :
  has_column "month" (month_derived t) = true.
Proof.
  unfold has_column at 1. cbn [columns month_derived].
  destruct (has_column "month" t) eqn:E; [exact E|].
  rewrite has_column_app. apply orb_true_r.
Qed.

Lemma filter_map_swap {A B : Type} (f : B -> bool) (g : A -> B)
    (l : list A) :
  filter f (map g l) = map g (filter (fun x => f (g x)) l).
Proof.
  induction l as [|x l IH]; simpl; [reflexivity|].
  destruct (f (g x)); simpl; congruence.
Qed.





Lemma plot_monthly_adr_line_run (s : store) (df : ref) (t : DataFrame) :
  nth_error s df = Some t ->
  well_formed t = true ->
  fst (test_version.plot_monthly_adr_line df s)
  = Ok (map (fun p => (fst p, np_truediv (fst (snd p))
                                         (of_int (snd (snd p)))))
            (aggregate
               (fun x => (sum_float (map fst x), sum_int64 (map snd x)))
               (groupby pair_eqb pair_ltb
                  (combine (map month_key (rows t))
                           (map (fun r => (revenue r, nights r))
                                (rows t)))))).
Proof.
  intros live wf.
  assert (Hi : has_column "checkin_date" t = true) by base_column wf.
  assert (Ho : has_column "checkout_date" t = true) by base_column wf.
  assert (Hp : has_column "property_name" t = true) by base_column wf.
  assert (Hr : has_column "revenue" t = true) by base_column wf.
  assert (Hn : has_column "nights" t = true) by base_column wf.
  unfold test_version.plot_monthly_adr_line.
  rewrite <- (update_same s df t live) at 1. unfold bind at 1.
  rewrite (derive_month_run s df t t live Hi Ho).
  rewrite (bind_getitem s df t live) by apply has_month_derived.
  do 3 rewrite (bind_getitem s df t live)
    by (apply has_column_month_derived; assumption).
  cbn [rows month_derived fst ret]. rewrite !map_map.
  cbn [cell c_month c_property_name c_revenue c_nights].
  rewrite !combine_map. reflexivity.
Qed.

Lemma group_adr_values (g : list Booking) :
  np_truediv
    (sum_float (map fst (map (fun r => (revenue r, nights r)) g)))
    (of_int (sum_int64 (map snd (map (fun r => (revenue r, nights r)) g))))
  = group_adr g.
Proof.
  unfold group_adr. now rewrite !map_map.
Qed.

Lemma Qsign_Qred (q : Q) : Qsign (Qred q) = Qsign q.
Proof.
  unfold Qsign. now rewrite Qred_correct.
Qed.

(** X20.  The monthly ADR series has an entry for a month and property
    exactly when some row, cancelled or not, of that property checks in
    during that month; the entry is the revenue of those rows over their
    nights, which is an infinity or NaN, not an error, when their nights
    add up to 0. *)
Theorem monthly_adr_series (s : store) (df : ref) (t : DataFrame) :
  nth_error s df = Some t ->
  well_formed t = true ->
  exists series,
    fst (test_version.plot_monthly_adr_line df s) = Ok series /\
    (forall k,
       assoc_get pair_eqb k series
       = match filter (fun r => pair_eqb (month_key r) k) (rows t) with
         | [] => None
         | g => Some (group_adr g)
         end) /\
    (forall g,
       sum_int64 (map nights g) = 0 ->
       group_adr g = match (Qsum (map revenue g) ?= 0)%Q with
                     | Eq => NaN
                     | Gt => PInf
                     | Lt => NInf
                     end).
Proof.
  intros live wf.
  rewrite (plot_monthly_adr_line_run s df t live wf).
  eexists. split; [reflexivity|]. split.
  - intros k.
    rewrite (assoc_get_map pair_eqb
               (fun v : float64 * Z => np_truediv (fst v) (of_int (snd v)))).
    rewrite (monthly_groupby_series (fun r => (revenue r, nights r))).
    destruct (filter _ (rows t)) as [|r g]; [reflexivity|].
    rewrite <- (group_adr_values (r :: g)). reflexivity.
  - intros g Hz. unfold group_adr, sum_float. rewrite Hz.
    cbn [np_truediv of_int]. rewrite inject_Z_sign, Qsign_Qred.
    reflexivity.
Qed.

Lemma monthly_adr_series_witness :
  exists series,
    fst (test_version.plot_monthly_adr_line 0%nat [scenario]) = Ok series /\
    assoc_get pair_eqb (19723, "A") series = Some (Fin 75).
Proof.
  destruct (monthly_adr_series [scenario] 0%nat scenario eq_refl eq_refl)
    as (series & Hrun & Hget & _).
  exists series. split; [exact Hrun|]. rewrite Hget. reflexivity.
Defined.

Lemma plot_monthly_occupancy_rate_run (s : store) (df : ref)
    (t : DataFrame) :
  nth_error s df = Some t ->
  well_formed t = true ->
  fst (test_version.plot_monthly_occupancy_rate df s)
  = Ok (aggregate
          (fun x : list (Z * (datecell * datecell)) =>
             np_truediv
               (of_int (sum_int64 (map fst x)))
               (np_add
                  (days (timedelta
                           (date_max (map (fun v => day_of (fst (snd v))) x))
                           (date_min (map (fun v => day_of (snd (snd v))) x))))
                  (of_int 1)))
          (groupby pair_eqb pair_ltb
             (combine
                (map month_key
                     (filter (fun r => negb (is_cancelled r)) (rows t)))
                (map (fun r => (nights r,
                                (to_datetime (checkout_date r),
                                 to_datetime (checkin_date r))))
                     (filter (fun r => negb (is_cancelled r)) (rows t)))))).
Proof.
  intros live wf.
  assert (Hi : has_column "checkin_date" t = true) by base_column wf.
  assert (Ho : has_column "checkout_date" t = true) by base_column wf.
  assert (Hp : has_column "property_name" t = true) by base_column wf.
  assert (Hs : has_column "status" t = true) by base_column wf.
  assert (Hn : has_column "nights" t = true) by base_column wf.
  unfold test_version.plot_monthly_occupancy_rate.
  rewrite <- (update_same s df t live) at 1. unfold bind at 1.
  rewrite (derive_month_run s df t t live Hi Ho).
  assert (live' : nth_error (update s df (month_derived t)) df
                  = Some (month_derived t)).
  { apply nth_error_update_eq. eapply nth_error_bound; eauto. }
  set (s' := update s df (month_derived t)) in *.
  rewrite (bind_getitem_live s' df (month_derived t))
    by (try apply has_column_month_derived; assumption).
  rewrite (bind_boolean_index_live s' df (month_derived t)) by assumption.
  rewrite select_map_map.
  set (t1 := {| columns := columns (month_derived t);
                rows := filter _ (rows (month_derived t)) |}).
  pose proof (nth_error_last s' t1) as live1.
  assert (Hc : forall c, has_column c (month_derived t) = true ->
                         has_column c t1 = true) by (intros c H; exact H).
  rewrite (bind_getitem_live _ _ t1 c_month _ live1)
    by (apply Hc, has_month_derived).
  do 4 rewrite (bind_getitem_live _ _ t1 _ _ live1)
    by (apply Hc, has_column_month_derived; assumption).
  subst t1. cbn [rows month_derived fst ret].
  rewrite filter_map_swap, !map_map.
  cbn [cell c_month c_property_name c_nights c_checkout_date c_checkin_date
       c_status].
  rewrite !combine_map. reflexivity.
Qed.

Lemma group_occupancy_values (g : list Booking) :
  (fun x : list (Z * (datecell * datecell)) =>
     np_truediv
       (of_int (sum_int64 (map fst x)))
       (np_add
          (days (timedelta
                   (date_max (map (fun v => day_of (fst (snd v))) x))
                   (date_min (map (fun v => day_of (snd (snd v))) x))))
          (of_int 1)))
    (map (fun r => (nights r,
                    (to_datetime (checkout_date r),
                     to_datetime (checkin_date r)))) g)
  = group_occupancy g.
Proof.
  unfold group_occupancy. cbv beta. now rewrite !map_map.
Qed.

(** In a group of rows none of which checks out before it checks in, the
    days from the first check-in to the last check-out are not
    negative. *)
Lemma group_span (g : list Booking) :
  g <> [] ->
  (forall r, In r g -> day_of (checkin_date r) <= day_of (checkout_date r)) ->
  exists hi lo,
    date_max (map (fun r => day_of (checkout_date r)) g) = Some hi /\
    date_min (map (fun r => day_of (checkin_date r)) g) = Some lo /\
    lo <= hi.
Proof.
  intros Hne Hvalid. destruct g as [|r g]; [congruence|].
  destruct (date_max (map (fun r => day_of (checkout_date r)) (r :: g)))
    as [hi|] eqn:Hhi; [|discriminate].
  destruct (date_min (map (fun r => day_of (checkin_date r)) (r :: g)))
    as [lo|] eqn:Hlo; [|discriminate].
  exists hi, lo. split; [reflexivity|]. split; [reflexivity|].
  destruct (date_max_spec _ _ Hhi) as [_ Hmax].
  destruct (date_min_spec _ _ Hlo) as [_ Hmin].
  assert (H1 : day_of (checkout_date r) <= hi) by (apply Hmax; simpl; auto).
  assert (H2 : lo <= day_of (checkin_date r)) by (apply Hmin; simpl; auto).
  assert (H3 := Hvalid r (or_introl eq_refl)). lia.
Qed.

Lemma Qred_inject_plus (a b : Z) :
  Qred (inject_Z a + inject_Z b) = inject_Z (a + b).
Proof.
  rewrite (Qred_complete _ (inject_Z (a + b)))
    by (now rewrite inject_Z_plus).
  unfold Qred, inject_Z.
  pose proof (Z.ggcd_gcd (a + b) 1) as Hg.
  pose proof (Z.ggcd_correct_divisors (a + b) 1) as Hd.
  destruct (Z.ggcd (a + b) 1) as [g [n d]]. cbn [fst snd] in *.
  rewrite Z.gcd_1_r in Hg. subst g. destruct Hd as [Hn Hd].
  replace n with (a + b) by lia. replace d with 1 by lia. reflexivity.
Qed.

(** X21.  On a table as [load_data] leaves it, with at least one row that
    is not cancelled, the monthly occupancy series is computed from the
    rows that are not cancelled: it has an entry for a month and property
    exactly when such a row of that property checks in during that month,
    and when no row checks out before it checks in the entry is the
    nights of those rows over the days from their first check-in to their
    last check-out, plus one, a finite number. *)
Theorem monthly_occupancy_series (s : store) (df : ref) (t : DataFrame) :
  nth_error s df = Some t ->
  well_formed t = true ->
  as_loaded t ->
  filter (fun r => negb (is_cancelled r)) (rows t) <> [] ->
  (forall r, In r (rows t) ->
             day_of (checkin_date r) <= day_of (checkout_date r)) ->
  exists series,
    fst (test_version.plot_monthly_occupancy_rate df s) = Ok series /\
    forall k,
      match filter (fun r => negb (is_cancelled r)
                             && pair_eqb (month_key r) k) (rows t) with
      | [] => assoc_get pair_eqb k series = None
      | g =>
          exists hi lo,
            date_max (map (fun r => day_of (checkout_date r)) g) = Some hi /\
            date_min (map (fun r => day_of (checkin_date r)) g) = Some lo /\
            1 <= hi - lo + 1 /\
            assoc_get pair_eqb k series
            = Some (Fin (Qred (inject_Z (sum_int64 (map nights g))
                               / inject_Z (hi - lo + 1))))
      end.
Proof.
  intros live wf _ _ Hvalid.
  rewrite (plot_monthly_occupancy_rate_run s df t live wf).
  eexists. split; [reflexivity|]. intros k.
  rewrite monthly_groupby_series, filter_and.
  destruct (filter _ (rows t)) as [|r g] eqn:E; [reflexivity|].
  assert (Hin : forall x, In x (r :: g) -> In x (rows t)).
  { intros x Hx. rewrite <- E in Hx. now apply filter_In in Hx. }
  destruct (group_span (r :: g) ltac:(discriminate)
              (fun x Hx => Hvalid x (Hin x Hx)))
    as (hi & lo & Hhi & Hlo & Hspan).
  exists hi, lo. split; [exact Hhi|]. split; [exact Hlo|].
  split; [lia|].
  change (map ?f (r :: g)) with (f r :: map f g) at 1.
  cbv iota. rewrite <- (map_cons _ r g), group_occupancy_values.
  unfold group_occupancy. rewrite Hhi, Hlo.
  cbn [timedelta days of_int np_add np_truediv].
  rewrite (Qred_inject_plus (hi - lo) 1), inject_Z_sign.
  destruct (hi - lo + 1 ?= 0) eqn:C; [apply Z.compare_eq in C; lia| |];
    reflexivity.
Qed.

Lemma monthly_occupancy_series_witness :
  exists series,
    fst (test_version.plot_monthly_occupancy_rate 0%nat [scenario])
    = Ok series /\
    assoc_get pair_eqb (19723, "A") series = Some (Fin (2 # 3)) /\
    assoc_get pair_eqb (19754, "A") series = None.
Proof.
  assert (Hvalid : forall r, In r (rows scenario) ->
                     day_of (checkin_date r) <= day_of (checkout_date r)).
  { intros r Hr. cbn in Hr.
    repeat (destruct Hr as [<-|Hr]; [cbn; lia|]). contradiction. }
  destruct (monthly_occupancy_series [scenario] 0%nat scenario eq_refl
              eq_refl as_loaded_scenario ltac:(discriminate) Hvalid)
    as (series & Hrun & Hget).
  exists series. split; [exact Hrun|].
  split; [|exact (Hget (19754, "A"))].
  destruct (Hget (19723, "A")) as (hi & lo & Hhi & Hlo & _ & ->).
  injection Hhi as <-. injection Hlo as <-. reflexivity.
Defined.
